(** * MarketAI-Core: the campaign pipeline, embedded and verified

    A shallow embedding of the deterministic core of the repository:
    - [components/step_1_input_parser.py], module [InputParser];
    - [components/step_2_ner_extractor.py], the routing of what spaCy
      finds, module [NerExtractor];
    - [components/step_3_db_retriever.py], module [DbRetriever];
    - [components/step_4_trend_analyzer.py], module [TrendAnalyzer];
    - [components/step_5_context_searcher.py], module [ContextSearcher];
    - [components/step_6_persona_generator.py], module [PersonaGenerator];
    - [components/step_7_strategy_recommender.py] with the correction of
      the generated budget split, module [StrategyRecommender];
    - [components/step_8_budget_allocator.py], module [BudgetAllocator];
    - [components/step_9_creative_writer.py] with the derivation of the
      copy field names, module [CreativeWriter];
    - [components/step_10_visual_prompter.py], module [VisualPrompter];
    - [main.py], the driver [run_pipeline], module [Pipeline], and the
      driver with steps 2, 4 and 5 in place, module [Assembly].

    The language model chains, the search service and the spaCy model are
    collaborators: a step is given what they answer.  The driver is first
    modelled with the entity extractor, the trend analyzer and the context
    searcher as collaborators too; [Assembly] puts the three steps of the
    repository in their place.

    Python values are modelled as follows.  [int] is [Z], unbounded.
    [str] is [string]; only ASCII letters change case and only ASCII white
    space separates words.  A [dict] is an association list in insertion
    order with at most one entry per key.  [float] is IEEE 754 binary64,
    through [SpecFloat] at precision 53 and maximal exponent 1024.  A
    raised exception is a value of [exn].

    The first part of the file is the embedding, the second part states and
    proves the properties. *)

From Stdlib Require Import ZArith List Bool Lia Ascii String DecimalString.
From Stdlib Require Import Floats.SpecFloat.
Import ListNotations.

Open Scope string_scope.
Open Scope Z_scope.

(* ================================================================== *)
(** * Python strings *)

Module PyStr.

(** [c.lower()] on one ASCII character. *)
Definition lower_ascii (c : ascii) : ascii :=
  let n := nat_of_ascii c in
  if (Nat.leb 65 n && Nat.leb n 90)%bool then ascii_of_nat (n + 32) else c.

(** [s.lower()]. *)
Fixpoint lower (s : string) : string :=
  match s with
  | EmptyString => EmptyString
  | String c rest => String (lower_ascii c) (lower rest)
  end.

(** [needle in hay]: [needle] occurs in [hay] as a contiguous substring. *)
Fixpoint contains (needle hay : string) : bool :=
  match hay with
  | EmptyString => prefix needle EmptyString
  | String _ rest => prefix needle hay || contains needle rest
  end.

(** [s.replace(old, new)] for a non-empty [old]: occurrences are taken
    left to right and do not overlap.  [skip] counts the characters of a
    matched occurrence that are still to be dropped. *)
Fixpoint replace_from (old new : string) (skip : nat) (s : string) : string :=
  match s with
  | EmptyString => EmptyString
  | String c rest =>
      match skip with
      | S k => replace_from old new k rest
      | O =>
          if prefix old s
          then new ++ replace_from old new (String.length old - 1) rest
          else String c (replace_from old new 0 rest)
      end
  end.

Definition replace (old new s : string) : string := replace_from old new 0 s.

(** [s.split(sep)] for a non-empty [sep]; [cur] is the piece being read. *)
Fixpoint split_from (sep : string) (skip : nat) (cur s : string) : list string :=
  match s with
  | EmptyString => [cur]
  | String c rest =>
      match skip with
      | S k => split_from sep k cur rest
      | O =>
          if prefix sep s
          then cur :: split_from sep (String.length sep - 1) EmptyString rest
          else split_from sep 0 (cur ++ String c EmptyString) rest
      end
  end.

Definition split (sep s : string) : list string := split_from sep 0 EmptyString s.

(** The ASCII characters [str.isspace] accepts. *)
Definition is_space (c : ascii) : bool :=
  let n := nat_of_ascii c in
  ((Nat.leb 9 n && Nat.leb n 13) || (Nat.leb 28 n && Nat.leb n 32))%bool.

(** [s.split()]: the maximal runs of non-space characters. *)
Fixpoint words_from (cur s : string) : list string :=
  match s with
  | EmptyString => if String.eqb cur EmptyString then [] else [cur]
  | String c rest =>
      if is_space c
      then (if String.eqb cur EmptyString then words_from EmptyString rest
            else cur :: words_from EmptyString rest)
      else words_from (cur ++ String c EmptyString) rest
  end.

Definition words (s : string) : list string := words_from EmptyString s.

(** Truth value of a string: [bool(s)]. *)
Definition truthy (s : string) : bool := negb (String.eqb s EmptyString).

(** [a or b] on two strings. *)
Definition or_else (a b : string) : string := if truthy a then a else b.

(** [s.lstrip()]. *)
Fixpoint lstrip (s : string) : string :=
  match s with
  | EmptyString => EmptyString
  | String c rest => if is_space c then lstrip rest else s
  end.

(** [s.rstrip()]. *)
Fixpoint rstrip (s : string) : string :=
  match s with
  | EmptyString => EmptyString
  | String c rest =>
      match rstrip rest with
      | EmptyString => if is_space c then EmptyString else String c EmptyString
      | kept => String c kept
      end
  end.

(** [s.strip()]: the white space at both ends is taken off. *)
Definition strip (s : string) : string := rstrip (lstrip s).

(** The line feed, ["\n"] in the source. *)
Definition newline : string := String (ascii_of_nat 10) EmptyString.

(** [sep.join(l)]. *)
Fixpoint join (sep : string) (l : list string) : string :=
  match l with
  | [] => EmptyString
  | x :: rest =>
      match rest with
      | [] => x
      | _ :: _ => x ++ sep ++ join sep rest
      end
  end.

(** [x in l] for a list or a set of strings. *)
Definition member (x : string) (l : list string) : bool := existsb (String.eqb x) l.

(** [list(set(l))]: each string once.  The order in which a set is listed
    is not fixed; the source sorts the list right away. *)
Definition distinct (l : list string) : list string := nodup string_dec l.

(** [sorted(l)]: ascending in the order of the character codes. *)
Fixpoint insert_sorted (x : string) (l : list string) : list string :=
  match l with
  | [] => [x]
  | y :: rest => if String.leb x y then x :: l else y :: insert_sorted x rest
  end.

Definition sorted (l : list string) : list string := fold_right insert_sorted [] l.

End PyStr.

(* ================================================================== *)
(** * Python dictionaries with string keys *)

Module PyDict.

Definition dict (V : Type) : Type := list (string * V).

Section Ops.
Context {V : Type}.

(** [d.get(k)]. *)
Fixpoint get (k : string) (d : dict V) : option V :=
  match d with
  | [] => None
  | (k', v) :: rest => if String.eqb k k' then Some v else get k rest
  end.

(** [d.get(k, default)]. *)
Definition get_default (k : string) (default : V) (d : dict V) : V :=
  match get k d with Some v => v | None => default end.

(** [k in d]. *)
Definition mem (k : string) (d : dict V) : bool :=
  match get k d with Some _ => true | None => false end.

(** [d[k] = v]: an existing key keeps its position, a new one goes last. *)
Fixpoint set (k : string) (v : V) (d : dict V) : dict V :=
  match d with
  | [] => [(k, v)]
  | (k', v') :: rest =>
      if String.eqb k k' then (k', v) :: rest else (k', v') :: set k v rest
  end.

(** [d.pop(k, None)], the popped value dropped. *)
Fixpoint pop (k : string) (d : dict V) : dict V :=
  match d with
  | [] => []
  | (k', v') :: rest =>
      if String.eqb k k' then rest else (k', v') :: pop k rest
  end.

Definition keys (d : dict V) : list string := map fst d.
Definition values (d : dict V) : list V := map snd d.

End Ops.

(** [sum(d.values())]. *)
Definition sum_values (d : dict Z) : Z := fold_right Z.add 0 (values d).

(** [max(d, key=d.get)] on a non-empty dictionary: the first key, in
    iteration order, whose value no later value exceeds strictly. *)
Fixpoint max_from (bk : string) (bv : Z) (d : dict Z) : string :=
  match d with
  | [] => bk
  | (k, v) :: rest => if bv <? v then max_from k v rest else max_from bk bv rest
  end.

Definition max_key (d : dict Z) : option string :=
  match d with
  | [] => None
  | (k, v) :: rest => Some (max_from k v rest)
  end.

(** [d[k] += delta] for a key that is present. *)
Definition add_to (k : string) (delta : Z) (d : dict Z) : dict Z :=
  match get k d with
  | Some v => set k (v + delta) d
  | None => d
  end.

End PyDict.

(* ================================================================== *)
(** * Exceptions *)

Inductive exn : Type :=
| ValueError (msg : string)
| HTTPException (status_code : Z) (detail : string)
| OtherError (type_name : string).

(** The result of a call that may raise. *)
Inductive result (A : Type) : Type :=
| Ok (a : A)
| Raise (e : exn).
Arguments Ok {A} a.
Arguments Raise {A} e.

Definition bind {A B : Type} (r : result A) (f : A -> result B) : result B :=
  match r with Ok a => f a | Raise e => Raise e end.

Notation "x <- c ;; k" := (bind c (fun x => k))
  (at level 61, c at next level, right associativity).

(** [d[k]]: a missing key raises [KeyError]. *)
Definition item {V : Type} (k : string) (d : PyDict.dict V) : result V :=
  match PyDict.get k d with
  | Some v => Ok v
  | None => Raise (OtherError "KeyError")
  end.

(* ================================================================== *)
(** * Python floats: IEEE 754 binary64 *)

Module PyFloat.

Definition prec : Z := 53.
Definition emax : Z := 1024.

(** An integer as an exact operand, before any rounding. *)
Definition exact (n : Z) : spec_float :=
  match n with
  | Z0 => S754_zero false
  | Zpos p => S754_finite false p 0
  | Zneg p => S754_finite true p 0
  end.

(** The conversion of an [int] operand to [float]: rounded to nearest,
    ties to even; [OverflowError] when the integer is too large. *)
Definition of_int (n : Z) : result spec_float :=
  match binary_normalize prec emax n 0 false with
  | S754_infinity _ => Raise (OtherError "OverflowError")
  | f => Ok f
  end.

(** [n * f] with [n] an [int] and [f] a [float]. *)
Definition mul_int (n : Z) (f : spec_float) : result spec_float :=
  x <- of_int n ;; Ok (SFmul prec emax x f).

(** [a / b] on two [int]s: the correctly rounded quotient. *)
Definition truediv (a b : Z) : result spec_float :=
  if b =? 0 then Raise (OtherError "ZeroDivisionError")
  else
    match SFdiv prec emax (exact a) (exact b) with
    | S754_infinity _ => Raise (OtherError "OverflowError")
    | f => Ok f
    end.

(** [int(f)]: truncation towards zero. *)
Definition to_int (f : spec_float) : result Z :=
  match f with
  | S754_zero _ => Ok 0
  | S754_finite s m e => Ok (cond_Zopp s (Z.shiftl (Zpos m) e))
  | S754_infinity _ => Raise (OtherError "OverflowError")
  | S754_nan => Raise (ValueError "cannot convert float NaN to integer")
  end.

(** The literals [0.2] and [0.3]: the doubles nearest to 1/5 and 3/10. *)
Definition lit_0_2 : spec_float := S754_finite false 7205759403792794 (-55).
Definition lit_0_3 : spec_float := S754_finite false 5404319552844595 (-54).

(** [int(n * f)]. *)
Definition int_of_mul (n : Z) (f : spec_float) : result Z :=
  x <- mul_int n f ;; to_int x.

End PyFloat.

(* ================================================================== *)
(** * Step 1: the input parser *)

Module InputParser.
Import PyDict.

(** The values a request map holds. *)
Inductive pyval : Type :=
| PyNone
| PyInt (z : Z)
| PyStr (s : string).

(** [class ApiInput] of [main.py]; the request as FastAPI hands it over. *)
Record ApiInput : Type := {
  business_type : string;
  location : string;
  goal_description : string;
  budget_min : option Z;
  budget_max : option Z;
  budget_fixed : option Z;
  channel_preference : string;
  user_id : string
}.

Definition of_opt_int (o : option Z) : pyval :=
  match o with Some z => PyInt z | None => PyNone end.

(** [input_data.dict()], in field order. *)
Definition api_dict (i : ApiInput) : dict pyval :=
  [ ("business_type", PyStr (business_type i));
    ("location", PyStr (location i));
    ("goal_description", PyStr (goal_description i));
    ("budget_min", of_opt_int (budget_min i));
    ("budget_max", of_opt_int (budget_max i));
    ("budget_fixed", of_opt_int (budget_fixed i));
    ("channel_preference", PyStr (channel_preference i));
    ("user_id", PyStr (user_id i)) ].

(** [allowed] in [check_channel_preference]. *)
Definition allowed : list string := ["Online"; "Offline"; "Both"; "AI Recommend"].

Definition check_channel_preference (v : string) : result string :=
  if existsb (String.eqb v) allowed then Ok v
  else Raise (ValueError "channel_preference must be one of ['Online', 'Offline', 'Both', 'AI Recommend']").

(** A required [str] field. *)
Definition req_str (k : string) (raw : dict pyval) : result string :=
  match get k raw with
  | Some (PyStr s) => Ok s
  | Some _ => Raise (ValueError (k ++ ": str type expected"))
  | None => Raise (ValueError (k ++ ": field required"))
  end.

(** An [Optional[int]] field with default [None]. *)
Definition opt_int (k : string) (raw : dict pyval) : result (option Z) :=
  match get k raw with
  | Some (PyInt z) => Ok (Some z)
  | Some PyNone | None => Ok None
  | Some (PyStr _) => Raise (ValueError (k ++ ": value is not a valid integer"))
  end.

(** The construction of [_CampaignInputInternal] from the raw map, which
    validates it.  The internal model has the fields of [ApiInput], so the
    validated value is given that type.  Keys it does not declare are
    ignored.  The model keeps values as they are typed and does no coercion
    between [str] and [int]. *)
Definition validate (raw : dict pyval) : result ApiInput :=
  bt <- req_str "business_type" raw ;;
  loc <- req_str "location" raw ;;
  goal <- req_str "goal_description" raw ;;
  bmin <- opt_int "budget_min" raw ;;
  bmax <- opt_int "budget_max" raw ;;
  bfix <- opt_int "budget_fixed" raw ;;
  cp0 <- req_str "channel_preference" raw ;;
  cp <- check_channel_preference cp0 ;;
  uid <- req_str "user_id" raw ;;
  Ok {| business_type := bt; location := loc; goal_description := goal;
        budget_min := bmin; budget_max := bmax; budget_fixed := bfix;
        channel_preference := cp; user_id := uid |}.

(** [cleaned_data.get(k) is not None], with the integer read. *)
Definition get_int (k : string) (d : dict pyval) : option Z :=
  match get k d with Some (PyInt z) => Some z | _ => None end.

(** The budget standardisation of [parse_input]. *)
Definition standardize_budget (cleaned_data : dict pyval) : dict pyval :=
  match get_int "budget_fixed" cleaned_data with
  | Some f => set "budget" (PyInt f) cleaned_data
  | None =>
      match get_int "budget_min" cleaned_data, get_int "budget_max" cleaned_data with
      | Some lo, Some hi => set "budget" (PyInt ((lo + hi) / 2)) cleaned_data
      | Some lo, None => set "budget" (PyInt lo) cleaned_data
      | None, _ => set "budget" (PyInt 5000) cleaned_data
      end
  end.

(** [str(e)]; for an exception other than [ValueError] and
    [HTTPException] the name of its type stands for its text. *)
Definition exn_text (e : exn) : string :=
  match e with
  | ValueError m => m
  | HTTPException _ d => d
  | OtherError n => n
  end.

(** [parse_input(raw_input)]. *)
Definition parse_input (raw_input : dict pyval) : result (dict pyval) :=
  match validate raw_input with
  | Ok validated_input =>
      let cleaned_data := api_dict validated_input in
      let cleaned_data := standardize_budget cleaned_data in
      let cleaned_data := pop "budget_min" cleaned_data in
      let cleaned_data := pop "budget_max" cleaned_data in
      let cleaned_data := pop "budget_fixed" cleaned_data in
      Ok cleaned_data
  | Raise e => Raise (ValueError ("Input Parsing Failed: " ++ exn_text e))
  end.

End InputParser.

(* ================================================================== *)
(** * Step 8: the budget allocator *)

Module BudgetAllocator.
Import PyDict.

(** The search for a channel that did well before: the word before
    [" had the highest Conversion Rate"] in the summary, matched against the
    recommended channels by containment. *)
Definition find_high_roi (recommended_channels : list string)
    (previous_results : dict string) : option string :=
  match get "previous_campaign_summary" previous_results with
  | Some summary =>
      if PyStr.contains "highest Conversion Rate" summary then
        match PyStr.split " had the highest Conversion Rate" summary with
        | part0 :: _ =>
            match rev (PyStr.words part0) with
            | potential_channel :: _ =>
                find (fun rec_channel => PyStr.contains potential_channel rec_channel)
                     recommended_channels
            | [] => None
            end
        | [] => None
        end
      else None
  | None => None
  end.

(** The loop [for i, channel in enumerate(recommended_channels)]. *)
Fixpoint initial_split (base_allocation remainder i : Z)
    (channels : list string) (adjusted : dict Z) : dict Z :=
  match channels with
  | [] => adjusted
  | channel :: rest =>
      initial_split base_allocation remainder (i + 1) rest
        (set channel (base_allocation + (if i <? remainder then 1 else 0)) adjusted)
  end.

(** The loop that computes what each other channel gives up; the state is
    [(actual_boost_taken, reductions)]. *)
Fixpoint collect_reductions (adjusted : dict Z) (high_roi_channel : string)
    (boost_amount total_other_budget : Z) (channels : list string)
    (st : Z * dict Z) : result (Z * dict Z) :=
  match channels with
  | [] => Ok st
  | channel :: rest =>
      if String.eqb channel high_roi_channel
      then collect_reductions adjusted high_roi_channel boost_amount
             total_other_budget rest st
      else
        a <- item channel adjusted ;;
        proportion <- PyFloat.truediv a total_other_budget ;;
        r1 <- PyFloat.int_of_mul boost_amount proportion ;;
        r2 <- PyFloat.int_of_mul a PyFloat.lit_0_3 ;;
        let reduction := Z.min r1 r2 in
        collect_reductions adjusted high_roi_channel boost_amount
          total_other_budget rest
          (fst st + reduction, set channel reduction (snd st))
  end.

(** The loop [for channel, reduction in reductions.items()]. *)
Fixpoint apply_reductions (reductions : list (string * Z)) (adjusted : dict Z)
    : dict Z :=
  match reductions with
  | [] => adjusted
  | (channel, reduction) :: rest =>
      apply_reductions rest (add_to channel (- reduction) adjusted)
  end.

(** The boost of the channel that did well, paid by the others. *)
Definition apply_boost (total_budget base_allocation : Z)
    (recommended_channels : list string) (high_roi_channel : string)
    (adjusted : dict Z) : result (dict Z) :=
  let max_boost := base_allocation / 2 in
  h <- item high_roi_channel adjusted ;;
  intended_boost <- PyFloat.int_of_mul h PyFloat.lit_0_2 ;;
  let boost_amount := Z.min max_boost intended_boost in
  let total_other_budget := total_budget - h in
  if total_other_budget >? 0 then
    st <- collect_reductions adjusted high_roi_channel boost_amount
            total_other_budget recommended_channels (0, []) ;;
    let actual_boost_taken := fst st in
    if actual_boost_taken >? 0
    then Ok (apply_reductions (snd st)
               (add_to high_roi_channel actual_boost_taken adjusted))
    else Ok adjusted
  else Ok adjusted.

(** The final check: the difference to [total_budget] goes to the channel
    with the largest allocation. *)
Definition fix_total (total_budget : Z) (adjusted : dict Z) : dict Z :=
  let diff := total_budget - sum_values adjusted in
  if negb (diff =? 0) then
    match max_key adjusted with
    | Some target_channel => add_to target_channel diff adjusted
    | None => adjusted
    end
  else adjusted.

(** The safety check: a negative allocation becomes zero. *)
Definition clamp_negative (adjusted : dict Z) : dict Z :=
  map (fun kv => (fst kv, if snd kv <? 0 then 0 else snd kv)) adjusted.

(** [allocate_budget(total_budget, recommended_channels, previous_results)];
    the result is the dictionary returned under the key ["budget_split"]. *)
Definition allocate_budget (total_budget : Z) (recommended_channels : list string)
    (previous_results : dict string) : result (dict Z) :=
  let num_channels := Z.of_nat (List.length recommended_channels) in
  if (num_channels =? 0) || (total_budget <=? 0) then Ok []
  else
    let high_roi_channel := find_high_roi recommended_channels previous_results in
    let base_allocation := total_budget / num_channels in
    let remainder := total_budget mod num_channels in
    let adjusted := initial_split base_allocation remainder 0 recommended_channels [] in
    adjusted <-
      match high_roi_channel with
      | Some h =>
          if PyStr.truthy h && mem h adjusted && (num_channels >? 1)
          then apply_boost total_budget base_allocation recommended_channels h adjusted
          else Ok adjusted
      | None => Ok adjusted
      end ;;
    let adjusted := fix_total total_budget adjusted in
    let adjusted := clamp_negative adjusted in
    let adjusted := fix_total total_budget adjusted in
    Ok adjusted.

End BudgetAllocator.

(* ================================================================== *)
(** * The generative steps, as the driver sees them *)

(** What invoking a LangChain chain does: it returns the parsed value, or it
    raises an exception of type [type_name] whose text is [message]. *)
Inductive chain_outcome (A : Type) : Type :=
| Returned (a : A)
| Failed (type_name message : string).
Arguments Returned {A} a.
Arguments Failed {A} type_name message.

(** What a generative step returns: the generated value, or the error
    object [{"error": error, "details": details, ...}]. *)
Inductive generated (A : Type) : Type :=
| Generated (a : A)
| ErrorObject (error : string) (details : option string).
Arguments Generated {A} a.
Arguments ErrorObject {A} error details.

(** [isinstance(g, dict) and g.get("error")]. *)
Definition has_error {A : Type} (g : generated A) : bool :=
  match g with
  | Generated _ => false
  | ErrorObject error _ => PyStr.truthy error
  end.

(** [g.get('details')] inside an f-string. *)
Definition details_text {A : Type} (g : generated A) : string :=
  match g with
  | ErrorObject _ (Some d) => d
  | _ => "None"
  end.

(* ================================================================== *)
(** * Step 3: the history store *)

Module DbRetriever.

(** [get_previous_results]: the mocked store. *)
Definition get_previous_results (user_id : string) : PyDict.dict string :=
  if String.eqb user_id "user123_with_history" then
    [("previous_campaign_summary",
      "Last campaign (Diwali Sale): Facebook Ads (Budget: 3k INR, Clicks: 45, Conversions: 8, Rate: 17.8%), Pamphlets (Budget: 2k INR, Scans: 15, Conversions: 5, Rate: 33.3%). Pamphlets had higher Conversion Rate.")]
  else [("previous_campaign_summary", "No previous campaign data found.")].

End DbRetriever.

(* ================================================================== *)
(** * Step 6: the persona generator *)

Module PersonaGenerator.

Record AudiencePersona : Type := {
  segment_name : string;
  description : string;
  key_pain_points : list string;
  preferred_channels : list string;
  motivation_triggers : list string
}.

(** [generate_persona]: [persona_chain] is [None] when the chain was not
    initialised, and otherwise what invoking it on the inputs does. *)
Definition generate_persona (persona_chain : option (chain_outcome AudiencePersona))
    : generated AudiencePersona :=
  match persona_chain with
  | None => ErrorObject "Persona generation chain not initialized." None
  | Some (Returned res) => Generated res
  | Some (Failed type_name message) =>
      ErrorObject ("Failed to generate persona via LangChain: " ++ type_name)
                  (Some message)
  end.

End PersonaGenerator.

(* ================================================================== *)
(** * Step 7: the strategy recommender *)

Module StrategyRecommender.
Import PyDict.

(** The JSON object the strategy chain returns; a key may be missing. *)
Record CampaignStrategy : Type := {
  recommended_channels : option (list string);
  budget_split : option (dict Z);
  campaign_angle : option string;
  justification : option string
}.

Definition with_budget_split (s : CampaignStrategy) (split : dict Z)
    : CampaignStrategy :=
  {| recommended_channels := recommended_channels s;
     budget_split := Some split;
     campaign_angle := campaign_angle s;
     justification := justification s |}.

(** The equal split of the fallback: [new_split[ch] = base + (1 if i < rem else 0)]. *)
Fixpoint resplit (base rem i : Z) (channels : list string) (new_split : dict Z)
    : dict Z :=
  match channels with
  | [] => new_split
  | ch :: rest =>
      resplit base rem (i + 1) rest
        (set ch (base + (if i <? rem then 1 else 0)) new_split)
  end.

(** The post-processing of [generate_strategy]: make the split sum to
    [total_budget]. *)
Definition adjust_budget_split (total_budget : Z) (res : CampaignStrategy)
    : result CampaignStrategy :=
  match budget_split res with
  | Some ((_ :: _) as split) =>
      let calculated_total := sum_values split in
      let budget_diff := total_budget - calculated_total in
      if negb (budget_diff =? 0) then
        match max_key split with
        | Some largest_channel =>
            let split := add_to largest_channel budget_diff split in
            v <- item largest_channel split ;;
            if v <? 0 then
              channels <-
                match recommended_channels res with
                | Some l => Ok l
                | None => Raise (OtherError "KeyError")
                end ;;
              let num_channels := Z.of_nat (List.length channels) in
              if num_channels =? 0 then Raise (OtherError "ZeroDivisionError")
              else
                let base := total_budget / num_channels in
                let rem := total_budget mod num_channels in
                Ok (with_budget_split res (resplit base rem 0 channels []))
            else Ok (with_budget_split res split)
        | None => Ok res
        end
      else Ok res
  | _ => Ok res
  end.

Definition exn_type_name (e : exn) : string :=
  match e with
  | ValueError _ => "ValueError"
  | HTTPException _ _ => "HTTPException"
  | OtherError n => n
  end.

(** [generate_strategy] once the chain has answered; [total_budget] is
    [user_input.get('budget', 5000)]. *)
Definition generate_strategy (total_budget : Z)
    (chain : option (chain_outcome CampaignStrategy))
    : generated CampaignStrategy :=
  match chain with
  | None => ErrorObject "Strategy generation chain not initialized." None
  | Some (Failed type_name message) =>
      ErrorObject ("Failed to generate strategy via LangChain: " ++ type_name)
                  (Some message)
  | Some (Returned res) =>
      match adjust_budget_split total_budget res with
      | Ok res' => Generated res'
      | Raise e =>
          ErrorObject ("Failed to generate strategy via LangChain: " ++ exn_type_name e)
                      (Some (InputParser.exn_text e))
      end
  end.

End StrategyRecommender.

(* ================================================================== *)
(** * Step 9: the creative writer *)

Module CreativeWriter.

(** [key_name] in [create_creative_parser_and_prompt]. *)
Definition key_name (channel : string) : string :=
  PyStr.replace "." ""
    (PyStr.replace "&" "and"
       (PyStr.replace "-" "_"
          (PyStr.replace " " "_" (PyStr.lower channel)))) ++ "_copy".

(** The field names of the schema built for one request. *)
Definition field_names (channels : list string) : list string :=
  map key_name (match channels with [] => ["default_channel"] | _ => channels end).

(** [generate_creative]: the chain is asked for one text per field name. *)
Definition generate_creative (llm_ready : bool)
    (chain : list string -> chain_outcome (PyDict.dict string))
    (recommended_channels : list string) : generated (PyDict.dict string) :=
  if negb llm_ready then ErrorObject "LLM not initialized for creative writing." None
  else
    match recommended_channels with
    | [] => Generated []
    | _ =>
        match chain (field_names recommended_channels) with
        | Returned res => Generated res
        | Failed type_name message =>
            ErrorObject ("Failed to generate creative content via LangChain: " ++ type_name)
                        (Some message)
        end
    end.

End CreativeWriter.

(* ================================================================== *)
(** * Step 10: the visual prompter *)

Module VisualPrompter.

(** The JSON object the chain returns; the key may be missing. *)
Record VisualPrompts : Type := { visual_prompts : option (list string) }.

(** [generate_visual_prompts]. *)
Definition generate_visual_prompts (visual_chain : option (chain_outcome VisualPrompts))
    : generated VisualPrompts :=
  match visual_chain with
  | None => ErrorObject "Visual prompt generation chain not initialized." None
  | Some (Returned res) => Generated res
  | Some (Failed type_name message) =>
      ErrorObject ("Failed to generate visual prompts via LangChain: " ++ type_name)
                  (Some message)
  end.

End VisualPrompter.

(* ================================================================== *)
(** * The driver: [run_pipeline] of [main.py] *)

Module Pipeline.
Import PyDict InputParser.
Export DbRetriever PersonaGenerator VisualPrompter.

(** What [extract_entities] returns: the error marker, or lists by category. *)
Inductive entities : Type :=
| EntitiesError (error : string)
| EntitiesFound (by_category : dict (list string)).

(** [entities.get(k, [])]. *)
Definition entities_get (k : string) (e : entities) : list string :=
  match e with
  | EntitiesFound d => get_default k [] d
  | EntitiesError _ => []
  end.

Record TrendData : Type := {
  timing_recommendation : string;
  related_queries : list string
}.

Record LocalContext : Type := {
  local_events_summary : string;
  competitor_types_summary : string
}.

Definition Strategy : Type := StrategyRecommender.CampaignStrategy.

(** The external collaborators of one request: the language model chains,
    the search service and the entity extractor.  A chain that was not
    initialised at start-up is [None]. *)
Record Collaborators : Type := {
  extract_entities : string -> entities;
  analyze_trends_via_search : list string -> string -> TrendData;
  search_local_context : string -> string -> option string -> LocalContext;
  persona_chain :
    option (dict pyval -> entities -> TrendData -> LocalContext -> dict string ->
            chain_outcome AudiencePersona);
  strategy_chain :
    option (dict pyval -> generated AudiencePersona -> LocalContext -> dict string ->
            chain_outcome Strategy);
  creative_llm : bool;
  creative_chain :
    string -> generated AudiencePersona -> list string -> chain_outcome (dict string);
  visual_chain :
    option (string -> generated AudiencePersona -> generated (dict string) ->
            chain_outcome VisualPrompts)
}.

(** The calls the driver makes, in the order of the source. *)
Inductive step : Type :=
| ParseInput | ExtractEntities | GetPreviousResults | AnalyzeTrends
| SearchLocalContext | GeneratePersona | GenerateStrategy | AllocateBudget
| GenerateCreative | GenerateVisualPrompts | Aggregate.

(** One entry of the log of a request: step [s] was called, and
    [error_object] tells whether it handed back an error object. *)
Definition event : Type := (step * bool)%type.

(** The body of the driver runs in a monad that logs every call made and
    stops at the first exception. *)
Definition M (A : Type) : Type := list event -> list event * result A.

Definition ret {A : Type} (a : A) : M A := fun log => (log, Ok a).

Definition bindM {A B : Type} (m : M A) (f : A -> M B) : M B :=
  fun log =>
    match m log with
    | (log', Ok a) => f a log'
    | (log', Raise e) => (log', Raise e)
    end.

(** A computation of the driver itself, which makes no call. *)
Definition lift {A : Type} (r : result A) : M A := fun log => (log, r).

(** A call of step [s] whose outcome is [r]. *)
Definition call {A : Type} (s : step) (error_object : A -> bool) (r : result A) : M A :=
  fun log =>
    ((log ++ [(s, match r with Ok a => error_object a | Raise _ => false end)])%list, r).

(** A call of a step that has no error object. *)
Definition call_plain {A : Type} (s : step) (r : result A) : M A :=
  call s (fun _ => false) r.

(** Is the value an error object, whatever its text? *)
Definition is_error_object {A : Type} (g : generated A) : bool :=
  match g with
  | Generated _ => false
  | ErrorObject _ _ => true
  end.

Definition is_entities_error (e : entities) : bool :=
  match e with
  | EntitiesError _ => true
  | EntitiesFound _ => false
  end.

Notation "x <~ c ;; k" := (bindM c (fun x => k))
  (at level 61, c at next level, right associativity).

(** [cleaned_input[k]] for a text field. *)
Definition str_item (k : string) (d : dict pyval) : result string :=
  v <- item k d ;;
  match v with
  | PyStr s => Ok s
  | _ => Raise (OtherError "TypeError")
  end.

(** [str(cleaned_input.get(k, ''))]. *)
Definition str_get (k : string) (d : dict pyval) : string :=
  match get k d with
  | Some (PyStr s) => s
  | Some (PyInt z) => NilEmpty.string_of_int (Z.to_int z)
  | Some PyNone => "None"
  | None => ""
  end.

(** [cleaned_input.get('budget', default)]. *)
Definition budget_get (default : Z) (d : dict pyval) : Z :=
  match get "budget" d with
  | Some (PyInt z) => z
  | _ => default
  end.

(** [campaign_strategy.get('recommended_channels', [])]. *)
Definition strategy_channels (g : generated Strategy) : list string :=
  match g with
  | Generated s =>
      match StrategyRecommender.recommended_channels s with
      | Some l => l
      | None => []
      end
  | ErrorObject _ _ => []
  end.

(** [campaign_strategy.get('campaign_angle', default)]. *)
Definition strategy_angle (default : string) (g : generated Strategy) : string :=
  match g with
  | Generated s =>
      match StrategyRecommender.campaign_angle s with
      | Some a => a
      | None => default
      end
  | ErrorObject _ _ => default
  end.

(** [creative_content.get('channel_copy', {})]. *)
Definition channel_copy (g : generated (dict string)) : dict string :=
  match g with
  | Generated d => d
  | ErrorObject _ _ => []
  end.

(** [visual_prompts_result.get("visual_prompts", [])]. *)
Definition visual_prompts_get (g : generated VisualPrompts) : list string :=
  match g with
  | Generated v => match visual_prompts v with Some l => l | None => [] end
  | ErrorObject _ _ => []
  end.

Record ChannelRecommendation : Type := {
  channel_name : string;
  allocated_budget : Z;
  target_audience_specifics : string;
  suggested_copy : string;
  visual_prompt : string;
  call_to_action : string;
  tracking_info_type : string
}.

Record CampaignOverview : Type := {
  suggested_theme_name : string;
  strategic_angle : string;
  primary_target_audience : generated AudiencePersona;
  timing_rec : string;
  competitor_note : string
}.

Record CampaignPlan : Type := {
  campaign_overview : CampaignOverview;
  channel_recommendations : list ChannelRecommendation;
  feedback_loop_note : string
}.

(** [channel_copy_key] in the channel loop of the aggregation. *)
Definition channel_copy_key (channel : string) : string :=
  PyStr.replace "-" "_" (PyStr.replace " " "_" (PyStr.lower channel)) ++ "_copy".

(** ["link" if "Ads" in channel or "Online" in channel else "qr_code"]. *)
Definition tracking_type (channel : string) : string :=
  if PyStr.contains "Ads" channel || PyStr.contains "Online" channel
  then "link" else "qr_code".

(** One turn of the channel loop. *)
Definition channel_rec (budget_split : dict Z) (creative_content : generated (dict string))
    (visual_prompts : list string) (channel : string) : ChannelRecommendation :=
  let channel_copy_key := channel_copy_key channel in
  let suggested_copy := get_default channel_copy_key "N/A" (channel_copy creative_content) in
  let visual_prompt :=
    match visual_prompts with
    | p :: _ => p
    | [] => "No visual prompt generated."
    end in
  {| channel_name := channel;
     allocated_budget := get_default channel 0 budget_split;
     target_audience_specifics := "Targeting based on persona for " ++ channel;
     suggested_copy := suggested_copy;
     visual_prompt := visual_prompt;
     call_to_action := "Engage via " ++ channel ++ "!";
     tracking_info_type := tracking_type channel |}.

(** The check after each generative step:
    [if isinstance(g, dict) and g.get("error"): raise ValueError(...)]. *)
Definition fail_on_error {A : Type} (what : string) (g : generated A) : M unit :=
  if has_error g
  then lift (Raise (ValueError (what ++ " Failed: " ++ details_text g)))
  else ret tt.

(** The [try] block of [run_pipeline]. *)
Definition pipeline_body (c : Collaborators) (input_data : ApiInput) : M CampaignPlan :=
  let raw_input_dict := api_dict input_data in
  cleaned_input <~ call_plain ParseInput (parse_input raw_input_dict) ;;
  goal <~ lift (str_item "goal_description" cleaned_input) ;;
  entities <~ call ExtractEntities is_entities_error (Ok (extract_entities c goal)) ;;
  uid <~ lift (str_item "user_id" cleaned_input) ;;
  previous_results <~ call_plain GetPreviousResults (Ok (get_previous_results uid)) ;;
  let trend_keywords :=
    (entities_get "products_services" entities ++ entities_get "misc_keywords" entities)%list in
  loc <~ lift (str_item "location" cleaned_input) ;;
  trend_data <~ call_plain AnalyzeTrends (Ok (analyze_trends_via_search c trend_keywords loc)) ;;
  let events_list := entities_get "events" entities in
  let first_event := match events_list with e :: _ => Some e | [] => None end in
  local_context <~ call_plain SearchLocalContext
    (Ok (search_local_context c (str_get "location" cleaned_input)
           (str_get "business_type" cleaned_input) first_event)) ;;
  audience_persona <~ call GeneratePersona is_error_object
    (Ok (generate_persona
           (option_map (fun run => run cleaned_input entities trend_data local_context
                                     previous_results) (persona_chain c)))) ;;
  _ <~ fail_on_error "Persona Generation" audience_persona ;;
  campaign_strategy <~ call GenerateStrategy is_error_object
    (Ok (StrategyRecommender.generate_strategy (budget_get 5000 cleaned_input)
           (option_map (fun run => run cleaned_input audience_persona local_context
                                     previous_results) (strategy_chain c)))) ;;
  _ <~ fail_on_error "Strategy Generation" campaign_strategy ;;
  let recommended_channels := strategy_channels campaign_strategy in
  budget_split <~ call_plain AllocateBudget
    (BudgetAllocator.allocate_budget (budget_get 0 cleaned_input)
       recommended_channels previous_results) ;;
  creative_content <~ call GenerateCreative is_error_object
    (Ok (CreativeWriter.generate_creative (creative_llm c)
           (creative_chain c (strategy_angle "Default Angle" campaign_strategy)
              audience_persona)
           recommended_channels)) ;;
  _ <~ fail_on_error "Creative Generation" creative_content ;;
  visual_prompts_result <~ call GenerateVisualPrompts is_error_object
    (Ok (generate_visual_prompts
           (option_map (fun run => run (strategy_angle "Default Angle" campaign_strategy)
                                     audience_persona creative_content)
              (visual_chain c)))) ;;
  let visual_prompts := visual_prompts_get visual_prompts_result in
  _ <~ fail_on_error "Visual Prompt Generation" visual_prompts_result ;;
  call_plain Aggregate
    (Ok {| campaign_overview :=
             {| suggested_theme_name :=
                  strategy_angle "Generated Campaign" campaign_strategy;
                strategic_angle := strategy_angle "N/A" campaign_strategy;
                primary_target_audience := audience_persona;
                timing_rec := timing_recommendation trend_data;
                competitor_note := competitor_types_summary local_context |};
           channel_recommendations :=
             map (channel_rec budget_split creative_content visual_prompts)
                 recommended_channels;
           feedback_loop_note :=
             get_default "previous_campaign_summary" "No past data used."
               previous_results |}).

(** [run_pipeline]: the [try] block and its handlers.  The answer is the
    plan, or the [HTTPException] FastAPI turns into the error response;
    the log lists the calls that were made.  The validation of the plan
    against [class CampaignPlan] checks the types of its three fields,
    which the record fixes, so it always passes. *)
Definition run_pipeline (c : Collaborators) (input_data : ApiInput)
    : list event * result CampaignPlan :=
  match pipeline_body c input_data [] with
  | (log, Ok final_plan) => (log, Ok final_plan)
  | (log, Raise (ValueError ve)) => (log, Raise (HTTPException 500 ve))
  | (log, Raise (HTTPException status_code detail)) =>
      (log, Raise (HTTPException status_code detail))
  | (log, Raise (OtherError type_name)) =>
      (log, Raise (HTTPException 500 ("An internal error occurred: " ++ type_name)))
  end.

End Pipeline.

(* ================================================================== *)
(** * Step 2: the entity extractor *)

Module NerExtractor.
Import PyDict.

(** What the spaCy pipeline hands over for a text: the named entities,
    each with its label and its text, and the tokens, each with its part
    of speech, its stop-word flag, its lemma and its text. *)
Record Span : Type := { label_ : string; ent_text : string }.

Record Token : Type := {
  pos_ : string;
  is_stop : bool;
  lemma_ : string;
  token_text : string
}.

Record Doc : Type := { ents : list Span; tokens : list Token }.

(** [entities[k].append(t)]; a key that is not there yet is created with
    the empty list first, as the source does for ["offer_terms"]. *)
Definition append_to (k t : string) (entities : dict (list string))
    : dict (list string) :=
  set k (get_default k [] entities ++ [t])%list entities.

(** The [if]/[elif] chain on the label of an entity. *)
Definition route (label text : string) (entities : dict (list string))
    : dict (list string) :=
  if PyStr.member label ["GPE"; "LOC"] then append_to "locations" text entities
  else if String.eqb label "EVENT" then append_to "events" text entities
  else if String.eqb label "PRODUCT" then append_to "products_services" text entities
  else if PyStr.member label ["PERSON"; "NORP"] then append_to "target_groups" text entities
  else if PyStr.member label ["DATE"; "TIME"] then append_to "dates_times" text entities
  else if String.eqb label "ORG" then append_to "orgs" text entities
  else entities.

(** The loop [for ent in doc.ents]; the state is
    [(entities, processed_texts)]. *)
Fixpoint entity_loop (ents : list Span) (st : dict (list string) * list string)
    : dict (list string) * list string :=
  match ents with
  | [] => st
  | ent :: rest =>
      let text := PyStr.lower (PyStr.strip (ent_text ent)) in
      if negb (PyStr.truthy text) || PyStr.member text (snd st)
      then entity_loop rest st
      else entity_loop rest (route (label_ ent) text (fst st), text :: snd st)
  end.

(** The loop [for token in doc]. *)
Fixpoint token_loop (tokens : list Token) (st : dict (list string) * list string)
    : dict (list string) * list string :=
  match tokens with
  | [] => st
  | token :: rest =>
      if PyStr.member (pos_ token) ["NOUN"; "PROPN"] && negb (is_stop token)
         && negb (PyStr.member (PyStr.lower (lemma_ token)) (snd st))
      then
        let keyword := PyStr.lower (lemma_ token) in
        let entities := append_to "misc_keywords" keyword (fst st) in
        let processed_texts := keyword :: snd st in
        if PyStr.contains "discount" keyword || PyStr.contains "sale" keyword
           || PyStr.contains "offer" keyword || PyStr.contains "%" (token_text token)
        then token_loop rest
               (append_to "offer_terms" (token_text token) entities, processed_texts)
        else token_loop rest (entities, processed_texts)
      else token_loop rest st
  end.

(** The categories every answer starts from. *)
Definition empty_entities : dict (list string) :=
  [ ("locations", []); ("events", []); ("products_services", []);
    ("target_groups", []); ("dates_times", []); ("orgs", []);
    ("misc_keywords", []) ].

(** The last loop: [entities[key] = sorted(list(set(entities[key])))]. *)
Definition tidy (entities : dict (list string)) : dict (list string) :=
  map (fun kv => (fst kv, PyStr.sorted (PyStr.distinct (snd kv)))) entities.

(** [extract_entities(goal_description)]; [nlp] is [None] when the spaCy
    model could not be loaded. *)
Definition extract_entities (nlp : option (string -> Doc)) (goal_description : string)
    : Pipeline.entities :=
  match nlp with
  | None => Pipeline.EntitiesError "spaCy model not available"
  | Some nlp =>
      if negb (PyStr.truthy (PyStr.strip goal_description))
      then Pipeline.EntitiesFound []
      else
        let doc := nlp goal_description in
        let st := entity_loop (ents doc) (empty_entities, []) in
        let st := token_loop (tokens doc) st in
        Pipeline.EntitiesFound (tidy (fst st))
  end.

End NerExtractor.

(* ================================================================== *)
(** * The search service, as steps 4 and 5 read it *)

Module Serper.

(** The JSON body of an answer, as far as it is read: the answer box with
    its snippet and its answer, and the snippet of each organic result.
    A key that is missing is [None]. *)
Record AnswerBox : Type := { snippet : option string; answer : option string }.

Record SearchResults : Type := {
  answerBox : option AnswerBox;
  organic : option (list (option string))
}.

(** What posting a query does: the body of the answer, or one of the
    exceptions the helpers tell apart. *)
Inductive outcome : Type :=
| Responded (results : SearchResults)
| HTTPStatusError (status_code : Z)
| RequestError
| UnexpectedError.

(** [d.get(k, "")]. *)
Definition text_or_empty (o : option string) : string :=
  match o with Some s => s | None => EmptyString end.

(** The snippets both helpers collect: that of the answer box, or its
    answer, then those of the first three organic results; the empty ones
    are filtered out and the rest joined by line feeds. *)
Definition joined_snippets (results : SearchResults) : string :=
  let snippets :=
    (match answerBox results with
     | Some box =>
         [PyStr.or_else (text_or_empty (snippet box)) (text_or_empty (answer box))]
     | None => []
     end ++
     match organic results with
     | Some items => map text_or_empty (firstn 3 items)
     | None => []
     end)%list in
  PyStr.join PyStr.newline (filter PyStr.truthy snippets).

End Serper.

(* ================================================================== *)
(** * Step 4: the trend analyzer *)

Module TrendAnalyzer.
Import Serper.

(** [search_google_trends_helper(query)]; [api_key] tells whether
    [SERPER_API_KEY] is set, [post] is the search service. *)
Definition search_google_trends_helper (api_key : bool) (post : string -> outcome)
    (query : string) : string :=
  if negb api_key then "Search API key not configured."
  else
    match post query with
    | Responded results =>
        let joined_snippets := joined_snippets results in
        if negb (PyStr.truthy joined_snippets)
        then "No relevant search result snippets found."
        else joined_snippets
    | _ => "Search request failed."
    end.

(** The two queries of [analyze_trends_via_search]. *)
Definition combined_keywords (keywords : list string) : string :=
  PyStr.join " " (firstn 3 keywords).

Definition timing_query (keywords : list string) (location : string)
    (event : option string) : string :=
  "best time marketing campaign " ++ combined_keywords keywords ++ " " ++
  match event with
  | Some e => if PyStr.truthy e then e else EmptyString
  | None => EmptyString
  end ++ " in " ++ location.

Definition interest_query (keywords : list string) (location : string) : string :=
  "latest news " ++ combined_keywords keywords ++ " offers promotions in " ++ location.

Definition no_queries (timing_recommendation : string) : Pipeline.TrendData :=
  {| Pipeline.timing_recommendation := timing_recommendation;
     Pipeline.related_queries := [] |}.

(** [analyze_trends_via_search(keywords, location, event)].  The chain is
    invoked on topic, location and search results.  The helper catches
    every exception of the search, so gathering the two searches does not
    raise. *)
Definition analyze_trends_via_search (api_key : bool) (post : string -> outcome)
    (trend_summary_chain : option (string -> string -> string -> chain_outcome string))
    (keywords : list string) (location : string) (event : option string)
    : Pipeline.TrendData :=
  match keywords with
  | [] => no_queries "No keywords provided."
  | _ :: _ =>
      let timing_snippets :=
        search_google_trends_helper api_key post (timing_query keywords location event) in
      let interest_snippets :=
        search_google_trends_helper api_key post (interest_query keywords location) in
      let all_snippets :=
        PyStr.strip (PyStr.or_else timing_snippets EmptyString ++ PyStr.newline ++
                     PyStr.or_else interest_snippets EmptyString) in
      if negb (PyStr.truthy all_snippets) then no_queries "No valid search results found."
      else
        match trend_summary_chain with
        | Some invoke =>
            match invoke (combined_keywords keywords) location all_snippets with
            | Returned text => no_queries (PyStr.strip text)
            | Failed _ _ => no_queries "Error summarizing trend search results."
            end
        | None => no_queries "LLM not available for trend summary."
        end
  end.

End TrendAnalyzer.

(* ================================================================== *)
(** * Step 5: the context searcher *)

Module ContextSearcher.
Import Serper.

(** [str(n)] for a status code. *)
Definition str_of_int (n : Z) : string := NilEmpty.string_of_int (Z.to_int n).

(** [search_google(query)]. *)
Definition search_google (api_key : bool) (post : string -> outcome) (query : string)
    : string :=
  if negb api_key then "Search API key not configured."
  else
    match post query with
    | Responded results =>
        let joined_snippets := joined_snippets results in
        if negb (PyStr.truthy joined_snippets)
        then "No relevant search result snippets found."
        else joined_snippets
    | HTTPStatusError status_code =>
        "Search failed with status: " ++ str_of_int status_code
    | RequestError => "Search request failed."
    | UnexpectedError => "Unexpected error during search."
    end.

(** The two queries of [search_local_context]. *)
Definition event_query (location : string) (event : option string) : string :=
  "major local events festivals happening in " ++ location ++
  match event with
  | Some e => if PyStr.truthy e then " around " ++ e else EmptyString
  | None => EmptyString
  end.

Definition competitor_query (location business_type : string) : string :=
  "types of competitors for a " ++ business_type ++ " in " ++ location.

(** The test on the snippets before the chain is asked: not empty, and
    none of the three words in them, whatever the letter case. *)
Definition usable (snippets : string) : bool :=
  PyStr.truthy snippets
  && negb (PyStr.contains "failed" (PyStr.lower snippets))
  && negb (PyStr.contains "configured" (PyStr.lower snippets))
  && negb (PyStr.contains "found" (PyStr.lower snippets)).

(** One of the two summaries: [fallback] is the text the summary starts
    from, [what] names the summary in the other texts, [query] is what the
    chain is asked. *)
Definition summarize (search_chain : option (string -> string -> chain_outcome string))
    (fallback what query snippets : string) : string :=
  match search_chain with
  | Some ainvoke =>
      if usable snippets then
        match ainvoke snippets query with
        | Returned text => text
        | Failed type_name _ =>
            "Error summarizing " ++ what ++ " search results: " ++ type_name
        end
      else fallback
  | None => "LLM chain unavailable for " ++ what ++ " summary."
  end.

(** [search_local_context(location, business_type, event)].  The chain
    is invoked on the snippets and a question.  [search_google] catches
    every exception of the search, so gathering the two searches does not
    raise. *)
Definition search_local_context (api_key : bool) (post : string -> outcome)
    (search_chain : option (string -> string -> chain_outcome string))
    (location business_type : string) (event : option string)
    : Pipeline.LocalContext :=
  let event_snippets := search_google api_key post (event_query location event) in
  let competitor_snippets :=
    search_google api_key post (competitor_query location business_type) in
  let event_summary :=
    summarize search_chain "No specific events found or search/LLM failed." "event"
      ("Summarize the main local events or festivals mentioned for " ++ location ++
       " based on the snippets.")
      event_snippets in
  let competitor_summary :=
    summarize search_chain
      "Could not determine competitor types or search/LLM failed." "competitor"
      ("Briefly list the main types of competitors mentioned for a " ++ business_type ++
       " in " ++ location ++ " based on the snippets.")
      competitor_snippets in
  {| Pipeline.local_events_summary := PyStr.strip event_summary;
     Pipeline.competitor_types_summary := PyStr.strip competitor_summary |}.

End ContextSearcher.

(* ================================================================== *)
(** * The driver with steps 2, 4 and 5 in place *)

Module Assembly.



End Assembly.

(* ================================================================== *)
(** * Vocabulary of the statements *)

(** ** Strings *)

(** [needle] occurs in [hay]: some text before it, some text after it. *)
Definition occurs (needle hay : string) : Prop :=
  exists before after, hay = before ++ needle ++ after.

(** One character replaced by a text: character by character. *)
Fixpoint subst_char (a : ascii) (new s : string) : string :=
  match s with
  | EmptyString => EmptyString
  | String c rest =>
      (if Ascii.eqb a c then new else String c EmptyString) ++ subst_char a new rest
  end.

(** Does character [a] appear in [s]? *)
Fixpoint has_char (a : ascii) (s : string) : bool :=
  match s with
  | EmptyString => false
  | String c rest => Ascii.eqb a c || has_char a rest
  end.


(** ** Dictionaries and splits *)

(** The keys of a dictionary are pairwise distinct. *)
Definition well_formed {V : Type} (d : PyDict.dict V) : Prop :=
  NoDup (PyDict.keys d).

(** The sum of [g v] over the values [v] of a dictionary. *)
Fixpoint sum_with (g : Z -> Z) (d : PyDict.dict Z) : Z :=
  match d with
  | [] => 0
  | kv :: rest => g (snd kv) + sum_with g rest
  end.

(** How far below zero a value is. *)
Definition deficit (v : Z) : Z := Z.max 0 (- v).

(** Every allocation of a split is at least zero. *)
Definition all_nonneg (d : PyDict.dict Z) : Prop :=
  Forall (fun kv => 0 <= snd kv) d.


(** ** Floats *)

(** A float that, when finite, does not carry the minus sign. *)
Definition signless (f : spec_float) : Prop :=
  forall s m e, f = S754_finite s m e -> s = false.

(** A float that is zero, or finite of magnitude below [2 ^ M] with an
    exponent of at most [E]. *)
Definition bounded_by (M E : Z) (f : spec_float) : Prop :=
  match f with
  | S754_zero _ => True
  | S754_finite _ m e => Zdigits2 (Z.pos m) + e <= M /\ e <= E
  | _ => False
  end.


(** ** The allocator *)

(** What the loop that collects the reductions keeps true of its state
    [(actual_boost_taken, reductions)]; [h] is the boosted channel. *)
Definition reductions_ok (adjusted : PyDict.dict Z) (h : string) (st : Z * PyDict.dict Z) : Prop :=
  all_nonneg (snd st) /\ PyDict.sum_values (snd st) <= fst st /\
  PyDict.get h (snd st) = None /\
  (forall k, In k (PyDict.keys (snd st)) -> In k (PyDict.keys adjusted)).

(** What holds of the allocations before the final check: some channel
    holds at least [R], at most [R] in all lies below zero, and the total
    exceeds the budget by no more than that channel has above [R]. *)
Definition ready (total_budget : Z) (d : PyDict.dict Z) : Prop :=
  well_formed d /\
  exists R k v,
    0 <= R <= v /\ PyDict.get k d = Some v /\ sum_with deficit d <= R /\
    PyDict.sum_values d - total_budget <= v - R.


(** The example of the specification: two channels tied at 1000. *)
Definition tied_strategy : StrategyRecommender.CampaignStrategy :=
  {| StrategyRecommender.recommended_channels := Some ["A"; "B"];
     StrategyRecommender.budget_split := Some [("A", 1000); ("B", 1000)];
     StrategyRecommender.campaign_angle := Some "Angle";
     StrategyRecommender.justification := None |}.

(** A history that names the best channel without the words
    ["had the highest Conversion Rate"]. *)
Definition loose_summary : string :=
  "Pamphlets reached the highest Conversion Rate, far ahead of Ads".

Definition loose_history : PyDict.dict string :=
  [("previous_campaign_summary", loose_summary)].

(** ** The driver *)

(** The four generative steps whose failure ends the request. *)
Definition fatal (s : Pipeline.step) : bool :=
  match s with
  | Pipeline.GeneratePersona | Pipeline.GenerateStrategy
  | Pipeline.GenerateCreative | Pipeline.GenerateVisualPrompts => true
  | _ => false
  end.

(** A log in which no fatal step has handed back an error object. *)
Definition clean (log : list Pipeline.event) : Prop :=
  forall s, In (s, true) log -> fatal s = false.

(** A log that ends with the error object of a fatal step, and is clean
    before it. *)
Definition halted (log : list Pipeline.event) : Prop :=
  exists before s, log = (before ++ [(s, true)])%list /\ fatal s = true /\ clean before.

(** What every stretch of the driver keeps true of the log [log] and the
    outcome [r] it leaves: the log is clean, or the stretch has just
    stopped on the error object of a fatal step by raising [ValueError]. *)
Definition stops_at_error {A : Type} (out : list Pipeline.event * result A) : Prop :=
  clean (fst out) \/ (halted (fst out) /\ exists msg, snd out = Raise (ValueError msg)).

(** A stretch of the driver that keeps the invariant from any clean log. *)
Definition safe {A : Type} (m : Pipeline.M A) : Prop :=
  forall log, clean log -> stops_at_error (m log).


(** ** Sample requests and collaborators *)

(** The integer stored under ["budget"]. *)
Definition budget_of (d : PyDict.dict InputParser.pyval) : option Z :=
  InputParser.get_int "budget" d.

(** A request that names [cp] as its channel preference and supplies the
    budget fields given. *)
Definition request (cp : string) (bmin bmax bfixed : option Z) : InputParser.ApiInput :=
  {| InputParser.business_type := "cafe";
     InputParser.location := "Pune";
     InputParser.goal_description := "Diwali discount sale";
     InputParser.budget_min := bmin;
     InputParser.budget_max := bmax;
     InputParser.budget_fixed := bfixed;
     InputParser.channel_preference := cp;
     InputParser.user_id := "user123_with_history" |}.

(** What the persona chain answers on the sample request. *)
Definition sample_persona : PersonaGenerator.AudiencePersona :=
  {| PersonaGenerator.segment_name := "Festive students";
     PersonaGenerator.description := "Students living near the cafe.";
     PersonaGenerator.key_pain_points := ["price"; "distance"];
     PersonaGenerator.preferred_channels := ["Instagram"; "Pamphlets"];
     PersonaGenerator.motivation_triggers := ["Value for Money"] |}.

(** What the strategy chain answers on the sample request. *)
Definition sample_strategy : StrategyRecommender.CampaignStrategy :=
  {| StrategyRecommender.recommended_channels :=
       Some ["Facebook Local Ads"; "Pamphlets"];
     StrategyRecommender.budget_split :=
       Some [("Facebook Local Ads", 5000); ("Pamphlets", 1000)];
     StrategyRecommender.campaign_angle := Some "Diwali Delight";
     StrategyRecommender.justification := Some "Pamphlets converted best last time." |}.

(** The collaborators of the sample request. *)
Definition sample_collaborators : Pipeline.Collaborators :=
  {| Pipeline.extract_entities := fun _ =>
       Pipeline.EntitiesFound [("events", ["diwali"]); ("misc_keywords", ["discount"; "sale"])];
     Pipeline.analyze_trends_via_search := fun _ _ =>
       {| Pipeline.timing_recommendation := "Start two weeks before Diwali.";
          Pipeline.related_queries := [] |};
     Pipeline.search_local_context := fun _ _ _ =>
       {| Pipeline.local_events_summary := "Diwali fair at the market.";
          Pipeline.competitor_types_summary := "Chain cafes and tea stalls." |};
     Pipeline.persona_chain := Some (fun _ _ _ _ _ => Returned sample_persona);
     Pipeline.strategy_chain := Some (fun _ _ _ _ => Returned sample_strategy);
     Pipeline.creative_llm := true;
     Pipeline.creative_chain := fun _ _ names =>
       Returned (map (fun name => (name, "Visit [Shop Name] this Diwali!")) names);
     Pipeline.visual_chain := Some (fun _ _ _ =>
       Returned {| VisualPrompter.visual_prompts :=
                     Some ["A lit cafe front at dusk."; "Friends sharing sweets."] |}) |}.

(** The same collaborators with the persona chain raising. *)
Definition persona_failing : Pipeline.Collaborators :=
  {| Pipeline.extract_entities := Pipeline.extract_entities sample_collaborators;
     Pipeline.analyze_trends_via_search :=
       Pipeline.analyze_trends_via_search sample_collaborators;
     Pipeline.search_local_context := Pipeline.search_local_context sample_collaborators;
     Pipeline.persona_chain :=
       Some (fun _ _ _ _ _ => Failed "OutputParserException" "Invalid json output");
     Pipeline.strategy_chain := Pipeline.strategy_chain sample_collaborators;
     Pipeline.creative_llm := true;
     Pipeline.creative_chain := Pipeline.creative_chain sample_collaborators;
     Pipeline.visual_chain := Pipeline.visual_chain sample_collaborators |}.

(** The log of a request that went through every step. *)
Definition full_log : list Pipeline.event :=
  [ (Pipeline.ParseInput, false); (Pipeline.ExtractEntities, false);
    (Pipeline.GetPreviousResults, false); (Pipeline.AnalyzeTrends, false);
    (Pipeline.SearchLocalContext, false); (Pipeline.GeneratePersona, false);
    (Pipeline.GenerateStrategy, false); (Pipeline.AllocateBudget, false);
    (Pipeline.GenerateCreative, false); (Pipeline.GenerateVisualPrompts, false);
    (Pipeline.Aggregate, false) ].

(** The two channel entries of the plan of the sample request. *)
Definition sample_facebook : Pipeline.ChannelRecommendation :=
  {| Pipeline.channel_name := "Facebook Local Ads";
     Pipeline.allocated_budget := 3000;
     Pipeline.target_audience_specifics :=
       "Targeting based on persona for Facebook Local Ads";
     Pipeline.suggested_copy := "Visit [Shop Name] this Diwali!";
     Pipeline.visual_prompt := "A lit cafe front at dusk.";
     Pipeline.call_to_action := "Engage via Facebook Local Ads!";
     Pipeline.tracking_info_type := "link" |}.

Definition sample_pamphlets : Pipeline.ChannelRecommendation :=
  {| Pipeline.channel_name := "Pamphlets";
     Pipeline.allocated_budget := 3000;
     Pipeline.target_audience_specifics := "Targeting based on persona for Pamphlets";
     Pipeline.suggested_copy := "Visit [Shop Name] this Diwali!";
     Pipeline.visual_prompt := "A lit cafe front at dusk.";
     Pipeline.call_to_action := "Engage via Pamphlets!";
     Pipeline.tracking_info_type := "qr_code" |}.

(** The plan of the sample request. *)
Definition sample_plan : Pipeline.CampaignPlan :=
  {| Pipeline.campaign_overview :=
       {| Pipeline.suggested_theme_name := "Diwali Delight";
          Pipeline.strategic_angle := "Diwali Delight";
          Pipeline.primary_target_audience := Generated sample_persona;
          Pipeline.timing_rec := "Start two weeks before Diwali.";
          Pipeline.competitor_note := "Chain cafes and tea stalls." |};
     Pipeline.channel_recommendations := [sample_facebook; sample_pamphlets];
     Pipeline.feedback_loop_note :=
       "Last campaign (Diwali Sale): Facebook Ads (Budget: 3k INR, Clicks: 45, Conversions: 8, Rate: 17.8%), Pamphlets (Budget: 2k INR, Scans: 15, Conversions: 5, Rate: 33.3%). Pamphlets had higher Conversion Rate." |}.

(** ** The order of the steps *)

(** The steps in the order the driver calls them. *)
Definition step_order : list Pipeline.step := map fst full_log.

(** A stretch of the driver that, entered after the first [n] steps,
    leaves after the first [n'] when it returns, and when it raises has
    gone through some first steps. *)
Definition in_order {A : Type} (n n' : nat) (m : Pipeline.M A) : Prop :=
  forall log : list Pipeline.event, map fst log = firstn n step_order ->
    match m log with
    | (log', Ok _) => map fst log' = firstn n' step_order
    | (log', Raise _) => exists k, map fst log' = firstn k step_order
    end.

(** ** The failures of a request *)

(** An exception that is not an [HTTPException]. *)
Definition internal (e : exn) : Prop :=
  match e with
  | HTTPException _ _ => False
  | _ => True
  end.

(** A call that raises internal exceptions only. *)
Definition raises_internal {A : Type} (r : result A) : Prop :=
  forall e, r = Raise e -> internal e.

(** A stretch of the driver that raises internal exceptions only. *)
Definition stretch_internal {A : Type} (m : Pipeline.M A) : Prop :=
  forall log, raises_internal (snd (m log)).

(** ** The plan *)

(** What the channels of a plan are allocated in all. *)
Definition total_allocated (recs : list Pipeline.ChannelRecommendation) : Z :=
  fold_right Z.add 0 (map Pipeline.allocated_budget recs).

(** ** The lists of the entity extractor *)

(** A list of strings in which each is strictly below the next, in the
    order of the character codes. *)
Fixpoint ascending (l : list string) : Prop :=
  match l with
  | [] => True
  | x :: rest =>
      match rest with
      | [] => True
      | y :: _ => String.ltb x y = true
      end /\ ascending rest
  end.

(** A list of strings in which each is at most the next. *)
Fixpoint nondecreasing (l : list string) : Prop :=
  match l with
  | [] => True
  | x :: rest =>
      match rest with
      | [] => True
      | y :: _ => String.leb x y = true
      end /\ nondecreasing rest
  end.

(** The categories a text is routed to; ["offer_terms"] is filled on the
    side, from the tokens as they are written. *)
Definition routed (k : string) : Prop := k <> "offer_terms".

(** What the two loops of the extractor keep true of their state
    [(entities, processed_texts)]: a routed text is marked as processed,
    it is in lower case, and no text is routed twice. *)
Definition routed_once (st : PyDict.dict (list string) * list string) : Prop :=
  (forall k l t, routed k -> PyDict.get k (fst st) = Some l -> In t l ->
     In t (snd st) /\ PyStr.lower t = t) /\
  (forall k1 k2 l1 l2 t, k1 <> k2 -> routed k1 -> routed k2 ->
     PyDict.get k1 (fst st) = Some l1 -> PyDict.get k2 (fst st) = Some l2 ->
     In t l1 -> In t l2 -> False).

(** ** The search *)

(** A search that brings no snippets and fails, if it fails, with a
    status error or a request error. *)
Definition quiet (o : Serper.outcome) : Prop :=
  match o with
  | Serper.Responded results => Serper.joined_snippets results = EmptyString
  | Serper.HTTPStatusError _ => True
  | Serper.RequestError => True
  | Serper.UnexpectedError => False
  end.

(** Does a text start, or end, with a white space character? *)
Definition starts_with_space (s : string) : bool :=
  match s with
  | EmptyString => false
  | String c _ => PyStr.is_space c
  end.

Fixpoint ends_with_space (s : string) : bool :=
  match s with
  | EmptyString => false
  | String c rest =>
      match rest with
      | EmptyString => PyStr.is_space c
      | String _ _ => ends_with_space rest
      end
  end.

(** The two summaries step 5 starts from. *)
Definition no_events : string := "No specific events found or search/LLM failed.".

Definition no_competitors : string :=
  "Could not determine competitor types or search/LLM failed.".

(** ** Sample data of steps 2, 4 and 5 *)

(** What spaCy may hand over for ["Diwali sale in Pune and pune"]. *)
Definition sample_doc : NerExtractor.Doc :=
  {| NerExtractor.ents :=
       [ {| NerExtractor.label_ := "EVENT"; NerExtractor.ent_text := "Diwali" |};
         {| NerExtractor.label_ := "GPE"; NerExtractor.ent_text := "Pune" |};
         {| NerExtractor.label_ := "ORG"; NerExtractor.ent_text := "pune" |} ];
     NerExtractor.tokens :=
       [ {| NerExtractor.pos_ := "PROPN"; NerExtractor.is_stop := false;
            NerExtractor.lemma_ := "Diwali"; NerExtractor.token_text := "Diwali" |};
         {| NerExtractor.pos_ := "NOUN"; NerExtractor.is_stop := false;
            NerExtractor.lemma_ := "sale"; NerExtractor.token_text := "sale" |};
         {| NerExtractor.pos_ := "ADP"; NerExtractor.is_stop := true;
            NerExtractor.lemma_ := "in"; NerExtractor.token_text := "in" |};
         {| NerExtractor.pos_ := "PROPN"; NerExtractor.is_stop := false;
            NerExtractor.lemma_ := "Pune"; NerExtractor.token_text := "Pune" |} ] |}.

(** What the extractor makes of it. *)
Definition sample_entities : PyDict.dict (list string) :=
  [ ("locations", ["pune"]); ("events", ["diwali"]); ("products_services", []);
    ("target_groups", []); ("dates_times", []); ("orgs", []);
    ("misc_keywords", ["sale"]); ("offer_terms", ["sale"]) ].


(** A search service that answers every query with one snippet. *)
Definition founded_snippet : string -> Serper.outcome := fun _ =>
  Serper.Responded
    {| Serper.answerBox := None;
       Serper.organic := Some [Some "The Pune fair was Founded in 1990."] |}.

(** A chain that answers every question with the same words. *)
Definition fixed_answer : string -> string -> chain_outcome string :=
  fun _ _ => Returned "A fair.".



(* ================================================================== *)
(** * Properties of the dictionary operations *)

Module PyDictFacts.
Import PyDict.
Local Open Scope list_scope.

Section Generic.
Context {V : Type}.
Implicit Types (d : dict V) (k : string) (v : V).

Lemma get_set_same k v d : get k (set k v d) = Some v.
Proof.
  induction d as [ | [k' v'] d IH]; cbn.
  - now rewrite String.eqb_refl.
  - destruct (String.eqb k k') eqn:E; cbn; rewrite E; [reflexivity | exact IH].
Qed.

Lemma get_set_other k k' v d : k' <> k -> get k' (set k v d) = get k' d.
Proof.
  intros Hne. induction d as [ | [k0 v0] d IH]; cbn.
  - apply String.eqb_neq in Hne. now rewrite Hne.
  - destruct (String.eqb k k0) eqn:E; cbn.
    + apply String.eqb_eq in E. subst k0.
      apply String.eqb_neq in Hne. now rewrite Hne.
    + now rewrite IH.
Qed.

Lemma get_some_in k v d : get k d = Some v -> In (k, v) d.
Proof.
  induction d as [ | [k' v'] d IH]; cbn; [discriminate | ].
  destruct (String.eqb k k') eqn:E.
  - apply String.eqb_eq in E. intros H. inversion H; subst. now left.
  - intros H. right. now apply IH.
Qed.

Lemma get_none_keys k d : get k d = None <-> ~ In k (keys d).
Proof.
  induction d as [ | [k' v'] d IH]; cbn; [tauto | ].
  destruct (String.eqb k k') eqn:E.
  - apply String.eqb_eq in E. subst. split; [discriminate | tauto].
  - apply String.eqb_neq in E. rewrite IH. split; [intros H [H' | H'] | ];
      [congruence | tauto | tauto].
Qed.

Lemma in_get k v d : well_formed d -> In (k, v) d -> get k d = Some v.
Proof.
  unfold well_formed. induction d as [ | [k' v'] d IH]; cbn; [tauto | ].
  intros Hnd Hin. inversion Hnd as [ | x l Hnotin Hnd']; subst.
  destruct Hin as [Heq | Hin].
  - inversion Heq; subst. now rewrite String.eqb_refl.
  - destruct (String.eqb k k') eqn:E.
    + apply String.eqb_eq in E. subst k'. exfalso. apply Hnotin.
      apply in_map_iff. now exists (k, v).
    + now apply IH.
Qed.

Lemma keys_set_present k v v0 d : get k d = Some v0 -> keys (set k v d) = keys d.
Proof.
  unfold keys. induction d as [ | [k' v'] d IH]; cbn; [discriminate | ].
  destruct (String.eqb k k') eqn:E; cbn; [reflexivity | ].
  intros H. now rewrite IH.
Qed.

Lemma keys_set_absent k v d : get k d = None -> keys (set k v d) = keys d ++ [k].
Proof.
  unfold keys. induction d as [ | [k' v'] d IH]; cbn; [reflexivity | ].
  destruct (String.eqb k k') eqn:E; cbn; [discriminate | ].
  intros H. now rewrite IH.
Qed.

Lemma well_formed_set k v d : well_formed d -> well_formed (set k v d).
Proof.
  unfold well_formed. intros Hnd. destruct (get k d) as [v0 | ] eqn:E.
  - now rewrite (keys_set_present k v v0 d E).
  - rewrite (keys_set_absent k v d E).
    apply NoDup_app; [assumption | repeat constructor; tauto | ].
    intros x Hx [Hk | []]. subst x. now apply get_none_keys in E.
Qed.

Lemma set_nonempty k v d : set k v d <> [].
Proof.
  destruct d as [ | [k' v'] d]; cbn; [discriminate | ].
  destruct (String.eqb k k'); discriminate.
Qed.

(** Writing under a key whose first entry is known. *)
Lemma set_at k v v0 (before after : dict V) :
  ~ In k (keys before) ->
  set k v (before ++ (k, v0) :: after) = before ++ (k, v) :: after.
Proof.
  induction before as [ | [k' v'] before IH]; cbn; intros Hnotin.
  - now rewrite String.eqb_refl.
  - destruct (String.eqb k k') eqn:E.
    + apply String.eqb_eq in E. subst k'. tauto.
    + rewrite IH; [reflexivity | tauto].
Qed.

Lemma get_at k v0 (before after : dict V) :
  ~ In k (keys before) -> get k (before ++ (k, v0) :: after) = Some v0.
Proof.
  induction before as [ | [k' v'] before IH]; cbn; intros Hnotin.
  - now rewrite String.eqb_refl.
  - destruct (String.eqb k k') eqn:E.
    + apply String.eqb_eq in E. subst k'. tauto.
    + apply IH. tauto.
Qed.

Lemma well_formed_split k v0 (before after : dict V) :
  well_formed (before ++ (k, v0) :: after) -> ~ In k (keys before).
Proof.
  unfold well_formed, keys. rewrite map_app. cbn. intros Hnd Hin.
  apply NoDup_remove_2 in Hnd. apply Hnd. apply in_or_app. now left.
Qed.

End Generic.

Section Sums.
Variable g : Z -> Z.
Implicit Types (d : dict Z) (k : string) (v : Z).

Lemma sum_with_app d1 d2 : sum_with g (d1 ++ d2) = sum_with g d1 + sum_with g d2.
Proof. induction d1 as [ | kv d1 IH]; cbn; [reflexivity | rewrite IH; lia]. Qed.

Lemma sum_with_set_present k v v0 d :
  get k d = Some v0 -> sum_with g (set k v d) = sum_with g d - g v0 + g v.
Proof.
  induction d as [ | [k' v'] d IH]; cbn; [discriminate | ].
  destruct (String.eqb k k') eqn:E; cbn.
  - intros H. inversion H; subst. lia.
  - intros H. rewrite (IH H). lia.
Qed.

Lemma sum_with_set_absent k v d :
  get k d = None -> sum_with g (set k v d) = sum_with g d + g v.
Proof.
  induction d as [ | [k' v'] d IH]; cbn; [lia | ].
  destruct (String.eqb k k') eqn:E; cbn; [discriminate | ].
  intros H. rewrite (IH H). lia.
Qed.

End Sums.

Lemma sum_values_with (d : dict Z) : sum_values d = sum_with (fun v => v) d.
Proof.
  unfold sum_values, values. induction d as [ | kv d IH]; cbn; [reflexivity | ].
  now rewrite IH.
Qed.

Lemma sum_values_cons (k : string) (v : Z) (d : dict Z) :
  sum_values ((k, v) :: d) = v + sum_values d.
Proof. reflexivity. Qed.

Lemma sum_values_set_present (k : string) (v v0 : Z) (d : dict Z) :
  get k d = Some v0 -> sum_values (set k v d) = sum_values d - v0 + v.
Proof. rewrite !sum_values_with. apply sum_with_set_present. Qed.

Lemma sum_values_set_absent (k : string) (v : Z) (d : dict Z) :
  get k d = None -> sum_values (set k v d) = sum_values d + v.
Proof. rewrite !sum_values_with. apply sum_with_set_absent. Qed.

(** [d[k] += delta] moves the total by [delta]. *)
Lemma sum_values_add_to (k : string) (delta v0 : Z) (d : dict Z) :
  get k d = Some v0 -> sum_values (add_to k delta d) = sum_values d + delta.
Proof.
  intros H. unfold add_to. rewrite H, (sum_values_set_present k _ v0 d H). lia.
Qed.

Lemma get_add_to_same (k : string) (delta v0 : Z) (d : dict Z) :
  get k d = Some v0 -> get k (add_to k delta d) = Some (v0 + delta).
Proof. intros H. unfold add_to. rewrite H. apply get_set_same. Qed.

Lemma get_add_to_other (k k' : string) (delta : Z) (d : dict Z) :
  k' <> k -> get k' (add_to k delta d) = get k' d.
Proof.
  intros Hne. unfold add_to. destruct (get k d); [ | reflexivity].
  now apply get_set_other.
Qed.

Lemma keys_add_to (k : string) (delta : Z) (d : dict Z) :
  keys (add_to k delta d) = keys d.
Proof.
  unfold add_to. destruct (get k d) as [v0 | ] eqn:E; [ | reflexivity].
  now apply (keys_set_present k _ v0).
Qed.

(** The scan of [max]: either the running best stays, and nothing exceeds
    it, or a later entry takes over, the first to reach the final value. *)
Lemma max_from_spec (d : dict Z) (bk : string) (bv : Z) :
  (max_from bk bv d = bk /\ forall kv, In kv d -> snd kv <= bv) \/
  (exists before v after,
      d = before ++ (max_from bk bv d, v) :: after /\ bv < v /\
      (forall kv, In kv before -> snd kv < v) /\
      (forall kv, In kv after -> snd kv <= v)).
Proof.
  revert bk bv. induction d as [ | [k v] d IH]; intros bk bv; cbn [max_from].
  - left. split; [reflexivity | intros kv []].
  - destruct (bv <? v) eqn:E.
    + apply Z.ltb_lt in E. right.
      destruct (IH k v) as [[Hk Hle] | [before [v' [after [Hd [Hlt [Hb Ha]]]]]]].
      * exists [], v, d. rewrite Hk. repeat split; try assumption.
        intros kv [].
      * exists ((k, v) :: before), v', after. cbn. rewrite <- Hd.
        repeat split; try assumption; try lia.
        intros kv [Heq | Hin]; [subst kv; cbn; lia | now apply Hb].
    + apply Z.ltb_ge in E.
      destruct (IH bk bv) as [[Hk Hle] | [before [v' [after [Hd [Hlt [Hb Ha]]]]]]].
      * left. split; [assumption | ].
        intros kv [Heq | Hin]; [subst kv; cbn; lia | now apply Hle].
      * right. exists ((k, v) :: before), v', after. cbn. rewrite <- Hd.
        repeat split; try assumption.
        intros kv [Heq | Hin]; [subst kv; cbn; lia | now apply Hb].
Qed.

(** [max(d, key=d.get)] is the first entry that holds the largest value. *)
Lemma max_key_spec (d : dict Z) :
  d <> [] ->
  exists k v before after,
    max_key d = Some k /\ d = before ++ (k, v) :: after /\
    (forall kv, In kv before -> snd kv < v) /\
    (forall kv, In kv after -> snd kv <= v).
Proof.
  destruct d as [ | [k0 v0] d]; [congruence | intros _]. cbn [max_key].
  destruct (max_from_spec d k0 v0) as [[Hk Hle] | [before [v [after [Hd [Hlt [Hb Ha]]]]]]].
  - exists k0, v0, [], d. rewrite Hk. repeat split; try assumption. intros kv [].
  - exists (max_from k0 v0 d), v, ((k0, v0) :: before), after.
    cbn. rewrite <- Hd. repeat split; try assumption.
    intros kv [Heq | Hin]; [subst kv; cbn; lia | now apply Hb].
Qed.

End PyDictFacts.
(* ================================================================== *)
(** * Step 1: properties of the input parser *)

Module InputParserFacts.
Import PyDict InputParser.

Lemma allowed_spec (v : string) :
  existsb (String.eqb v) allowed = true <-> In v allowed.
Proof.
  rewrite existsb_exists. split.
  - intros [x [Hin Heq]]. apply String.eqb_eq in Heq. now subst.
  - intros Hin. exists v. split; [assumption | apply String.eqb_refl].
Qed.

Lemma req_str_api (k : string) (raw : dict pyval) (s : string) :
  req_str k raw = Ok s -> get k raw = Some (PyStr s).
Proof.
  unfold req_str. destruct (get k raw) as [[ | z | t] | ]; intros H;
    inversion H; reflexivity.
Qed.

Lemma opt_int_get_int (k : string) (raw : dict pyval) (o : option Z) :
  opt_int k raw = Ok o -> o = get_int k raw.
Proof.
  unfold opt_int, get_int.
  destruct (get k raw) as [[ | z | t] | ]; intros H; inversion H; reflexivity.
Qed.

(** What a successful validation tells about the validated record. *)
Lemma validate_ok (raw : dict pyval) (v : ApiInput) :
  validate raw = Ok v ->
  budget_min v = get_int "budget_min" raw /\
  budget_max v = get_int "budget_max" raw /\
  budget_fixed v = get_int "budget_fixed" raw /\
  get "channel_preference" raw = Some (PyStr (channel_preference v)) /\
  In (channel_preference v) allowed.
Proof.
  unfold validate, bind.
  destruct (req_str "business_type" raw); [ | discriminate].
  destruct (req_str "location" raw); [ | discriminate].
  destruct (req_str "goal_description" raw); [ | discriminate].
  destruct (opt_int "budget_min" raw) as [bmin | ] eqn:Hmin; [ | discriminate].
  destruct (opt_int "budget_max" raw) as [bmax | ] eqn:Hmax; [ | discriminate].
  destruct (opt_int "budget_fixed" raw) as [bfix | ] eqn:Hfix; [ | discriminate].
  destruct (req_str "channel_preference" raw) as [cp0 | ] eqn:Hcp; [ | discriminate].
  unfold check_channel_preference.
  destruct (existsb (String.eqb cp0) allowed) eqn:Hall; [ | discriminate].
  destruct (req_str "user_id" raw); [ | discriminate].
  intros H. inversion H; subst; clear H. cbn.
  repeat split.
  - now apply opt_int_get_int.
  - now apply opt_int_get_int.
  - now apply opt_int_get_int.
  - now apply req_str_api.
  - now apply allowed_spec.
Qed.

(** A request built by FastAPI passes validation exactly when its channel
    preference is allowed, and validation hands it back unchanged. *)
Lemma validate_api_dict (i : ApiInput) :
  validate (api_dict i) =
  if existsb (String.eqb (channel_preference i)) allowed then Ok i
  else Raise (ValueError "channel_preference must be one of ['Online', 'Offline', 'Both', 'AI Recommend']").
Proof.
  destruct i as [bt loc goal bmin bmax bfix cp uid].
  unfold validate, bind, req_str, opt_int, check_channel_preference.
  destruct bmin, bmax, bfix; cbn -[existsb allowed];
    destruct (existsb (String.eqb cp) allowed); reflexivity.
Qed.

(** The map [parse_input] returns, from the validated record. *)
Lemma parse_input_ok_inv (raw d : dict pyval) :
  parse_input raw = Ok d ->
  exists v, validate raw = Ok v /\
    d = pop "budget_fixed" (pop "budget_max" (pop "budget_min"
          (standardize_budget (api_dict v)))).
Proof.
  unfold parse_input. destruct (validate raw) as [v | e]; [ | discriminate].
  intros H. inversion H. exists v. split; reflexivity.
Qed.

(** C8. [parse_input] settles the budget by priority: [budget_fixed] when
    it is given; else the floor of the mean of [budget_min] and [budget_max]
    when both are given; else [budget_min] when it is given; else 5000.  The
    three raw budget fields are gone from the map it returns. *)
Theorem parse_input_budget_priority (raw d : dict pyval) :
  parse_input raw = Ok d ->
  (forall f, get_int "budget_fixed" raw = Some f -> budget_of d = Some f) /\
  (get_int "budget_fixed" raw = None ->
   forall lo hi, get_int "budget_min" raw = Some lo ->
                 get_int "budget_max" raw = Some hi ->
     exists b, budget_of d = Some b /\ 2 * b <= lo + hi < 2 * b + 2) /\
  (get_int "budget_fixed" raw = None ->
   forall lo, get_int "budget_min" raw = Some lo ->
              get_int "budget_max" raw = None ->
     budget_of d = Some lo) /\
  (get_int "budget_fixed" raw = None -> get_int "budget_min" raw = None ->
     budget_of d = Some 5000) /\
  get "budget_min" d = None /\ get "budget_max" d = None /\
  get "budget_fixed" d = None.
Proof.
  intros Hparse.
  destruct (parse_input_ok_inv raw d Hparse) as [v [Hval Hd]].
  destruct (validate_ok raw v Hval) as [Hmin [Hmax [Hfix _]]].
  rewrite <- Hmin, <- Hmax, <- Hfix. subst d.
  destruct v as [bt loc goal bmin bmax bfix cp uid]. cbn [budget_min budget_max budget_fixed].
  unfold budget_of.
  split; [ | split; [ | split; [ | split]]].
  - intros f Hf. subst bfix. destruct bmin, bmax; reflexivity.
  - intros Hf lo hi Hlo Hhi. subst bfix bmin bmax.
    exists ((lo + hi) / 2). split; [reflexivity | ].
    pose proof (Z.div_mod (lo + hi) 2 ltac:(lia)).
    pose proof (Z.mod_pos_bound (lo + hi) 2 ltac:(lia)). lia.
  - intros Hf lo Hlo Hhi. subst bfix bmin bmax. reflexivity.
  - intros Hf Hlo. subst bfix bmin. destruct bmax; reflexivity.
  - destruct bfix, bmin, bmax; cbn; repeat split; reflexivity.
Qed.

(** The priority rule on a sample request: the fixed budget wins. *)
Lemma parse_input_budget_priority_witness :
  budget_of
    [("business_type", PyStr "cafe"); ("location", PyStr "Pune");
     ("goal_description", PyStr "Diwali discount sale");
     ("channel_preference", PyStr "Both");
     ("user_id", PyStr "user123_with_history"); ("budget", PyInt 7000)]
  = Some 7000.
Proof.
  refine (proj1 (parse_input_budget_priority
                   (api_dict (request "Both" (Some 1000) (Some 3000) (Some 7000)))
                   _ _) 7000 _); reflexivity.
Defined.

(** C7, as the code has it.  A request whose other fields are present and
    well typed is rejected, with a [ValueError], exactly when its channel
    preference is none of ["Online"], ["Offline"], ["Both"] and
    ["AI Recommend"]. *)
Theorem parse_input_rejects_iff (i : ApiInput) :
  (exists e, parse_input (api_dict i) = Raise e) <->
  ~ In (channel_preference i) ["Online"; "Offline"; "Both"; "AI Recommend"].
Proof.
  unfold parse_input. rewrite validate_api_dict.
  destruct (existsb (String.eqb (channel_preference i)) allowed) eqn:Hall.
  - apply allowed_spec in Hall. split.
    + intros [e He]. discriminate.
    + intros Hn. contradiction.
  - split.
    + intros _ Hin. apply allowed_spec in Hin. congruence.
    + intros _. eexists. reflexivity.
Qed.

(** C7, the claim refuted: ["AIRecommend"], which the claim lists as
    allowed, is rejected. *)
Lemma parse_input_rejects_AIRecommend :
  In "AIRecommend" ["Online"; "Offline"; "Both"; "AIRecommend"] /\
  exists e, parse_input (api_dict (request "AIRecommend" None None (Some 6000))) = Raise e.
Proof.
  split.
  - simpl. tauto.
  - eexists. reflexivity.
Qed.

(** C9, the claim refuted: a negative [budget_fixed] is accepted and
    becomes the budget. *)
Lemma parse_input_negative_budget :
  exists d, parse_input (api_dict (request "Both" None None (Some (-100)))) = Ok d /\
            budget_of d = Some (-100) /\ ~ (0 <= -100).
Proof.
  eexists. split; [reflexivity | ]. split; [reflexivity | lia].
Qed.

(** C9, as the code has it.  When every budget field the request supplies
    is at least zero, the budget of an accepted request is an integer that
    is at least zero. *)
Theorem parse_input_budget_nonneg (raw d : dict pyval) :
  parse_input raw = Ok d ->
  (forall k z, In k ["budget_min"; "budget_max"; "budget_fixed"] ->
               get_int k raw = Some z -> 0 <= z) ->
  exists b, budget_of d = Some b /\ 0 <= b.
Proof.
  intros Hparse Hnonneg.
  destruct (parse_input_budget_priority raw d Hparse)
    as [Hfixed [Hmean [Hmin [Hdefault _]]]].
  destruct (get_int "budget_fixed" raw) as [f | ] eqn:Ef.
  - exists f. split; [now apply Hfixed | ].
    apply (Hnonneg "budget_fixed"); [simpl; tauto | assumption].
  - destruct (get_int "budget_min" raw) as [lo | ] eqn:Elo.
    + assert (0 <= lo) by (apply (Hnonneg "budget_min"); [simpl; tauto | assumption]).
      destruct (get_int "budget_max" raw) as [hi | ] eqn:Ehi.
      * assert (0 <= hi) by (apply (Hnonneg "budget_max"); [simpl; tauto | assumption]).
        destruct (Hmean eq_refl lo hi eq_refl eq_refl) as [b [Hb Hbound]].
        exists b. split; [assumption | lia].
      * exists lo. split; [now apply Hmin | assumption].
    + exists 5000. split; [now apply Hdefault | lia].
Qed.

(** The rule on a sample request: the mean of 1000 and 3000. *)
Lemma parse_input_budget_nonneg_witness :
  exists b,
    budget_of
      [("business_type", PyStr "cafe"); ("location", PyStr "Pune");
       ("goal_description", PyStr "Diwali discount sale");
       ("channel_preference", PyStr "Both");
       ("user_id", PyStr "user123_with_history"); ("budget", PyInt 2000)]
    = Some b /\ 0 <= b.
Proof.
  refine (parse_input_budget_nonneg
            (api_dict (request "Both" (Some 1000) (Some 3000) None)) _ _ _).
  - reflexivity.
  - intros k z [Hk | [Hk | [Hk | []]]]; subst k; cbn; intros Hz;
      inversion Hz; lia.
Defined.

(** The examples of the specification: the mean of 1000 and 3000, the
    default, and the rejection of ["Hybrid"]. *)
Lemma parse_input_examples :
  (exists d, parse_input (api_dict (request "Both" (Some 1000) (Some 3000) None)) = Ok d /\
             budget_of d = Some 2000) /\
  (exists d, parse_input (api_dict (request "Online" None None None)) = Ok d /\
             budget_of d = Some 5000) /\
  (exists e, parse_input (api_dict (request "Hybrid" None None (Some 6000))) = Raise e).
Proof.
  repeat split; eexists; try split; reflexivity.
Qed.

End InputParserFacts.

(* ================================================================== *)
(** * Properties of the string operations *)

Module PyStrFacts.
Import PyStr.

Lemma prefix_spec (a b : string) :
  prefix a b = true <-> exists rest, b = a ++ rest.
Proof.
  revert b. induction a as [ | c a IH]; intros b.
  - split; [intros _; now exists b | intros _; now destruct b].
  - destruct b as [ | c' b]; cbn.
    + split; [discriminate | intros [rest H]; discriminate].
    + destruct (Ascii.ascii_dec c c') as [-> | Hne].
      * rewrite IH. split; intros [rest H]; exists rest.
        -- now rewrite H.
        -- now inversion H.
      * split; [discriminate | intros [rest H]; inversion H; congruence].
Qed.

(** The test [needle in hay] decides occurrence. *)
Lemma contains_spec (needle hay : string) :
  contains needle hay = true <-> occurs needle hay.
Proof.
  unfold occurs. induction hay as [ | c hay IH]; cbn [contains].
  - rewrite prefix_spec. split.
    + intros [rest H]. exists "", rest. exact H.
    + intros [before [after H]]. destruct before; cbn in H.
      * now exists after.
      * discriminate.
  - rewrite orb_true_iff, prefix_spec, IH. split.
    + intros [[rest H] | [before [after H]]].
      * exists "", rest. exact H.
      * exists (String c before), after. cbn. now rewrite H.
    + intros [before [after H]]. destruct before as [ | c' before]; cbn in H.
      * left. now exists after.
      * right. inversion H. now exists before, after.
Qed.

Lemma contains_false_spec (needle hay : string) :
  contains needle hay = false <-> ~ occurs needle hay.
Proof.
  rewrite <- contains_spec. destruct (contains needle hay); split; congruence.
Qed.

(** Replacing a text that does not occur changes nothing. *)
Lemma replace_absent (old new s : string) :
  contains old s = false -> replace old new s = s.
Proof.
  unfold replace. induction s as [ | c s IH]; cbn [contains replace_from].
  - reflexivity.
  - intros H. apply orb_false_iff in H. destruct H as [Hp Hc].
    rewrite Hp, (IH Hc). reflexivity.
Qed.

Lemma prefix_nil (b : string) : prefix EmptyString b = true.
Proof. now destruct b. Qed.

Lemma prefix_cons (a c : ascii) (s t : string) :
  prefix (String a s) (String c t) = Ascii.eqb a c && prefix s t.
Proof.
  cbn. destruct (Ascii.ascii_dec a c) as [-> | Hne].
  - now rewrite Ascii.eqb_refl.
  - apply Ascii.eqb_neq in Hne. now rewrite Hne.
Qed.

Lemma replace_char (a : ascii) (new s : string) :
  replace (String a EmptyString) new s = subst_char a new s.
Proof.
  unfold replace. induction s as [ | c s IH]; cbn [replace_from subst_char].
  - reflexivity.
  - rewrite prefix_cons, prefix_nil, andb_true_r. cbn [String.length Nat.sub].
    rewrite IH. destruct (Ascii.eqb a c); reflexivity.
Qed.

Lemma contains_char (a : ascii) (s : string) :
  contains (String a EmptyString) s = has_char a s.
Proof.
  induction s as [ | c s IH]; cbn [contains has_char].
  - reflexivity.
  - now rewrite prefix_cons, prefix_nil, andb_true_r, IH.
Qed.

Lemma has_char_app (a : ascii) (s t : string) :
  has_char a (s ++ t) = has_char a s || has_char a t.
Proof.
  induction s as [ | c s IH]; cbn; [reflexivity | ].
  now rewrite IH, orb_assoc.
Qed.

Lemma has_char_subst (a b : ascii) (new s : string) :
  has_char a new = false -> has_char a s = false ->
  has_char a (subst_char b new s) = false.
Proof.
  intros Hnew. induction s as [ | c s IH]; cbn; [reflexivity | ].
  intros H. apply orb_false_iff in H. destruct H as [Hc Hs].
  rewrite has_char_app, (IH Hs), orb_false_r.
  destruct (Ascii.eqb b c); [assumption | ]. cbn. now rewrite Hc.
Qed.

(** Lowering a character yields a lower-case letter or leaves it alone. *)
Lemma lower_ascii_cases (c : ascii) :
  lower_ascii c = c \/
  (Nat.leb 97 (nat_of_ascii (lower_ascii c)) &&
   Nat.leb (nat_of_ascii (lower_ascii c)) 122 = true)%bool.
Proof.
  destruct c as [[] [] [] [] [] [] [] []]; vm_compute; auto.
Qed.

Lemma has_char_lower (a : ascii) (s : string) :
  (Nat.leb 97 (nat_of_ascii a) && Nat.leb (nat_of_ascii a) 122 = false)%bool ->
  has_char a s = false -> has_char a (lower s) = false.
Proof.
  intros Ha. induction s as [ | c s IH]; cbn; [reflexivity | ].
  intros H. apply orb_false_iff in H. destruct H as [Hc Hs].
  rewrite (IH Hs), orb_false_r.
  destruct (lower_ascii_cases c) as [-> | Hlow]; [assumption | ].
  apply Ascii.eqb_neq. intros ->. congruence.
Qed.

(** ** Cutting at the first occurrence *)

Lemma append_empty_r (s : string) : s ++ "" = s.
Proof. induction s as [ | c s IH]; cbn; [reflexivity | now rewrite IH]. Qed.

Lemma append_assoc (s t u : string) : (s ++ t) ++ u = s ++ t ++ u.
Proof. induction s as [ | c s IH]; cbn; [reflexivity | now rewrite IH]. Qed.

(** Once a separator is matched, its remaining characters are passed over. *)
Lemma split_from_skip (sep cur s t : string) :
  split_from sep (String.length s) cur (s ++ t) = split_from sep 0 cur t.
Proof.
  induction s as [ | c s IH]; cbn [String.length append split_from].
  - reflexivity.
  - exact IH.
Qed.

Lemma split_from_first (sep before after : string) :
  sep <> "" ->
  forall cur,
    (forall a b, before = a ++ b -> b <> "" ->
       prefix sep (b ++ sep ++ after) = false) ->
    split_from sep 0 cur (before ++ sep ++ after)
    = (cur ++ before) :: split_from sep 0 "" after.
Proof.
  intros Hsep. induction before as [ | c before IH]; intros cur Hfirst.
  - rewrite append_empty_r. cbn [append].
    destruct sep as [ | c0 sep']; [congruence | ].
    cbn [append split_from].
    assert (Hp : prefix (String c0 sep') (String c0 (sep' ++ after)) = true).
    { apply prefix_spec. now exists after. }
    rewrite Hp. cbn [String.length]. rewrite Nat.sub_1_r. cbn [Nat.pred].
    now rewrite split_from_skip.
  - pose proof (Hfirst "" (String c before) eq_refl ltac:(discriminate)) as Hp.
    cbn [append] in *. cbn [split_from]. rewrite Hp.
    rewrite IH.
    + now rewrite append_assoc.
    + intros a b Hab Hb. apply (Hfirst (String c a) b); [ | assumption].
      cbn. now rewrite Hab.
Qed.

(** [s.split(sep)] cuts first where [sep] first starts. *)
Lemma split_first (sep before after : string) :
  sep <> "" ->
  (forall a b, before = a ++ b -> b <> "" -> prefix sep (b ++ sep ++ after) = false) ->
  split sep (before ++ sep ++ after) = before :: split sep after.
Proof.
  intros Hsep Hfirst. unfold split.
  now rewrite (split_from_first sep before after Hsep "" Hfirst).
Qed.

End PyStrFacts.

(* ================================================================== *)
(** * Properties of the float operations: signs *)

Module PyFloatFacts.
Import PyFloat.

(** Rounding keeps the sign it is given. *)
Lemma binary_round_aux_sign (sx : bool) (mx ex : Z) (lx : location) :
  forall s m e,
    binary_round_aux prec emax sx mx ex lx = S754_finite s m e -> s = sx.
Proof.
  intros s m e. unfold binary_round_aux.
  destruct (shr_fexp prec emax mx ex lx) as [mrs' e'].
  destruct (shr_fexp prec emax _ e' loc_Exact) as [mrs'' e''].
  destruct (shr_m mrs'') as [ | p | p]; try discriminate.
  destruct (e'' <=? emax - prec); [ | discriminate].
  intros H. now inversion H.
Qed.

Lemma binary_round_sign (sx : bool) (mx : positive) (ex : Z) :
  forall s m e, binary_round prec emax sx mx ex = S754_finite s m e -> s = sx.
Proof.
  intros s m e. unfold binary_round.
  destruct (shl_align mx ex _) as [mz ez]. apply binary_round_aux_sign.
Qed.

Lemma of_int_signless (n : Z) (f : spec_float) :
  0 <= n -> of_int n = Ok f -> signless f.
Proof.
  intros Hn. unfold of_int. destruct n as [ | p | p]; [ | | lia]; cbn [binary_normalize].
  - intros H. inversion H. intros s m e. discriminate.
  - destruct (binary_round prec emax false p 0) as [s0 | s0 | | s0 m0 e0] eqn:E;
      intros H; inversion H; subst; intros s m e Hf; try discriminate.
    apply (binary_round_sign false p 0 s m e). now rewrite E.
Qed.

Lemma lit_0_2_signless : signless lit_0_2.
Proof. intros s m e H. now inversion H. Qed.

Lemma lit_0_3_signless : signless lit_0_3.
Proof. intros s m e H. now inversion H. Qed.

Lemma SFmul_signless (x y : spec_float) :
  signless x -> signless y -> signless (SFmul prec emax x y).
Proof.
  intros Hx Hy s m e.
  destruct x as [sx | sx | | sx mx ex], y as [sy | sy | | sy my ey]; cbn [SFmul];
    try discriminate.
  intros H. apply binary_round_aux_sign in H.
  rewrite (Hx sx mx ex eq_refl), (Hy sy my ey eq_refl) in H. exact H.
Qed.

Lemma truediv_signless (a b : Z) (f : spec_float) :
  0 <= a -> 0 < b -> truediv a b = Ok f -> signless f.
Proof.
  intros Ha Hb. unfold truediv.
  destruct (b =? 0) eqn:E; [discriminate | ].
  destruct a as [ | pa | pa]; [ | | lia]; destruct b as [ | pb | pb]; try lia;
    cbn [exact SFdiv].
  - intros H. inversion H. intros s m e. discriminate.
  - destruct (SFdiv_core_binary prec emax (Z.pos pa) 0 (Z.pos pb) 0) as [[mz ez] lz].
    destruct (binary_round_aux prec emax (xorb false false) mz ez lz)
      as [s0 | s0 | | s0 m0 e0] eqn:Er;
      intros H; inversion H; subst; intros s m e Hf; try discriminate.
    apply (binary_round_aux_sign (xorb false false) mz ez lz s m e). now rewrite Er.
Qed.

Lemma to_int_nonneg (f : spec_float) (z : Z) :
  signless f -> to_int f = Ok z -> 0 <= z.
Proof.
  intros Hf. destruct f as [s | s | | s m e]; cbn [to_int]; intros H;
    inversion H; subst; try lia.
  rewrite (Hf s m e eq_refl). cbn [cond_Zopp].
  apply Z.shiftl_nonneg. lia.
Qed.

(** [int(n * f)] is at least zero when [n] and [f] are. *)
Lemma int_of_mul_nonneg (n : Z) (f : spec_float) (z : Z) :
  0 <= n -> signless f -> int_of_mul n f = Ok z -> 0 <= z.
Proof.
  intros Hn Hf. unfold int_of_mul, mul_int, bind.
  destruct (of_int n) as [x | ] eqn:E; [ | discriminate].
  apply to_int_nonneg. apply SFmul_signless; [ | assumption].
  now apply (of_int_signless n).
Qed.

(** The literals are the doubles nearest to the decimals written. *)
Lemma literals_rounded :
  SFdiv prec emax (exact 1) (exact 5) = lit_0_2 /\
  SFdiv prec emax (exact 3) (exact 10) = lit_0_3.
Proof. split; vm_compute; reflexivity. Qed.

End PyFloatFacts.

(* ================================================================== *)
(** * Properties of the float operations: no overflow on small integers *)

Module PyFloatRange.
Import PyFloat.

(** ** The number of binary digits *)

Lemma digits2_pos_size (p : positive) : digits2_pos p = Pos.size p.
Proof. induction p as [p IH | p IH | ]; cbn; now rewrite ?IH. Qed.

Lemma Zdigits2_log2 (m : Z) : 0 < m -> Zdigits2 m = Z.log2 m + 1.
Proof.
  destruct m as [ | p | p]; try lia. intros _. cbn [Zdigits2].
  destruct p as [p | p | ]; cbn [digits2_pos Z.log2];
    rewrite ?digits2_pos_size; lia.
Qed.

Lemma Zdigits2_nonneg (m : Z) : 0 <= Zdigits2 m.
Proof. destruct m; cbn; lia. Qed.

Lemma Zdigits2_pos (m : Z) : 0 < m -> 0 < Zdigits2 m.
Proof. destruct m; cbn; lia. Qed.

Lemma Zdigits2_le (a b : Z) : 0 <= a <= b -> Zdigits2 a <= Zdigits2 b.
Proof.
  intros [Ha Hab]. destruct (Z.eq_dec a 0) as [-> | Hne].
  - apply Zdigits2_nonneg.
  - rewrite !Zdigits2_log2 by lia. pose proof (Z.log2_le_mono a b Hab). lia.
Qed.

Lemma Zdigits2_mul (a b : Z) :
  0 <= a -> 0 <= b -> Zdigits2 (a * b) <= Zdigits2 a + Zdigits2 b.
Proof.
  intros Ha Hb. destruct (Z.eq_dec a 0) as [-> | Hna].
  - cbn. apply Zdigits2_nonneg.
  - destruct (Z.eq_dec b 0) as [-> | Hnb].
    + rewrite Z.mul_0_r. cbn. pose proof (Zdigits2_nonneg a). lia.
    + rewrite !Zdigits2_log2 by nia.
      pose proof (Z.log2_mul_above a b Ha Hb). lia.
Qed.

Lemma Zdigits2_succ (m : Z) : 0 <= m -> Zdigits2 (m + 1) <= Zdigits2 m + 1.
Proof.
  intros Hm. destruct (Z.eq_dec m 0) as [-> | Hne]; [cbn; lia | ].
  rewrite !Zdigits2_log2 by lia. pose proof (Z.log2_succ_le m).
  unfold Z.succ in *. lia.
Qed.

Lemma Zdigits2_shiftr (m n : Z) :
  0 <= m -> 0 <= n ->
  Z.shiftr m n = 0 \/ (0 < Z.shiftr m n /\ Zdigits2 (Z.shiftr m n) + n = Zdigits2 m).
Proof.
  intros Hm Hn. destruct (Z.eq_dec (Z.shiftr m n) 0) as [H0 | Hne]; [now left | right].
  assert (Hs : 0 <= Z.shiftr m n) by now apply Z.shiftr_nonneg.
  assert (Hmpos : 0 < m).
  { destruct (Z.eq_dec m 0) as [-> | ]; [ | lia]. now rewrite Z.shiftr_0_l in Hne. }
  split; [lia | ].
  rewrite !Zdigits2_log2 by lia. rewrite (Z.log2_shiftr m n Hmpos).
  assert (Hlog : n <= Z.log2 m).
  { destruct (Z_lt_le_dec (Z.log2 m) n) as [Hlt | ]; [ | assumption].
    rewrite (Z.shiftr_eq_0 m n) in Hne; [congruence | lia | assumption]. }
  lia.
Qed.

Lemma Zdigits2_shiftl (m n : Z) :
  0 < m -> 0 <= n -> Zdigits2 (Z.shiftl m n) = Zdigits2 m + n.
Proof.
  intros Hm Hn.
  assert (0 < Z.shiftl m n).
  { rewrite Z.shiftl_mul_pow2 by assumption. pose proof (Z.pow_pos_nonneg 2 n). nia. }
  rewrite !Zdigits2_log2 by assumption. rewrite Z.log2_shiftl by assumption. lia.
Qed.

Lemma Zdigits2_below (m k : Z) : 0 <= k -> 0 <= m < 2 ^ k -> Zdigits2 m <= k.
Proof.
  intros Hk [Hm Hlt]. destruct (Z.eq_dec m 0) as [-> | Hne]; [cbn; lia | ].
  rewrite Zdigits2_log2 by lia.
  apply (Z.log2_lt_pow2 m k) in Hlt; lia.
Qed.

Lemma digits_iter_xO (m d : positive) :
  Zdigits2 (Z.pos (Pos.iter xO m d)) = Zdigits2 (Z.pos m) + Z.pos d.
Proof.
  induction d as [ | d IH] using Pos.peano_ind.
  - cbn. lia.
  - rewrite Pos.iter_succ. cbn [Zdigits2 digits2_pos] in *. lia.
Qed.

(** ** Shifting right *)

Lemma shr_1_m (mrs : shr_record) :
  0 <= shr_m mrs -> shr_m (shr_1 mrs) = shr_m mrs / 2.
Proof.
  destruct mrs as [m r s]. cbn [shr_m shr_1]. intros Hm.
  rewrite <- Z.div2_div.
  destruct m as [ | [p | p | ] | p]; try lia; reflexivity.
Qed.

Lemma iter_shr_1_m (p : positive) :
  forall mrs, 0 <= shr_m mrs ->
    shr_m (iter_pos shr_1 p mrs) = shr_m mrs / 2 ^ Z.pos p.
Proof.
  assert (Hpow : forall q : positive, 0 < 2 ^ Z.pos q)
    by (intros q; apply Z.pow_pos_nonneg; lia).
  induction p as [p IH | p IH | ]; intros mrs Hm; cbn [iter_pos].
  - assert (H1 : 0 <= shr_m (shr_1 mrs))
      by (rewrite shr_1_m by assumption; apply Z.div_pos; lia).
    assert (H2 : 0 <= shr_m (iter_pos shr_1 p (shr_1 mrs)))
      by (rewrite IH by assumption; apply Z.div_pos; [lia | apply Hpow]).
    rewrite (IH _ H2), (IH _ H1), shr_1_m by assumption.
    pose proof (Hpow p).
    rewrite !Z.div_div by lia. f_equal.
    replace (Z.pos p~1) with (1 + Z.pos p + Z.pos p) by lia.
    rewrite !Z.pow_add_r by lia. lia.
  - assert (H1 : 0 <= shr_m (iter_pos shr_1 p mrs))
      by (rewrite IH by assumption; apply Z.div_pos; [lia | apply Hpow]).
    rewrite (IH _ H1), (IH _ Hm).
    pose proof (Hpow p).
    rewrite !Z.div_div by lia. f_equal.
    replace (Z.pos p~0) with (Z.pos p + Z.pos p) by lia.
    rewrite !Z.pow_add_r by lia. lia.
  - rewrite shr_1_m by assumption. reflexivity.
Qed.

Lemma shr_record_of_loc_m (m : Z) (l : location) : shr_m (shr_record_of_loc m l) = m.
Proof. destruct l as [ | [ | | ]]; reflexivity. Qed.

(** The exponent function of binary64. *)
Lemma fexp_eq (k : Z) : fexp prec emax k = Z.max (k - 53) (-1074).
Proof. reflexivity. Qed.

Lemma fexp_mono (a b : Z) : a <= b -> fexp prec emax a <= fexp prec emax b.
Proof. rewrite !fexp_eq. lia. Qed.

(** One shift to the exponent the format asks for. *)
Lemma shr_fexp_spec (m e : Z) (l : location) (mrs : shr_record) (e' : Z) :
  0 <= m ->
  shr_fexp prec emax m e l = (mrs, e') ->
  e' = Z.max e (fexp prec emax (Zdigits2 m + e)) /\
  0 <= shr_m mrs /\
  (shr_m mrs = 0 \/ (0 < shr_m mrs /\ Zdigits2 (shr_m mrs) + e' = Zdigits2 m + e)).
Proof.
  intros Hm. unfold shr_fexp, shr.
  destruct (fexp prec emax (Zdigits2 m + e) - e) as [ | n | n] eqn:En;
    intros H; inversion H; subst; clear H; rewrite ?shr_record_of_loc_m.
  - split; [lia | ]. split; [assumption | ].
    destruct (Z.eq_dec m 0); [now left | right; split; lia].
  - rewrite iter_shr_1_m by (rewrite shr_record_of_loc_m; assumption).
    rewrite shr_record_of_loc_m, <- Z.shiftr_div_pow2 by lia.
    split; [lia | ]. split; [apply Z.shiftr_nonneg; assumption | ].
    destruct (Zdigits2_shiftr m (Z.pos n) Hm ltac:(lia)) as [H0 | [Hpos Hd]];
      [now left | right; split; [assumption | lia]].
  - split; [lia | ]. split; [assumption | ].
    destruct (Z.eq_dec m 0); [now left | right; split; lia].
Qed.

Lemma round_nearest_even_range (m : Z) (l : location) :
  m <= round_nearest_even m l <= m + 1.
Proof.
  unfold round_nearest_even. destruct l as [ | [ | | ]]; try lia.
  destruct (Z.even m); lia.
Qed.

(** ** Rounding stays in range *)

Lemma binary_round_aux_bounded (s : bool) (mx ex : Z) (lx : location) (M E : Z) :
  0 <= mx -> Zdigits2 mx + ex + 1 <= M -> -1073 <= M ->
  Z.max ex (fexp prec emax M) <= E -> E <= 971 ->
  bounded_by M E (binary_round_aux prec emax s mx ex lx).
Proof.
  intros Hmx HM Hmin HE Hmax. unfold binary_round_aux.
  destruct (shr_fexp prec emax mx ex lx) as [mrs' e'] eqn:E1.
  apply shr_fexp_spec in E1; [ | assumption]. destruct E1 as [He' [Hm' Hd']].
  pose proof (round_nearest_even_range (shr_m mrs') (loc_of_shr_record mrs')) as Hr.
  set (m2 := round_nearest_even (shr_m mrs') (loc_of_shr_record mrs')) in *.
  destruct (shr_fexp prec emax m2 e' loc_Exact) as [mrs'' e''] eqn:E2.
  apply shr_fexp_spec in E2; [ | lia]. destruct E2 as [He'' [Hm'' Hd'']].
  pose proof (Zdigits2_nonneg mx) as Hdx.
  assert (Hd2 : Zdigits2 m2 + e' <= M).
  { pose proof (Zdigits2_le m2 (shr_m mrs' + 1) ltac:(lia)) as Hle.
    pose proof (Zdigits2_succ (shr_m mrs') Hm') as Hsucc.
    destruct Hd' as [H0 | [Hpos Hd']].
    - rewrite H0 in Hle. cbn in Hle. rewrite fexp_eq in He'. lia.
    - lia. }
  rewrite !fexp_eq in *.
  destruct (shr_m mrs'') as [ | p | p] eqn:Em; [exact I | | lia].
  assert (Hfit : e'' <= 971) by lia.
  apply Z.leb_le in Hfit. unfold prec, emax in *. cbn [Z.sub] in *.
  change (1024 - 53) with 971. rewrite Hfit. cbn [bounded_by].
  destruct Hd'' as [H0 | [Hpos Hd'']]; [discriminate | ].
  apply Z.leb_le in Hfit. lia.
Qed.

(** ** The operations of the allocator *)

(** An integer below [2 ^ k] converts without overflow. *)
Lemma of_int_bounded (n k : Z) :
  0 <= k <= 1000 -> 0 <= n < 2 ^ k ->
  exists f, of_int n = Ok f /\ bounded_by (k + 1) (Z.max 0 (k - 52)) f.
Proof.
  intros Hk Hn. unfold of_int.
  destruct n as [ | p | p]; [ | | lia]; cbn [binary_normalize].
  - eexists. split; [reflexivity | exact I].
  - pose proof (Zdigits2_below (Z.pos p) k ltac:(lia) Hn) as Hd.
    assert (Hb : bounded_by (k + 1) (Z.max 0 (k - 52))
                   (binary_round prec emax false p 0)).
    { unfold binary_round, shl_align.
      cbn [Zdigits2] in Hd.
      destruct (fexp prec emax (Z.pos (digits2_pos p) + 0) - 0) as [ | d | d] eqn:Ed.
      - apply binary_round_aux_bounded; cbn [Zdigits2]; rewrite ?fexp_eq; lia.
      - apply binary_round_aux_bounded; cbn [Zdigits2]; rewrite ?fexp_eq; lia.
      - pose proof (digits_iter_xO p d) as Hshift. cbn [Zdigits2] in Hshift.
        apply binary_round_aux_bounded; cbn [Zdigits2]; rewrite ?fexp_eq in *; lia. }
    destruct (binary_round prec emax false p 0) as [s0 | s0 | | s0 m0 e0];
      cbn [bounded_by] in Hb; try contradiction; eexists; split;
      try reflexivity; assumption.
Qed.

(** A product of two bounded floats is bounded. *)
Lemma SFmul_bounded (x y : spec_float) (Mx Ex My Ey E : Z) :
  bounded_by Mx Ex x -> bounded_by My Ey y ->
  -1073 <= Mx + My + 1 ->
  Z.max (Ex + Ey) (fexp prec emax (Mx + My + 1)) <= E -> E <= 971 ->
  bounded_by (Mx + My + 1) E (SFmul prec emax x y).
Proof.
  intros Hx Hy Hmin HE Hmax.
  destruct x as [sx | sx | | sx mx ex], y as [sy | sy | | sy my ey];
    cbn [bounded_by SFmul] in *; try contradiction; try exact I.
  pose proof (Zdigits2_mul (Z.pos mx) (Z.pos my) ltac:(lia) ltac:(lia)) as Hmul.
  change (Z.pos (mx * my)) with (Z.pos mx * Z.pos my).
  apply binary_round_aux_bounded; try lia.
Qed.

Lemma to_int_returns (M E : Z) (f : spec_float) :
  bounded_by M E f -> exists z, to_int f = Ok z.
Proof.
  destruct f as [s | s | | s m e]; cbn [bounded_by to_int]; intros H;
    try contradiction; eexists; reflexivity.
Qed.

(** [int(n * f)] returns for a small [n] and a bounded [f]. *)
Lemma int_of_mul_returns (n k : Z) (f : spec_float) (M E : Z) :
  0 <= k <= 1000 -> 0 <= n < 2 ^ k -> bounded_by M E f ->
  -1073 <= k + 1 + M + 1 ->
  Z.max (Z.max 0 (k - 52) + E) (fexp prec emax (k + 1 + M + 1)) <= 971 ->
  exists z, int_of_mul n f = Ok z.
Proof.
  intros Hk Hn Hf Hmin Hfit. unfold int_of_mul, mul_int, bind.
  destruct (of_int_bounded n k Hk Hn) as [x [Hx Hbx]]. rewrite Hx.
  apply (to_int_returns (k + 1 + M + 1) 971).
  apply (SFmul_bounded x f (k + 1) (Z.max 0 (k - 52)) M E 971); try assumption; lia.
Qed.

(** The quotient of a small integer by a positive one is bounded. *)
Lemma truediv_bounded (a b k : Z) :
  0 <= k <= 1000 -> 0 <= a < 2 ^ k -> 0 < b ->
  exists f, truediv a b = Ok f /\ bounded_by (k + 1) (Z.max 0 (k - 52)) f.
Proof.
  intros Hk Ha Hb. unfold truediv.
  replace (b =? 0) with false by (symmetry; apply Z.eqb_neq; lia).
  destruct a as [ | pa | pa]; [ | | lia]; destruct b as [ | pb | pb]; try lia;
    cbn [exact SFdiv].
  - eexists. split; [reflexivity | exact I].
  - pose proof (Zdigits2_below (Z.pos pa) k ltac:(lia) Ha) as Hd.
    assert (Hbound : bounded_by (k + 1) (Z.max 0 (k - 52))
                       (let '(mz, ez, lz) :=
                          SFdiv_core_binary prec emax (Z.pos pa) 0 (Z.pos pb) 0 in
                        binary_round_aux prec emax (xorb false false) mz ez lz)).
    { unfold SFdiv_core_binary.
      set (e' := Z.min (fexp prec emax (Zdigits2 (Z.pos pa) + 0 - (Zdigits2 (Z.pos pb) + 0)))
                       (0 - 0)).
      assert (He' : e' <= 0) by (subst e'; lia).
      set (m' := match 0 - 0 - e' with
                 | 0 => Z.pos pa
                 | Z.pos _ => Z.shiftl (Z.pos pa) (0 - 0 - e')
                 | Z.neg _ => 0
                 end).
      assert (Hm' : 0 <= m' /\ Zdigits2 m' + e' <= Zdigits2 (Z.pos pa)).
      { subst m'. destruct (0 - 0 - e') as [ | s | s] eqn:Es.
        - split; lia.
        - rewrite Zdigits2_shiftl by lia. split; [ | lia].
          apply Z.shiftl_nonneg. lia.
        - lia. }
      destruct (Z.div_eucl m' (Z.pos pb)) as [q r] eqn:Eq.
      assert (Hq : q = m' / Z.pos pb) by (unfold Z.div; now rewrite Eq).
      assert (Hq0 : 0 <= q) by (subst q; apply Z.div_pos; lia).
      assert (Hqle : q <= m').
      { subst q. apply Z.div_le_upper_bound; [lia | nia]. }
      pose proof (Zdigits2_le q m' ltac:(lia)) as Hdq.
      apply binary_round_aux_bounded; rewrite ?fexp_eq; lia. }
    destruct (SFdiv_core_binary prec emax (Z.pos pa) 0 (Z.pos pb) 0) as [[mz ez] lz].
    destruct (binary_round_aux prec emax (xorb false false) mz ez lz)
      as [s0 | s0 | | s0 m0 e0];
      cbn [bounded_by] in Hbound; try contradiction; eexists; split;
      try reflexivity; assumption.
Qed.

Lemma lit_0_2_bounded : bounded_by (-2) (-55) lit_0_2.
Proof. vm_compute. split; discriminate. Qed.

Lemma lit_0_3_bounded : bounded_by (-1) (-54) lit_0_3.
Proof. vm_compute. split; discriminate. Qed.

End PyFloatRange.

(* ================================================================== *)
(** * The equal split: base share, one more for the first few *)

Module EqualSplitFacts.
Import PyDict PyDictFacts BudgetAllocator.
Local Open Scope list_scope.

Lemma in_set (k k' : string) (v v' : Z) (d : dict Z) :
  In (k', v') (set k v d) -> (k', v') = (k, v) \/ In (k', v') d.
Proof.
  induction d as [ | [k0 v0] d IH]; cbn.
  - intros [H | []]. left. now inversion H.
  - destruct (String.eqb k k0) eqn:E.
    + apply String.eqb_eq in E. subst k0. intros [H | H].
      * left. now inversion H.
      * right. now right.
    + intros [H | H]; [right; now left | ].
      destruct (IH H) as [Heq | Hin]; [now left | right; now right].
Qed.

Lemma all_nonneg_set (k : string) (v : Z) (d : dict Z) :
  0 <= v -> all_nonneg d -> all_nonneg (set k v d).
Proof.
  unfold all_nonneg. rewrite !Forall_forall. intros Hv Hd [k' v'] Hin.
  apply in_set in Hin. destruct Hin as [Heq | Hin].
  - inversion Heq; subst. exact Hv.
  - now apply (Hd (k', v')).
Qed.

Lemma all_nonneg_get (k : string) (v : Z) (d : dict Z) :
  all_nonneg d -> get k d = Some v -> 0 <= v.
Proof.
  unfold all_nonneg. rewrite Forall_forall. intros Hd Hget.
  apply get_some_in in Hget. now apply (Hd (k, v)).
Qed.

(** The share of position [i]. *)
Lemma share_nonneg (base rem i : Z) :
  0 <= base -> 0 <= base + (if i <? rem then 1 else 0).
Proof. destruct (i <? rem); lia. Qed.

(** Whatever the channel list, the loop keeps the allocations at least
    zero and their total within what the positions gone through add up to;
    every channel gets an entry. *)
Lemma initial_split_bound (base rem : Z) (channels : list string) :
  0 <= base ->
  forall (i : Z) (acc : dict Z),
    all_nonneg acc -> well_formed acc ->
    let n := Z.of_nat (List.length channels) in
    let d := initial_split base rem i channels acc in
    all_nonneg d /\ well_formed d /\
    sum_values d <= sum_values acc + n * base + (Z.max i (Z.min (i + n) rem) - i) /\
    (forall ch, In ch channels \/ In ch (keys acc) -> In ch (keys d)).
Proof.
  intros Hbase. induction channels as [ | ch rest IH]; intros i acc Hacc Hwf; cbn zeta.
  - cbn [initial_split List.length Z.of_nat]. repeat split; try assumption; [lia | ].
    intros c [[] | Hc]. exact Hc.
  - cbn [initial_split].
    set (share := base + (if i <? rem then 1 else 0)).
    assert (Hshare : 0 <= share) by (apply share_nonneg; assumption).
    destruct (IH (i + 1) (set ch share acc)
                (all_nonneg_set ch share acc Hshare Hacc)
                (well_formed_set ch share acc Hwf))
      as [Hnn [Hwf' [Hsum Hkeys]]].
    repeat split; try assumption.
    + assert (Hstep : sum_values (set ch share acc) <= sum_values acc + share).
      { destruct (get ch acc) as [v0 | ] eqn:E.
        - rewrite (sum_values_set_present ch share v0 acc E).
          pose proof (all_nonneg_get ch v0 acc Hacc E). lia.
        - rewrite (sum_values_set_absent ch share acc E). lia. }
      cbn [List.length] in *. rewrite Nat2Z.inj_succ.
      subst share. destruct (i <? rem) eqn:E;
        [apply Z.ltb_lt in E | apply Z.ltb_ge in E]; lia.
    + intros c Hc. apply Hkeys.
      destruct Hc as [[Heq | Hin] | Hin].
      * subst c. right. destruct (get ch acc) as [v0 | ] eqn:E.
        -- rewrite (keys_set_present ch share v0 acc E).
           destruct (in_dec string_dec ch (keys acc)) as [Hi | Hni]; [assumption | ].
           apply get_none_keys in Hni. congruence.
        -- rewrite (keys_set_absent ch share acc E). apply in_or_app. right. now left.
      * now left.
      * right. destruct (get ch acc) as [v0 | ] eqn:E.
        -- now rewrite (keys_set_present ch share v0 acc E).
        -- rewrite (keys_set_absent ch share acc E). apply in_or_app. now left.
Qed.

(** On pairwise distinct channels the loop appends one entry per channel
    and the bound is reached. *)
Lemma initial_split_distinct (base rem : Z) (channels : list string) :
  NoDup channels ->
  forall (i : Z) (acc : dict Z),
    (forall ch, In ch channels -> get ch acc = None) ->
    let n := Z.of_nat (List.length channels) in
    let d := initial_split base rem i channels acc in
    sum_values d = sum_values acc + n * base + (Z.max i (Z.min (i + n) rem) - i) /\
    keys d = keys acc ++ channels.
Proof.
  intros Hnd. induction Hnd as [ | ch rest Hnotin Hnd IH]; intros i acc Hfresh; cbn zeta.
  - cbn [initial_split List.length Z.of_nat]. rewrite app_nil_r. split; [lia | reflexivity].
  - cbn [initial_split].
    set (share := base + (if i <? rem then 1 else 0)).
    assert (Hch : get ch acc = None) by (apply Hfresh; now left).
    destruct (IH (i + 1) (set ch share acc)) as [Hsum Hkeys].
    { intros c Hc. rewrite get_set_other.
      - apply Hfresh. now right.
      - intros ->. contradiction. }
    split.
    + rewrite Hsum, (sum_values_set_absent ch share acc Hch).
      cbn [List.length] in *. rewrite Nat2Z.inj_succ.
      subst share. destruct (i <? rem) eqn:E;
        [apply Z.ltb_lt in E | apply Z.ltb_ge in E]; lia.
    + rewrite Hkeys, (keys_set_absent ch share acc Hch), <- app_assoc. reflexivity.
Qed.

(** The equal split of a budget over distinct channels adds up to it. *)
Lemma initial_split_total (total_budget : Z) (channels : list string) :
  NoDup channels -> channels <> [] ->
  let n := Z.of_nat (List.length channels) in
  sum_values (initial_split (total_budget / n) (total_budget mod n) 0 channels [])
  = total_budget.
Proof.
  intros Hnd Hne n.
  assert (Hn : 0 < n).
  { subst n. destruct channels; [congruence | cbn [List.length]; lia]. }
  destruct (initial_split_distinct (total_budget / n) (total_budget mod n)
              channels Hnd 0 []) as [Hsum _]; [reflexivity | ].
  cbn zeta in Hsum. fold n in Hsum. rewrite Hsum.
  pose proof (Z.div_mod total_budget n ltac:(lia)).
  pose proof (Z.mod_pos_bound total_budget n Hn).
  cbn. lia.
Qed.

(** The fallback of the strategy recommender is the same loop. *)
Lemma resplit_initial_split (base rem : Z) (channels : list string) :
  forall (i : Z) (acc : dict Z),
    StrategyRecommender.resplit base rem i channels acc
    = initial_split base rem i channels acc.
Proof.
  induction channels as [ | ch rest IH]; intros i acc; cbn; [reflexivity | apply IH].
Qed.

End EqualSplitFacts.

(* ================================================================== *)
(** * Step 9 and the aggregation: the two derivations of the copy key *)

Module CopyKeyFacts.
Import PyStr PyStrFacts.

(** C3, the code at a channel name with an ampersand: the creative writer
    asks for the text under one key, the aggregation looks it up under
    another, and the plan falls back to ["N/A"]. *)
Theorem copy_key_drift :
  CreativeWriter.key_name "Print & Radio" = "print_and_radio_copy" /\
  Pipeline.channel_copy_key "Print & Radio" = "print_&_radio_copy" /\
  CreativeWriter.key_name "Print & Radio" <> Pipeline.channel_copy_key "Print & Radio" /\
  Pipeline.suggested_copy
    (Pipeline.channel_rec [("Print & Radio", 6000)]
       (Generated [(CreativeWriter.key_name "Print & Radio", "Visit [Shop Name]!")])
       [] "Print & Radio") = "N/A".
Proof.
  repeat split; try reflexivity. vm_compute. discriminate.
Qed.

(** The same at a channel name with a period. *)
Lemma copy_key_drift_period :
  CreativeWriter.key_name "Rs.99 Flyers" = "rs99_flyers_copy" /\
  Pipeline.channel_copy_key "Rs.99 Flyers" = "rs.99_flyers_copy".
Proof. split; reflexivity. Qed.

Lemma has_char_normalized (a : ascii) (channel : string) :
  (Nat.leb 97 (nat_of_ascii a) && Nat.leb (nat_of_ascii a) 122 = false)%bool ->
  has_char a "_" = false ->
  has_char a channel = false ->
  has_char a (replace "-" "_" (replace " " "_" (lower channel))) = false.
Proof.
  intros Hlow Hus Hc. rewrite !replace_char.
  apply has_char_subst; [assumption | ].
  apply has_char_subst; [assumption | ].
  now apply has_char_lower.
Qed.

(** Away from ampersands and periods the two derivations agree. *)
Lemma copy_keys_agree (channel : string) :
  contains "&" channel = false -> contains "." channel = false ->
  CreativeWriter.key_name channel = Pipeline.channel_copy_key channel.
Proof.
  rewrite !contains_char. intros Hamp Hdot.
  unfold CreativeWriter.key_name, Pipeline.channel_copy_key.
  set (base := replace "-" "_" (replace " " "_" (lower channel))).
  assert (Ha : has_char "&" base = false)
    by (apply has_char_normalized; [reflexivity | reflexivity | assumption]).
  assert (Hd : has_char "." base = false)
    by (apply has_char_normalized; [reflexivity | reflexivity | assumption]).
  rewrite (replace_absent "&" "and" base) by now rewrite contains_char.
  rewrite (replace_absent "." "" base) by now rewrite contains_char.
  reflexivity.
Qed.

End CopyKeyFacts.

(* ================================================================== *)
(** * Step 7: the correction of the generated split *)

Module StrategyFacts.
Import PyDict PyDictFacts StrategyRecommender Pipeline.
Local Open Scope list_scope.

Lemma sum_values_at (k : string) (v : Z) (before after : dict Z) :
  sum_values (before ++ (k, v) :: after) = sum_values before + v + sum_values after.
Proof. rewrite !sum_values_with, sum_with_app. cbn. lia. Qed.

(** The correction on a split that is known not to be empty. *)
Lemma adjust_budget_split_nonempty (total_budget : Z) (res : CampaignStrategy)
    (split : dict Z) :
  budget_split res = Some split -> split <> [] ->
  adjust_budget_split total_budget res =
  if negb (total_budget - sum_values split =? 0) then
    match max_key split with
    | Some largest_channel =>
        let split := add_to largest_channel (total_budget - sum_values split) split in
        v <- item largest_channel split ;;
        if v <? 0 then
          channels <-
            match recommended_channels res with
            | Some l => Ok l
            | None => Raise (OtherError "KeyError")
            end ;;
          let num_channels := Z.of_nat (List.length channels) in
          if num_channels =? 0 then Raise (OtherError "ZeroDivisionError")
          else
            Ok (with_budget_split res
                  (resplit (total_budget / num_channels)
                     (total_budget mod num_channels) 0 channels []))
        else Ok (with_budget_split res split)
    | None => Ok res
    end
  else Ok res.
Proof.
  intros Hres Hne. unfold adjust_budget_split. rewrite Hres.
  destruct split; [congruence | reflexivity].
Qed.

(** C4, as the code has it.  Let the generated split be non-empty and off
    the budget by [diff <> 0].  Its largest entry is found, the first one
    among equals.  When that entry plus [diff] is at least zero, the whole
    of [diff] is added to it, nothing else changes, and the split adds up to
    the budget.  When it would fall below zero, the split is replaced by
    the equal split of the budget over the recommended channels, which adds
    up to the budget when the channels are pairwise distinct. *)
Theorem budget_correction (total_budget : Z) (res : CampaignStrategy)
    (split : dict Z) :
  budget_split res = Some split -> split <> [] -> well_formed split ->
  total_budget - sum_values split <> 0 ->
  exists largest v before after,
    split = before ++ (largest, v) :: after /\
    (forall kv, In kv before -> snd kv < v) /\
    (forall kv, In kv after -> snd kv <= v) /\
    let diff := total_budget - sum_values split in
    let corrected := before ++ (largest, v + diff) :: after in
    (0 <= v + diff ->
       adjust_budget_split total_budget res = Ok (with_budget_split res corrected) /\
       sum_values corrected = total_budget) /\
    (v + diff < 0 ->
       forall channels, recommended_channels res = Some channels -> channels <> [] ->
       let n := Z.of_nat (List.length channels) in
       let equal := resplit (total_budget / n) (total_budget mod n) 0 channels [] in
       adjust_budget_split total_budget res = Ok (with_budget_split res equal) /\
       (NoDup channels -> sum_values equal = total_budget)).
Proof.
  intros Hres Hne Hwf Hdiff.
  destruct (max_key_spec split Hne) as [k [v [before [after [Hmax [Hsplit [Hb Ha]]]]]]].
  exists k, v, before, after.
  split; [assumption | ]. split; [assumption | ]. split; [assumption | ].
  cbn zeta.
  assert (Hadj : adjust_budget_split total_budget res =
                 let corrected :=
                   before ++ (k, v + (total_budget - sum_values split)) :: after in
                 if v + (total_budget - sum_values split) <? 0 then
                   channels <-
                     match recommended_channels res with
                     | Some l => Ok l
                     | None => Raise (OtherError "KeyError")
                     end ;;
                   let num_channels := Z.of_nat (List.length channels) in
                   if num_channels =? 0 then Raise (OtherError "ZeroDivisionError")
                   else
                     Ok (with_budget_split res
                           (resplit (total_budget / num_channels)
                              (total_budget mod num_channels) 0 channels []))
                 else Ok (with_budget_split res corrected)).
  { rewrite (adjust_budget_split_nonempty total_budget res split Hres Hne).
    apply Z.eqb_neq in Hdiff. rewrite Hdiff. cbn [negb]. rewrite Hmax. cbn zeta.
    set (diff := total_budget - sum_values split).
    pose proof Hwf as Hnotin. rewrite Hsplit in Hnotin.
    apply well_formed_split in Hnotin.
    assert (Hadd : add_to k diff split = before ++ (k, v + diff) :: after).
    { unfold add_to. rewrite Hsplit, (get_at k v before after Hnotin).
      now apply set_at. }
    rewrite Hadd. unfold item. rewrite (get_at k _ before after Hnotin).
    reflexivity. }
  split.
  - intros Hpos. split.
    + rewrite Hadj. cbn zeta. apply Z.ltb_ge in Hpos. now rewrite Hpos.
    + rewrite sum_values_at. rewrite Hsplit. rewrite sum_values_at. lia.
  - intros Hneg channels Hch Hchne. split.
    + rewrite Hadj. cbn zeta. apply Z.ltb_lt in Hneg. rewrite Hneg, Hch. cbn [bind].
      destruct (Z.of_nat (List.length channels) =? 0) eqn:En; [ | reflexivity].
      apply Z.eqb_eq in En. destruct channels; [congruence | cbn in En; lia].
    + intros Hnd. rewrite EqualSplitFacts.resplit_initial_split.
      now apply EqualSplitFacts.initial_split_total.
Qed.

(** The example of the specification: [{"A": 1000, "B": 1000}] against a
    budget of 2500 becomes [{"A": 1500, "B": 1000}]; on a tie the first
    channel takes the 500. *)
Lemma budget_correction_example :
  adjust_budget_split 2500 tied_strategy
  = Ok (with_budget_split tied_strategy [("A", 1500); ("B", 1000)]).
Proof. reflexivity. Qed.

(** The rule on that example. *)
Lemma budget_correction_witness :
  exists largest v before after,
    [("A", 1000); ("B", 1000)] = before ++ (largest, v) :: after /\
    (forall kv, In kv before -> snd kv < v) /\
    (forall kv, In kv after -> snd kv <= v) /\
    let diff := 2500 - sum_values [("A", 1000); ("B", 1000)] in
    let corrected := before ++ (largest, v + diff) :: after in
    (0 <= v + diff ->
       adjust_budget_split 2500 tied_strategy
       = Ok (with_budget_split tied_strategy corrected) /\
       sum_values corrected = 2500) /\
    (v + diff < 0 ->
       forall channels,
         recommended_channels tied_strategy = Some channels -> channels <> [] ->
       let n := Z.of_nat (List.length channels) in
       let equal := resplit (2500 / n) (2500 mod n) 0 channels [] in
       adjust_budget_split 2500 tied_strategy
       = Ok (with_budget_split tied_strategy equal) /\
       (NoDup channels -> sum_values equal = 2500)).
Proof.
  apply (budget_correction 2500 tied_strategy [("A", 1000); ("B", 1000)]).
  - reflexivity.
  - discriminate.
  - repeat constructor; cbn; intuition discriminate.
  - vm_compute. discriminate.
Defined.

(** C4, the claim refuted: against a budget of 500 the difference of -1500
    is not added to the largest channel; the split is made equal instead. *)
Lemma budget_correction_fallback :
  500 - sum_values [("A", 1000); ("B", 1000)] = -1500 /\
  max_key [("A", 1000); ("B", 1000)] = Some "A" /\
  adjust_budget_split 500 tied_strategy
  = Ok (with_budget_split tied_strategy [("A", 250); ("B", 250)]) /\
  [("A", 250); ("B", 250)] <> add_to "A" (-1500) [("A", 1000); ("B", 1000)].
Proof.
  split; [reflexivity | ]. split; [reflexivity | ]. split; [reflexivity | ].
  vm_compute. discriminate.
Qed.

(** When the fallback finds no channel to split over, the step fails: the
    error is caught and handed back as an error object. *)
Lemma budget_correction_no_channels :
  is_error_object
    (generate_strategy 500
       (Some (Returned
                {| recommended_channels := Some [];
                   budget_split := Some [("A", 1000); ("B", 1000)];
                   campaign_angle := Some "Angle"; justification := None |})))
  = true.
Proof. reflexivity. Qed.

End StrategyFacts.

(* ================================================================== *)
(** * The driver: what a request that succeeds went through *)

Module PipelineFacts.
Import PyDict InputParser Pipeline.

Lemma bindM_ok_inv {A B : Type} (m : M A) (f : A -> M B)
    (log log' : list event) (b : B) :
  bindM m f log = (log', Ok b) ->
  exists a log1, m log = (log1, Ok a) /\ f a log1 = (log', Ok b).
Proof.
  unfold bindM. destruct (m log) as [log1 [a | e]]; intros H.
  - now exists a, log1.
  - discriminate.
Qed.

Lemma call_ok_inv {A : Type} (s : step) (eo : A -> bool) (r : result A)
    (log log' : list event) (a : A) :
  call s eo r log = (log', Ok a) -> r = Ok a /\ log' = (log ++ [(s, eo a)])%list.
Proof.
  unfold call. intros H. inversion H; subst. now split.
Qed.

Lemma lift_ok_inv {A : Type} (r : result A) (log log' : list event) (a : A) :
  lift r log = (log', Ok a) -> r = Ok a /\ log' = log.
Proof.
  unfold lift. intros H. inversion H; subst. now split.
Qed.

Lemma fail_on_error_ok_inv {A : Type} (what : string) (g : generated A)
    (log log' : list event) (u : unit) :
  fail_on_error what g log = (log', Ok u) -> has_error g = false /\ log' = log.
Proof.
  unfold fail_on_error. destruct (has_error g).
  - unfold lift. discriminate.
  - unfold ret. intros H. inversion H. now split.
Qed.

(** The map an accepted request is turned into. *)
Lemma parse_input_api_dict (i : ApiInput) (cleaned : dict pyval) :
  parse_input (api_dict i) = Ok cleaned ->
  exists b,
    cleaned =
      [ ("business_type", PyStr (business_type i));
        ("location", PyStr (location i));
        ("goal_description", PyStr (goal_description i));
        ("channel_preference", PyStr (channel_preference i));
        ("user_id", PyStr (user_id i));
        ("budget", PyInt b) ].
Proof.
  unfold parse_input. rewrite InputParserFacts.validate_api_dict.
  destruct (existsb (String.eqb (channel_preference i)) allowed); [ | discriminate].
  intros H. inversion H; subst; clear H.
  destruct i as [bt loc goal bmin bmax bfix cp uid].
  destruct bfix, bmin, bmax; cbn; eexists; reflexivity.
Qed.

Ltac invert_step H :=
  first
    [ apply bindM_ok_inv in H;
      let a := fresh "x" in let l := fresh "log" in
      let H1 := fresh "Hstep" in
      destruct H as [a [l [H1 H]]];
      first [ apply call_ok_inv in H1 | apply lift_ok_inv in H1
            | apply fail_on_error_ok_inv in H1 ];
      destruct H1 as [H1 ?]; subst l
    | apply call_ok_inv in H; destruct H as [H ?] ].

(** A request that is answered with a plan has gone through every step:
    the split of the plan comes from [allocate_budget], called on the
    resolved budget, the channels of the strategy and the history. *)
Lemma run_pipeline_ok_inv (c : Collaborators) (i : ApiInput)
    (log : list event) (plan : CampaignPlan) :
  run_pipeline c i = (log, Ok plan) ->
  exists cleaned persona context strategy split creative prompts,
    parse_input (api_dict i) = Ok cleaned /\
    strategy =
      StrategyRecommender.generate_strategy (budget_get 5000 cleaned)
        (option_map (fun run => run cleaned persona context
                                  (get_previous_results (user_id i)))
           (strategy_chain c)) /\
    has_error strategy = false /\
    BudgetAllocator.allocate_budget (budget_get 0 cleaned)
      (strategy_channels strategy) (get_previous_results (user_id i)) = Ok split /\
    channel_recommendations plan =
      map (channel_rec split creative prompts) (strategy_channels strategy).
Proof.
  unfold run_pipeline.
  destruct (pipeline_body c i []) as [log0 [plan0 | e]] eqn:Hbody.
  2:{ destruct e; discriminate. }
  intros H. inversion H; subst; clear H.
  unfold pipeline_body, call_plain in Hbody.
  invert_step Hbody. rename x into cleaned, Hstep into Hparse.
  destruct (parse_input_api_dict i cleaned Hparse) as [b Hcleaned].
  repeat invert_step Hbody.
  repeat match goal with H : Ok _ = Ok _ |- _ => inversion H; subst; clear H end.
  cbn in Hstep1. inversion Hstep1; subst; clear Hstep1.
  eexists _, _, _, _, x10, _, _.
  split; [exact Hparse | ]. split; [reflexivity | ].
  split; [exact Hstep9 | ]. split; [exact Hstep10 | reflexivity].
Qed.

(** The sample request from end to end: the budget of 6000 is split into
    3000 and 3000, one channel is tracked by link and one by QR code, and
    the note is the history of the user. *)
Lemma sample_run :
  run_pipeline sample_collaborators (request "Both" None None (Some 6000))
  = (full_log, Ok sample_plan).
Proof. vm_compute. reflexivity. Qed.

(** C2, as the code has it.  In a plan, the budget of each recommended
    channel is looked up, with default 0, in the split that
    [allocate_budget] returned for the resolved budget, the channels of the
    strategy and the history. *)
Theorem allocated_budget_from_allocator (c : Collaborators) (i : ApiInput)
    (log : list event) (plan : CampaignPlan) :
  run_pipeline c i = (log, Ok plan) ->
  exists cleaned persona context strategy split,
    parse_input (api_dict i) = Ok cleaned /\
    strategy =
      StrategyRecommender.generate_strategy (budget_get 5000 cleaned)
        (option_map (fun run => run cleaned persona context
                                  (get_previous_results (user_id i)))
           (strategy_chain c)) /\
    BudgetAllocator.allocate_budget (budget_get 0 cleaned)
      (strategy_channels strategy) (get_previous_results (user_id i)) = Ok split /\
    map (fun r => (channel_name r, allocated_budget r)) (channel_recommendations plan) =
    map (fun channel => (channel, get_default channel 0 split))
        (strategy_channels strategy).
Proof.
  intros Hrun.
  destruct (run_pipeline_ok_inv c i log plan Hrun)
    as [cleaned [persona [context [strategy [split [creative [prompts
         [Hparse [Hstrategy [_ [Halloc Hrecs]]]]]]]]]]].
  exists cleaned, persona, context, strategy, split.
  repeat split; try assumption.
  rewrite Hrecs, map_map. reflexivity.
Qed.

(** The sample request: both channels get the 3000 of the allocator. *)
Lemma allocated_budget_from_allocator_witness :
  exists cleaned persona context strategy split,
    parse_input (api_dict (request "Both" None None (Some 6000))) = Ok cleaned /\
    strategy =
      StrategyRecommender.generate_strategy (budget_get 5000 cleaned)
        (option_map (fun run => run cleaned persona context
                                  (get_previous_results "user123_with_history"))
           (strategy_chain sample_collaborators)) /\
    BudgetAllocator.allocate_budget (budget_get 0 cleaned)
      (strategy_channels strategy) (get_previous_results "user123_with_history")
      = Ok split /\
    map (fun r => (channel_name r, allocated_budget r))
        (channel_recommendations sample_plan) =
    map (fun channel => (channel, get_default channel 0 split))
        (strategy_channels strategy).
Proof.
  exact (allocated_budget_from_allocator sample_collaborators
           (request "Both" None None (Some 6000)) full_log sample_plan sample_run).
Defined.

(** C2, the claim refuted: on the sample request the corrected split of the
    strategy gives 5000 and 1000, and the plan allocates 3000 and 3000. *)
Lemma plan_ignores_strategy_split :
  exists log plan strategy,
    run_pipeline sample_collaborators (request "Both" None None (Some 6000))
      = (log, Ok plan) /\
    StrategyRecommender.generate_strategy 6000 (Some (Returned sample_strategy))
      = Generated strategy /\
    StrategyRecommender.budget_split strategy
      = Some [("Facebook Local Ads", 5000); ("Pamphlets", 1000)] /\
    map (fun r => (channel_name r, allocated_budget r)) (channel_recommendations plan)
      = [("Facebook Local Ads", 3000); ("Pamphlets", 3000)].
Proof.
  exists full_log, sample_plan. eexists. split; [exact sample_run | ].
  split; [vm_compute; reflexivity | ]. split; reflexivity.
Qed.

(** C10. In a plan, the tracking type of a channel is ["link"] exactly when
    its name has ["Ads"] or ["Online"] in it, letter case respected, and
    ["qr_code"] exactly when it has neither. *)
Theorem tracking_type_rule (c : Collaborators) (i : ApiInput)
    (log : list event) (plan : CampaignPlan) (r : ChannelRecommendation) :
  run_pipeline c i = (log, Ok plan) ->
  In r (channel_recommendations plan) ->
  (tracking_info_type r = "link" <->
     occurs "Ads" (channel_name r) \/ occurs "Online" (channel_name r)) /\
  (tracking_info_type r = "qr_code" <->
     ~ (occurs "Ads" (channel_name r) \/ occurs "Online" (channel_name r))).
Proof.
  intros Hrun Hin.
  destruct (run_pipeline_ok_inv c i log plan Hrun)
    as [cleaned [persona [context [strategy [split [creative [prompts
         [_ [_ [_ [_ Hrecs]]]]]]]]]]].
  rewrite Hrecs in Hin. apply in_map_iff in Hin.
  destruct Hin as [channel [Hr _]]. subst r.
  cbn [tracking_info_type channel_name channel_rec]. unfold tracking_type.
  rewrite <- !PyStrFacts.contains_spec, <- orb_true_iff.
  destruct (PyStr.contains "Ads" channel || PyStr.contains "Online" channel).
  - split; split; intros H; try reflexivity; try discriminate. now elim H.
  - split; split; intros H; try reflexivity; try discriminate.
Qed.

(** The sample request: the pamphlets are tracked by QR code. *)
Lemma tracking_type_rule_witness :
  (tracking_info_type sample_pamphlets = "link" <->
     occurs "Ads" (channel_name sample_pamphlets) \/
     occurs "Online" (channel_name sample_pamphlets)) /\
  (tracking_info_type sample_pamphlets = "qr_code" <->
     ~ (occurs "Ads" (channel_name sample_pamphlets) \/
        occurs "Online" (channel_name sample_pamphlets))).
Proof.
  apply (tracking_type_rule sample_collaborators
           (request "Both" None None (Some 6000)) full_log sample_plan
           sample_pamphlets sample_run).
  right. left. reflexivity.
Defined.

End PipelineFacts.

(* ================================================================== *)
(** * The driver: a failed generative step ends the request *)

Module HaltingFacts.
Import PyDict InputParser Pipeline.
Local Open Scope list_scope.

(** The error objects of the generative steps carry a non-empty text, so
    the test of the driver sees every one of them. *)
Lemma generate_persona_error_seen (chain : option (chain_outcome AudiencePersona)) :
  is_error_object (generate_persona chain) = has_error (generate_persona chain).
Proof. now destruct chain as [[a | ty msg] | ]. Qed.

Lemma generate_visual_prompts_error_seen (chain : option (chain_outcome VisualPrompts)) :
  is_error_object (generate_visual_prompts chain)
  = has_error (generate_visual_prompts chain).
Proof. now destruct chain as [[a | ty msg] | ]. Qed.

Lemma generate_strategy_error_seen (total_budget : Z)
    (chain : option (chain_outcome Strategy)) :
  is_error_object (StrategyRecommender.generate_strategy total_budget chain) =
  has_error (StrategyRecommender.generate_strategy total_budget chain).
Proof.
  destruct chain as [[res | ty msg] | ]; cbn; try reflexivity.
  now destruct (StrategyRecommender.adjust_budget_split total_budget res).
Qed.

Lemma generate_creative_error_seen (ready : bool)
    (chain : list string -> chain_outcome (dict string)) (channels : list string) :
  is_error_object (CreativeWriter.generate_creative ready chain channels) =
  has_error (CreativeWriter.generate_creative ready chain channels).
Proof.
  unfold CreativeWriter.generate_creative.
  destruct ready; cbn; [ | reflexivity].
  destruct channels; [reflexivity | ].
  now destruct (chain _).
Qed.

Lemma clean_nil : clean [].
Proof. intros s []. Qed.

Lemma clean_snoc (log : list event) (s : step) (b : bool) :
  clean log -> (b = true -> fatal s = false) -> clean (log ++ [(s, b)]).
Proof.
  intros Hlog Hs s' Hin. apply in_app_or in Hin. destruct Hin as [Hin | [Heq | []]].
  - now apply Hlog.
  - inversion Heq; subst. now apply Hs.
Qed.

Lemma safe_ret {A : Type} (a : A) : safe (ret a).
Proof. intros log Hlog. now left. Qed.

Lemma safe_lift {A : Type} (r : result A) : safe (lift r).
Proof. intros log Hlog. now left. Qed.

Lemma safe_bind {A B : Type} (m : M A) (f : A -> M B) :
  safe m -> (forall a, safe (f a)) -> safe (bindM m f).
Proof.
  intros Hm Hf log Hlog. unfold bindM.
  specialize (Hm log Hlog). destruct (m log) as [log1 [a | e]]; cbn in *.
  - destruct Hm as [Hclean | [_ [msg Hraise]]].
    + now apply Hf.
    + discriminate.
  - destruct Hm as [Hclean | [Hhalt [msg Hraise]]].
    + left. exact Hclean.
    + right. split; [exact Hhalt | ]. exists msg. cbn in *. now inversion Hraise.
Qed.

(** A step that is not one of the four may hand back anything. *)
Lemma safe_call_other {A : Type} (s : step) (eo : A -> bool) (r : result A) :
  fatal s = false -> safe (call s eo r).
Proof.
  intros Hs log Hlog. left. cbn. apply clean_snoc; [assumption | now intros _].
Qed.

(** One of the four steps, followed by the test of the driver. *)
Lemma safe_call_checked {A B : Type} (s : step) (what : string) (g : generated A)
    (k : generated A -> M B) :
  fatal s = true ->
  is_error_object g = has_error g ->
  (forall g', safe (k g')) ->
  safe (bindM (call s is_error_object (Ok g))
          (fun g' => bindM (fail_on_error what g') (fun _ => k g'))).
Proof.
  intros Hs Hseen Hk log Hlog. unfold bindM, call, fail_on_error.
  rewrite <- Hseen. destruct (is_error_object g) eqn:Herr.
  - right. cbn. split.
    + exists log, s. now repeat split.
    + eexists. reflexivity.
  - cbn. apply Hk. apply clean_snoc; [assumption | discriminate].
Qed.

(** The [try] block keeps the invariant. *)
Lemma pipeline_body_safe (c : Collaborators) (i : ApiInput) :
  safe (pipeline_body c i).
Proof.
  unfold pipeline_body, call_plain.
  apply safe_bind; [now apply safe_call_other | intros cleaned].
  apply safe_bind; [apply safe_lift | intros goal].
  apply safe_bind; [now apply safe_call_other | intros ents].
  apply safe_bind; [apply safe_lift | intros uid].
  apply safe_bind; [now apply safe_call_other | intros previous].
  apply safe_bind; [apply safe_lift | intros loc].
  apply safe_bind; [now apply safe_call_other | intros trend].
  apply safe_bind; [now apply safe_call_other | intros context].
  apply safe_call_checked;
    [reflexivity | apply generate_persona_error_seen | intros persona].
  apply safe_call_checked;
    [reflexivity | apply generate_strategy_error_seen | intros strategy].
  apply safe_bind; [now apply safe_call_other | intros split].
  apply safe_call_checked;
    [reflexivity | apply generate_creative_error_seen | intros creative].
  apply safe_call_checked;
    [reflexivity | apply generate_visual_prompts_error_seen | intros visual].
  now apply safe_call_other.
Qed.

(** In a halted log the error object of a fatal step can only be last. *)
Lemma halted_last (log before after : list event) (s : step) :
  halted log -> log = (before ++ (s, true) :: after)%list -> fatal s = true ->
  after = [].
Proof.
  intros [pre [s0 [Hlog [Hs0 Hpre]]]] Heq Hs. subst log.
  destruct after as [ | x after] using rev_ind; [reflexivity | ].
  clear IHafter. exfalso.
  change (before ++ (s, true) :: after ++ [x])%list
    with (before ++ ((s, true) :: after) ++ [x])%list in Heq.
  rewrite app_assoc in Heq. apply app_inj_tail in Heq. destruct Heq as [Hpre' _].
  assert (Hin : In (s, true) pre).
  { rewrite Hpre'. apply in_or_app. right. now left. }
  apply Hpre in Hin. congruence.
Qed.

(** C5. When the persona, strategy, creative or visual step hands back an
    error object, no step is called after it, and the request is answered
    with the one transport failure, status 500: no plan is returned. *)
Theorem fatal_error_halts (c : Collaborators) (i : ApiInput)
    (log before after : list event) (r : result CampaignPlan) (s : step) :
  run_pipeline c i = (log, r) ->
  log = (before ++ (s, true) :: after)%list ->
  fatal s = true ->
  after = [] /\ exists detail, r = Raise (HTTPException 500 detail).
Proof.
  intros Hrun Hlog Hs. unfold run_pipeline in Hrun.
  pose proof (pipeline_body_safe c i [] clean_nil) as Hsafe.
  destruct (pipeline_body c i []) as [log0 r0].
  assert (Hlog0 : log0 = log) by (destruct r0 as [p | [m | st d | n]]; now inversion Hrun).
  subst log0. destruct Hsafe as [Hclean | [Hhalt [msg Hraise]]]; cbn in *.
  - exfalso. assert (Hin : In (s, true) log).
    { rewrite Hlog. apply in_or_app. right. now left. }
    apply Hclean in Hin. congruence.
  - split.
    + now apply (halted_last log before after s).
    + subst r0. inversion Hrun. now exists msg.
Qed.

(** The sample request with the persona chain raising: the log ends at the
    persona step and the answer is the failure. *)
Lemma persona_failing_run :
  run_pipeline persona_failing (request "Both" None None (Some 6000))
  = (firstn 5 full_log ++ [(GeneratePersona, true)],
     Raise (HTTPException 500 "Persona Generation Failed: Invalid json output")).
Proof. vm_compute. reflexivity. Qed.

(** The rule on that run: nothing follows the persona step. *)
Lemma fatal_error_halts_witness :
  @nil event = [] /\
  exists detail,
    Raise (HTTPException 500 "Persona Generation Failed: Invalid json output")
    = @Raise CampaignPlan (HTTPException 500 detail).
Proof.
  exact (fatal_error_halts persona_failing (request "Both" None None (Some 6000))
           (firstn 5 full_log ++ [(GeneratePersona, true)]) (firstn 5 full_log) []
           _ GeneratePersona persona_failing_run eq_refl eq_refl).
Defined.

End HaltingFacts.

(* ================================================================== *)
(** * Step 8: the allocator returns an exact split without negatives *)

Module AllocatorFacts.
Import PyDict PyDictFacts EqualSplitFacts BudgetAllocator.
Local Open Scope list_scope.

Lemma deficit_nonneg (v : Z) : 0 <= deficit v.
Proof. unfold deficit. lia. Qed.

Lemma sum_deficit_nonneg (d : dict Z) : 0 <= sum_with deficit d.
Proof.
  induction d as [ | kv d IH]; cbn; [lia | ].
  pose proof (deficit_nonneg (snd kv)). lia.
Qed.

Lemma sum_deficit_zero (d : dict Z) : all_nonneg d -> sum_with deficit d = 0.
Proof.
  unfold all_nonneg. induction 1 as [ | kv d Hkv Hd IH]; cbn; [reflexivity | ].
  rewrite IH. unfold deficit. lia.
Qed.

Lemma all_nonneg_sum (d : dict Z) : all_nonneg d -> 0 <= sum_values d.
Proof.
  rewrite sum_values_with. unfold all_nonneg.
  induction 1 as [ | kv d Hkv Hd IH]; cbn; lia.
Qed.

Lemma well_formed_add_to (k : string) (delta : Z) (d : dict Z) :
  well_formed d -> well_formed (add_to k delta d).
Proof. unfold well_formed. now rewrite keys_add_to. Qed.

Lemma sum_deficit_add_to (k : string) (delta v0 : Z) (d : dict Z) :
  get k d = Some v0 ->
  sum_with deficit (add_to k delta d)
  = sum_with deficit d - deficit v0 + deficit (v0 + delta).
Proof.
  intros H. unfold add_to. rewrite H. now apply sum_with_set_present.
Qed.

Lemma all_nonneg_add_to (k : string) (delta v0 : Z) (d : dict Z) :
  get k d = Some v0 -> 0 <= v0 + delta -> all_nonneg d ->
  all_nonneg (add_to k delta d).
Proof.
  intros H Hv Hd. unfold add_to. rewrite H. now apply all_nonneg_set.
Qed.

(** ** The reductions *)

Lemma collect_reductions_ok (adjusted : dict Z) (h : string)
    (boost_amount total_other_budget : Z) (channels : list string) :
  all_nonneg adjusted -> 0 <= boost_amount -> 0 < total_other_budget ->
  forall st st',
    collect_reductions adjusted h boost_amount total_other_budget channels st = Ok st' ->
    reductions_ok adjusted h st -> reductions_ok adjusted h st'.
Proof.
  intros Hadj Hboost Htob.
  induction channels as [ | channel rest IH]; intros st st'; cbn [collect_reductions].
  - intros H. now inversion H.
  - destruct (String.eqb channel h) eqn:Eh; [apply IH | ].
    unfold item, bind.
    destruct (get channel adjusted) as [a | ] eqn:Ea; [ | discriminate].
    destruct (PyFloat.truediv a total_other_budget) as [proportion | ] eqn:Ep;
      [ | discriminate].
    destruct (PyFloat.int_of_mul boost_amount proportion) as [r1 | ] eqn:E1;
      [ | discriminate].
    destruct (PyFloat.int_of_mul a PyFloat.lit_0_3) as [r2 | ] eqn:E2;
      [ | discriminate].
    intros Hrest [Hnn [Hsum [Hh Hkeys]]]. apply (IH _ _ Hrest).
    assert (Ha : 0 <= a) by now apply (all_nonneg_get channel a adjusted).
    assert (H1 : 0 <= r1).
    { apply (PyFloatFacts.int_of_mul_nonneg boost_amount proportion); try assumption.
      now apply (PyFloatFacts.truediv_signless a total_other_budget). }
    assert (H2 : 0 <= r2).
    { apply (PyFloatFacts.int_of_mul_nonneg a PyFloat.lit_0_3); try assumption.
      apply PyFloatFacts.lit_0_3_signless. }
    unfold reductions_ok. cbn [fst snd]. repeat split.
    + apply all_nonneg_set; [lia | assumption].
    + destruct (get channel (snd st)) as [r0 | ] eqn:E0.
      * rewrite (sum_values_set_present channel _ r0 _ E0).
        pose proof (all_nonneg_get channel r0 _ Hnn E0). lia.
      * rewrite (sum_values_set_absent channel _ _ E0). lia.
    + rewrite get_set_other; [assumption | ].
      intros ->. now rewrite String.eqb_refl in Eh.
    + intros k Hk. destruct (get channel (snd st)) as [r0 | ] eqn:E0.
      * rewrite (keys_set_present channel _ r0 _ E0) in Hk. now apply Hkeys.
      * rewrite (keys_set_absent channel _ _ E0) in Hk.
        apply in_app_or in Hk. destruct Hk as [Hk | [Hk | []]]; [now apply Hkeys | ].
        subst k. destruct (in_dec string_dec channel (keys adjusted)) as [Hi | Hni];
          [assumption | ].
        apply get_none_keys in Hni. congruence.
Qed.

(** Taking the reductions off: the boosted channel is left alone, the total
    falls by what is taken, and no more than that can go below zero. *)
Lemma apply_reductions_spec (h : string) (reductions : dict Z) :
  all_nonneg reductions -> get h reductions = None ->
  forall d,
    (forall k, In k (keys reductions) -> In k (keys d)) ->
    let d' := apply_reductions reductions d in
    get h d' = get h d /\ keys d' = keys d /\
    sum_values d' = sum_values d - sum_values reductions /\
    sum_with deficit d' <= sum_with deficit d + sum_values reductions.
Proof.
  induction reductions as [ | [k r] rest IH]; intros Hnn Hh d Hkeys; cbn zeta.
  - cbn [apply_reductions]. change (sum_values []) with 0. repeat split; lia.
  - cbn [apply_reductions].
    assert (Hr : 0 <= r).
    { unfold all_nonneg in Hnn. now inversion Hnn. }
    assert (Hnn' : all_nonneg rest).
    { unfold all_nonneg in *. now inversion Hnn. }
    cbn [get] in Hh. destruct (String.eqb h k) eqn:Ehk; [discriminate | ].
    apply String.eqb_neq in Ehk.
    assert (Hin : In k (keys d)) by (apply Hkeys; now left).
    destruct (get k d) as [v0 | ] eqn:Ev.
    2:{ apply get_none_keys in Ev. contradiction. }
    destruct (IH Hnn' Hh (add_to k (- r) d)) as [Hget [Hk [Hsum Hdef]]].
    { intros k' Hk'. rewrite keys_add_to. apply Hkeys. now right. }
    cbn zeta in *. repeat split.
    + rewrite Hget. now apply get_add_to_other.
    + now rewrite Hk, keys_add_to.
    + rewrite Hsum, (sum_values_add_to k (- r) v0 d Ev), sum_values_cons. lia.
    + rewrite (sum_deficit_add_to k (- r) v0 d Ev) in Hdef.
      rewrite sum_values_cons.
      assert (D : deficit (v0 + - r) <= deficit v0 + r) by (unfold deficit; lia).
      lia.
Qed.

(** ** Before the final check *)

Lemma ready_plain (total_budget : Z) (d : dict Z) :
  well_formed d -> all_nonneg d -> d <> [] -> sum_values d <= total_budget ->
  ready total_budget d.
Proof.
  intros Hwf Hnn Hne Hsum. split; [assumption | ].
  destruct d as [ | [k v] d]; [congruence | ].
  exists 0, k, v.
  assert (Hget : get k ((k, v) :: d) = Some v) by (cbn; now rewrite String.eqb_refl).
  pose proof (all_nonneg_get k v _ Hnn Hget).
  rewrite (sum_deficit_zero _ Hnn). repeat split; try assumption; lia.
Qed.

Lemma apply_boost_ready (total_budget base_allocation : Z) (channels : list string)
    (h : string) (adjusted boosted : dict Z) :
  0 <= base_allocation ->
  well_formed adjusted -> all_nonneg adjusted -> adjusted <> [] ->
  sum_values adjusted <= total_budget ->
  apply_boost total_budget base_allocation channels h adjusted = Ok boosted ->
  ready total_budget boosted.
Proof.
  intros Hbase Hwf Hnn Hne Hsum. unfold apply_boost, item, bind.
  destruct (get h adjusted) as [vh | ] eqn:Eh; [ | discriminate].
  destruct (PyFloat.int_of_mul vh PyFloat.lit_0_2) as [intended | ] eqn:Ei;
    [ | discriminate].
  assert (Hvh : 0 <= vh) by now apply (all_nonneg_get h vh adjusted).
  assert (Hint : 0 <= intended).
  { apply (PyFloatFacts.int_of_mul_nonneg vh PyFloat.lit_0_2); try assumption.
    apply PyFloatFacts.lit_0_2_signless. }
  destruct (total_budget - vh >? 0) eqn:Etob.
  2:{ intros H. inversion H; subst. now apply ready_plain. }
  destruct (collect_reductions adjusted h (Z.min (base_allocation / 2) intended)
              (total_budget - vh) channels (0, [])) as [st | ] eqn:Ec; [ | discriminate].
  destruct (fst st >? 0) eqn:Eabt.
  2:{ intros H. inversion H; subst. now apply ready_plain. }
  intros H. inversion H; subst; clear H.
  assert (Hboost : 0 <= Z.min (base_allocation / 2) intended)
    by (apply Z.min_glb; [apply Z.div_pos; lia | assumption]).
  assert (Hother : 0 < total_budget - vh) by (apply Z.gtb_lt in Etob; lia).
  assert (Hst : reductions_ok adjusted h st).
  { apply (collect_reductions_ok adjusted h _ _ channels Hnn Hboost Hother (0, []) st Ec).
    unfold reductions_ok. cbn. repeat split; try constructor; try lia; try tauto. }
  destruct Hst as [Hrnn [Hrsum [Hrh Hrkeys]]].
  set (boosted0 := add_to h (fst st) adjusted).
  destruct (apply_reductions_spec h (snd st) Hrnn Hrh boosted0) as [Hget [Hkeys [Hs Hd]]].
  { intros k Hk. unfold boosted0. rewrite keys_add_to. now apply Hrkeys. }
  cbn zeta in *. split.
  - unfold well_formed. rewrite Hkeys. unfold boosted0. now rewrite keys_add_to.
  - exists (sum_values (snd st)), h, (vh + fst st).
    pose proof (all_nonneg_sum _ Hrnn).
    unfold boosted0 in *.
    rewrite (get_add_to_same h (fst st) vh adjusted Eh) in Hget.
    rewrite (sum_values_add_to h (fst st) vh adjusted Eh) in Hs.
    rewrite (sum_deficit_add_to h (fst st) vh adjusted Eh) in Hd.
    rewrite (sum_deficit_zero adjusted Hnn) in Hd.
    apply Z.gtb_lt in Eabt.
    assert (D1 : deficit vh = 0) by (unfold deficit; lia).
    assert (D2 : deficit (vh + fst st) = 0) by (unfold deficit; lia).
    rewrite D1, D2 in Hd.
    repeat split; try assumption; try lia.
Qed.

(** ** The final check, the clamp, and the check again *)

Lemma max_key_largest (d : dict Z) (k : string) (v : Z) :
  well_formed d -> get k d = Some v ->
  exists k' m, max_key d = Some k' /\ get k' d = Some m /\ v <= m.
Proof.
  intros Hwf Hget.
  assert (Hne : d <> []) by (intros ->; discriminate).
  destruct (max_key_spec d Hne) as [k' [m [before [after [Hmax [Hd [Hb Ha]]]]]]].
  exists k', m. split; [assumption | ].
  pose proof Hwf as Hnotin. rewrite Hd in Hnotin. apply well_formed_split in Hnotin.
  split.
  - rewrite Hd. now apply get_at.
  - apply get_some_in in Hget. rewrite Hd in Hget.
    apply in_app_or in Hget. destruct Hget as [Hin | [Heq | Hin]].
    + specialize (Hb _ Hin). cbn in Hb. lia.
    + inversion Heq. lia.
    + specialize (Ha _ Hin). cbn in Ha. lia.
Qed.

(** After the final check the total is the budget, and some channel still
    holds at least as much as lies below zero. *)
Lemma fix_total_ready (total_budget : Z) (d : dict Z) :
  ready total_budget d ->
  let d' := fix_total total_budget d in
  well_formed d' /\ sum_values d' = total_budget /\
  exists k v, get k d' = Some v /\ sum_with deficit d' <= v.
Proof.
  intros [Hwf [R [k [v [HR [Hget [Hdef Hsum]]]]]]]. cbn zeta. unfold fix_total.
  destruct (total_budget - sum_values d =? 0) eqn:E; cbn [negb].
  - apply Z.eqb_eq in E. repeat split; [assumption | lia | ].
    exists k, v. split; [assumption | lia].
  - apply Z.eqb_neq in E.
    destruct (max_key_largest d k v Hwf Hget) as [k' [m [Hmax [Hget' Hle]]]].
    rewrite Hmax. split; [now apply well_formed_add_to | ].
    split; [rewrite (sum_values_add_to k' _ m d Hget'); lia | ].
    exists k', (m + (total_budget - sum_values d)).
    split; [now apply get_add_to_same | ].
    rewrite (sum_deficit_add_to k' _ m d Hget').
    assert (D1 : deficit m = 0) by (unfold deficit; lia).
    assert (D2 : deficit (m + (total_budget - sum_values d)) = 0)
      by (unfold deficit; lia).
    lia.
Qed.

Lemma clamp_negative_spec (d : dict Z) :
  all_nonneg (clamp_negative d) /\ keys (clamp_negative d) = keys d /\
  sum_values (clamp_negative d) = sum_values d + sum_with deficit d /\
  (forall k v, get k d = Some v -> 0 <= v -> get k (clamp_negative d) = Some v).
Proof.
  unfold clamp_negative, all_nonneg, keys. rewrite !sum_values_with.
  induction d as [ | [k0 v0] d [Hnn [Hk [Hs Hg]]]]; cbn.
  - repeat split; try constructor. intros k v H. discriminate.
  - repeat split.
    + constructor; [cbn; destruct (v0 <? 0) eqn:E; [lia | apply Z.ltb_ge in E; lia] | exact Hnn].
    + now rewrite Hk.
    + rewrite Hs. unfold deficit.
      destruct (v0 <? 0) eqn:E; [apply Z.ltb_lt in E | apply Z.ltb_ge in E]; lia.
    + intros k v. destruct (String.eqb k k0).
      * intros H Hv. inversion H; subst.
        destruct (v <? 0) eqn:E; [apply Z.ltb_lt in E; lia | reflexivity].
      * apply Hg.
Qed.

(** The clamp and the second check give an exact split without negatives. *)
Lemma clamp_fix_total (total_budget : Z) (d : dict Z) :
  well_formed d -> sum_values d = total_budget ->
  (exists k v, get k d = Some v /\ sum_with deficit d <= v) ->
  let d' := fix_total total_budget (clamp_negative d) in
  all_nonneg d' /\ sum_values d' = total_budget.
Proof.
  intros Hwf Hsum [k [v [Hget Hdef]]]. cbn zeta.
  destruct (clamp_negative_spec d) as [Hnn [Hkeys [Hcsum Hcget]]].
  pose proof (sum_deficit_nonneg d) as Hd0.
  assert (Hwf' : well_formed (clamp_negative d)) by (unfold well_formed; now rewrite Hkeys).
  assert (Hget' : get k (clamp_negative d) = Some v) by (apply Hcget; [assumption | lia]).
  unfold fix_total.
  destruct (total_budget - sum_values (clamp_negative d) =? 0) eqn:E; cbn [negb].
  - apply Z.eqb_eq in E. split; [assumption | lia].
  - destruct (max_key_largest _ k v Hwf' Hget') as [k' [m [Hmax [Hgetm Hle]]]].
    rewrite Hmax. split.
    + apply (all_nonneg_add_to k' _ m); [assumption | lia | assumption].
    + rewrite (sum_values_add_to k' _ m _ Hgetm). lia.
Qed.

(** ** The allocator *)

Lemma initial_split_ready (total_budget : Z) (channels : list string) :
  0 < total_budget -> channels <> [] ->
  let n := Z.of_nat (List.length channels) in
  let adjusted := initial_split (total_budget / n) (total_budget mod n) 0 channels [] in
  0 <= total_budget / n /\ well_formed adjusted /\ all_nonneg adjusted /\
  adjusted <> [] /\ sum_values adjusted <= total_budget.
Proof.
  intros Hpos Hne n adjusted.
  assert (Hn : 0 < n).
  { subst n. destruct channels; [congruence | cbn [List.length]; lia]. }
  assert (Hbase : 0 <= total_budget / n) by (apply Z.div_pos; lia).
  destruct (initial_split_bound (total_budget / n) (total_budget mod n) channels
              Hbase 0 []) as [Hnn [Hwf [Hsum Hkeys]]];
    [constructor | constructor | ].
  cbn zeta in *. fold n in Hsum. fold adjusted in Hnn, Hwf, Hsum, Hkeys.
  repeat split; try assumption.
  - intros Hempty. destruct channels as [ | c rest]; [congruence | ].
    specialize (Hkeys c (or_introl (or_introl eq_refl))). now rewrite Hempty in Hkeys.
  - pose proof (Z.div_mod total_budget n ltac:(lia)).
    pose proof (Z.mod_pos_bound total_budget n Hn).
    change (sum_values []) with 0 in Hsum. lia.
Qed.

(** Whatever [allocate_budget] returns is exact and has no value below
    zero. *)
Lemma allocate_budget_sound (total_budget : Z) (recommended_channels : list string)
    (previous_results : dict string) (budget_split : dict Z) :
  recommended_channels <> [] -> 0 <= total_budget ->
  allocate_budget total_budget recommended_channels previous_results = Ok budget_split ->
  all_nonneg budget_split /\ sum_values budget_split = total_budget.
Proof.
  intros Hne Hbudget. unfold allocate_budget.
  set (n := Z.of_nat (List.length recommended_channels)).
  destruct ((n =? 0) || (total_budget <=? 0)) eqn:Eguard.
  - intros H. inversion H; subst.
    assert (Hn : n <> 0).
    { subst n. destruct recommended_channels; [congruence | cbn [List.length]; lia]. }
    apply Z.eqb_neq in Hn. rewrite Hn in Eguard. cbn in Eguard.
    apply Z.leb_le in Eguard. split; [constructor | cbn; lia].
  - apply orb_false_iff in Eguard. destruct Eguard as [_ Epos].
    apply Z.leb_gt in Epos.
    destruct (initial_split_ready total_budget recommended_channels Epos Hne)
      as [Hbase [Hwf [Hnn [Hnonempty Hsum]]]].
    cbn zeta in *. fold n in Hbase, Hwf, Hnn, Hnonempty, Hsum |- *.
    set (adjusted := initial_split (total_budget / n) (total_budget mod n) 0
                       recommended_channels []) in *.
    unfold bind.
    match goal with
    | |- match ?boost with _ => _ end = _ -> _ =>
        destruct boost as [boosted | e] eqn:Eboost; [ | discriminate]
    end.
    assert (Hready : ready total_budget boosted).
    { destruct (find_high_roi recommended_channels previous_results) as [h | ].
      - destruct (PyStr.truthy h && mem h adjusted && (n >? 1)).
        + now apply (apply_boost_ready total_budget (total_budget / n)
                       recommended_channels h adjusted).
        + inversion Eboost; subst. now apply ready_plain.
      - inversion Eboost; subst. now apply ready_plain. }
    intros H. inversion H; subst; clear H.
    destruct (fix_total_ready total_budget boosted Hready) as [Hwf1 [Hsum1 Hlarge]].
    now apply clamp_fix_total.
Qed.

(** ** The allocator returns *)

Lemma entry_le_sum (d : dict Z) (k : string) (v : Z) :
  all_nonneg d -> get k d = Some v -> v <= sum_values d.
Proof.
  intros Hnn Hget. apply get_some_in in Hget.
  rewrite sum_values_with. unfold all_nonneg in Hnn.
  induction Hnn as [ | kv d Hkv Hd IH]; [contradiction | ]. cbn.
  pose proof (all_nonneg_sum d Hd) as Hs. rewrite sum_values_with in Hs.
  destruct Hget as [Heq | Hin]; [subst kv; cbn; lia | ].
  specialize (IH Hin). lia.
Qed.

Lemma collect_reductions_returns (adjusted : dict Z) (h : string)
    (boost_amount total_other_budget : Z) (channels : list string) :
  (forall k v, get k adjusted = Some v -> 0 <= v < 2 ^ 500) ->
  (forall c, In c channels -> In c (keys adjusted)) ->
  0 <= boost_amount < 2 ^ 500 -> 0 < total_other_budget ->
  forall st, exists st',
    collect_reductions adjusted h boost_amount total_other_budget channels st = Ok st'.
Proof.
  intros Hsmall Hkeys Hboost Htob.
  induction channels as [ | channel rest IH]; intros st; cbn [collect_reductions].
  - now exists st.
  - assert (Hrest : forall c, In c rest -> In c (keys adjusted))
      by (intros c Hc; apply Hkeys; now right).
    destruct (String.eqb channel h); [now apply IH | ].
    unfold item, bind.
    destruct (get channel adjusted) as [a | ] eqn:Ea.
    2:{ apply get_none_keys in Ea. exfalso. apply Ea, Hkeys. now left. }
    pose proof (Hsmall channel a Ea) as Ha.
    destruct (PyFloatRange.truediv_bounded a total_other_budget 500 ltac:(lia) Ha Htob)
      as [proportion [Hp Hpb]].
    rewrite Hp.
    destruct (PyFloatRange.int_of_mul_returns boost_amount 500 proportion 501
                (Z.max 0 (500 - 52)) ltac:(lia) Hboost Hpb ltac:(lia))
      as [r1 Hr1]; [rewrite PyFloatRange.fexp_eq; lia | ].
    rewrite Hr1.
    destruct (PyFloatRange.int_of_mul_returns a 500 PyFloat.lit_0_3 (-1) (-54)
                ltac:(lia) Ha PyFloatRange.lit_0_3_bounded ltac:(lia))
      as [r2 Hr2]; [rewrite PyFloatRange.fexp_eq; lia | ].
    rewrite Hr2. now apply IH.
Qed.

(** For a budget below [2 ^ 500] no float step overflows: the allocator
    returns a split. *)
Lemma allocate_budget_returns (total_budget : Z) (recommended_channels : list string)
    (previous_results : dict string) :
  0 <= total_budget < 2 ^ 500 ->
  exists budget_split,
    allocate_budget total_budget recommended_channels previous_results = Ok budget_split.
Proof.
  intros Hbudget. unfold allocate_budget.
  set (n := Z.of_nat (List.length recommended_channels)).
  destruct ((n =? 0) || (total_budget <=? 0)) eqn:Eguard; [now eexists | ].
  apply orb_false_iff in Eguard. destruct Eguard as [En Epos].
  apply Z.leb_gt in Epos. apply Z.eqb_neq in En.
  assert (Hne : recommended_channels <> []) by (intros ->; now apply En).
  destruct (initial_split_ready total_budget recommended_channels Epos Hne)
    as [Hbase [Hwf [Hnn [Hnonempty Hsum]]]].
  destruct (initial_split_bound (total_budget / n) (total_budget mod n)
              recommended_channels Hbase 0 []) as [_ [_ [_ Hkeys]]];
    [constructor | constructor | ].
  cbn zeta in *. fold n in Hbase, Hwf, Hnn, Hnonempty, Hsum, Hkeys |- *.
  set (adjusted := initial_split (total_budget / n) (total_budget mod n) 0
                     recommended_channels []) in *.
  assert (Hsmall : forall k v, get k adjusted = Some v -> 0 <= v < 2 ^ 500).
  { intros k v Hget. pose proof (all_nonneg_get k v adjusted Hnn Hget).
    pose proof (entry_le_sum adjusted k v Hnn Hget). lia. }
  assert (Hboost : exists boosted,
             match find_high_roi recommended_channels previous_results with
             | Some h =>
                 if PyStr.truthy h && mem h adjusted && (n >? 1)
                 then apply_boost total_budget (total_budget / n)
                        recommended_channels h adjusted
                 else Ok adjusted
             | None => Ok adjusted
             end = Ok boosted).
  { destruct (find_high_roi recommended_channels previous_results) as [h | ];
      [ | now eexists].
    destruct (PyStr.truthy h && mem h adjusted && (n >? 1)) eqn:Econd; [ | now eexists].
    apply andb_true_iff in Econd. destruct Econd as [Econd _].
    apply andb_true_iff in Econd. destruct Econd as [_ Emem].
    unfold mem in Emem. unfold apply_boost, item, bind.
    destruct (get h adjusted) as [vh | ] eqn:Eh; [ | discriminate].
    pose proof (Hsmall h vh Eh) as Hvh.
    destruct (PyFloatRange.int_of_mul_returns vh 500 PyFloat.lit_0_2 (-2) (-55)
                ltac:(lia) Hvh PyFloatRange.lit_0_2_bounded ltac:(lia))
      as [intended Hi]; [rewrite PyFloatRange.fexp_eq; lia | ].
    rewrite Hi.
    assert (Hint : 0 <= intended).
    { apply (PyFloatFacts.int_of_mul_nonneg vh PyFloat.lit_0_2); try assumption; try lia.
      apply PyFloatFacts.lit_0_2_signless. }
    destruct (total_budget - vh >? 0) eqn:Etob; [ | now eexists].
    apply Z.gtb_lt in Etob.
    assert (Hhalf : 0 <= total_budget / n / 2 <= total_budget).
    { split; [apply Z.div_pos; lia | ].
      apply Z.div_le_upper_bound; [lia | ].
      assert (total_budget / n <= total_budget)
        by (apply Z.div_le_upper_bound; nia).
      lia. }
    destruct (collect_reductions_returns adjusted h
                (Z.min (total_budget / n / 2) intended) (total_budget - vh)
                recommended_channels Hsmall) with (st := (0, @nil (string * Z)))
      as [st Hst]; try lia.
    { intros c Hc. apply Hkeys. now left. }
    rewrite Hst. destruct (fst st >? 0); now eexists. }
  destruct Hboost as [boosted Hboost]. rewrite Hboost. cbn [bind]. now eexists.
Qed.

(** C1. For a non-empty channel list and a budget that is at least zero,
    the split [allocate_budget] returns has no value below zero, and its
    values add up to the budget.  The call does return a split when the
    budget is below [2 ^ 500]; far beyond that the conversion of an
    allocation to [float] raises [OverflowError]. *)
Theorem allocate_budget_exact (total_budget : Z) (recommended_channels : list string)
    (previous_results : dict string) :
  recommended_channels <> [] -> 0 <= total_budget ->
  (total_budget < 2 ^ 500 ->
   exists budget_split,
     allocate_budget total_budget recommended_channels previous_results
     = Ok budget_split) /\
  (forall budget_split,
     allocate_budget total_budget recommended_channels previous_results
     = Ok budget_split ->
     all_nonneg budget_split /\ sum_values budget_split = total_budget).
Proof.
  intros Hne Hbudget. split.
  - intros Hsmall. apply allocate_budget_returns. lia.
  - intros budget_split. now apply allocate_budget_sound.
Qed.

(** The boost at work on a sample call: 1000 over three channels, the last
    of which did best before. *)
Lemma allocate_budget_exact_witness :
  all_nonneg [("Ads", 301); ("TV", 301); ("Radio", 398)] /\
  sum_values [("Ads", 301); ("TV", 301); ("Radio", 398)] = 1000.
Proof.
  refine (proj2 (allocate_budget_exact 1000 ["Ads"; "TV"; "Radio"]
                   [("previous_campaign_summary",
                     "Last: Radio had the highest Conversion Rate.")] _ _) _ _).
  - discriminate.
  - lia.
  - vm_compute. reflexivity.
Defined.

End AllocatorFacts.

(* ================================================================== *)
(** * Step 8: which channel is taken to have done well *)

Module HighRoiFacts.
Import PyDict PyDictFacts EqualSplitFacts BudgetAllocator.
Local Open Scope list_scope.

(** C6, the code at a summary without the phrase.  The summary has
    ["highest Conversion Rate"] in it but not
    ["had the highest Conversion Rate"]; the guard passes, the split on the
    longer phrase cuts nothing, and the last word of the whole summary,
    ["Ads"], is matched against the channels: ["Facebook Ads"] is boosted
    from the 3000 of the equal split to 3600. *)
Theorem high_roi_without_phrase :
  PyStr.contains "had the highest Conversion Rate" loose_summary = false /\
  find_high_roi ["Facebook Ads"; "Pamphlets"] loose_history = Some "Facebook Ads" /\
  allocate_budget 6000 ["Facebook Ads"; "Pamphlets"] loose_history
    = Ok [("Facebook Ads", 3600); ("Pamphlets", 2400)] /\
  allocate_budget 6000 ["Facebook Ads"; "Pamphlets"] []
    = Ok [("Facebook Ads", 3000); ("Pamphlets", 3000)].
Proof. repeat split; vm_compute; reflexivity. Qed.

(** With the phrase in the summary, the word before it is the candidate. *)
Lemma high_roi_with_phrase :
  find_high_roi ["Facebook Ads"; "Pamphlets"]
    [("previous_campaign_summary",
      "Last campaign: Pamphlets had the highest Conversion Rate, ahead of Ads.")]
  = Some "Pamphlets".
Proof. vm_compute. reflexivity. Qed.

(** With the phrase in the summary, the word right before its first
    occurrence is the candidate, and the first recommended channel that
    contains it is identified. *)
Lemma phrase_identifies (channels : list string) (before after w : string)
    (ws : list string) (c : string) :
  (forall a b, before = (a ++ b)%string -> b <> ""%string ->
     prefix " had the highest Conversion Rate"
       (b ++ " had the highest Conversion Rate" ++ after)%string = false) ->
  rev (PyStr.words before) = w :: ws ->
  find (fun rc => PyStr.contains w rc) channels = Some c ->
  find_high_roi channels
    [("previous_campaign_summary",
      (before ++ " had the highest Conversion Rate" ++ after)%string)]
  = Some c.
Proof.
  intros Hfirst Hw Hc. unfold find_high_roi. cbn [get String.eqb Ascii.eqb Bool.eqb].
  replace (PyStr.contains "highest Conversion Rate"
             (before ++ " had the highest Conversion Rate" ++ after)%string)
    with true.
  - rewrite PyStrFacts.split_first; [ | discriminate | assumption].
    now rewrite Hw.
  - symmetry. apply PyStrFacts.contains_spec.
    exists (before ++ " had the ")%string, after.
    rewrite PyStrFacts.append_assoc. reflexivity.
Qed.

(** A candidate that no recommended channel contains identifies nothing. *)
Lemma find_high_roi_no_match (channels : list string) (previous_results : dict string) :
  (forall summary part0 rest w ws c,
      get "previous_campaign_summary" previous_results = Some summary ->
      PyStr.split " had the highest Conversion Rate" summary = part0 :: rest ->
      rev (PyStr.words part0) = w :: ws ->
      In c channels -> PyStr.contains w c = false) ->
  find_high_roi channels previous_results = None.
Proof.
  intros Hno. unfold find_high_roi.
  destruct (get "previous_campaign_summary" previous_results) as [summary | ];
    [ | reflexivity].
  destruct (PyStr.contains "highest Conversion Rate" summary); [ | reflexivity].
  destruct (PyStr.split " had the highest Conversion Rate" summary)
    as [ | part0 rest] eqn:Es; [reflexivity | ].
  destruct (rev (PyStr.words part0)) as [ | w ws] eqn:Ew; [reflexivity | ].
  destruct (find (fun rc => PyStr.contains w rc) channels) as [c | ] eqn:Ef;
    [ | reflexivity].
  apply find_some in Ef. destruct Ef as [Hin Hc].
  rewrite (Hno summary part0 rest w ws c eq_refl Es Ew Hin) in Hc. discriminate.
Qed.

Lemma clamp_negative_id (d : dict Z) : all_nonneg d -> clamp_negative d = d.
Proof.
  unfold all_nonneg, clamp_negative.
  induction 1 as [ | [k v] d Hv Hd IH]; cbn; [reflexivity | ].
  cbn in Hv. apply Z.ltb_ge in Hv. now rewrite Hv, IH.
Qed.

Lemma fix_total_id (total_budget : Z) (d : dict Z) :
  sum_values d = total_budget -> fix_total total_budget d = d.
Proof.
  intros H. unfold fix_total. rewrite H, Z.sub_diag. reflexivity.
Qed.

(** When no channel is identified, distinct channels get the equal split:
    the base share each, one more for the first few. *)
Lemma no_high_roi_equal_split (total_budget : Z) (channels : list string)
    (previous_results : dict string) :
  NoDup channels -> channels <> [] -> 0 < total_budget ->
  find_high_roi channels previous_results = None ->
  let n := Z.of_nat (List.length channels) in
  allocate_budget total_budget channels previous_results
  = Ok (initial_split (total_budget / n) (total_budget mod n) 0 channels []).
Proof.
  intros Hnd Hne Hpos Hnone n. unfold allocate_budget. fold n.
  assert (Hn : 0 < n).
  { subst n. destruct channels; [congruence | cbn [List.length]; lia]. }
  replace (n =? 0) with false by (symmetry; apply Z.eqb_neq; lia).
  replace (total_budget <=? 0) with false by (symmetry; apply Z.leb_gt; lia).
  cbn [orb]. rewrite Hnone. cbn [bind].
  pose proof (initial_split_total total_budget channels Hnd Hne) as Hsum.
  cbn zeta in Hsum. fold n in Hsum.
  destruct (initial_split_bound (total_budget / n) (total_budget mod n) channels
              (Z.div_pos _ _ (Z.lt_le_incl _ _ Hpos) Hn) 0 [])
    as [Hnn _]; [constructor | constructor | ].
  cbn zeta in Hnn.
  rewrite (fix_total_id _ _ Hsum), (clamp_negative_id _ Hnn), (fix_total_id _ _ Hsum).
  reflexivity.
Qed.

End HighRoiFacts.

(* ================================================================== *)
(** * Step 8: who gets an entry, and how much *)

Module SplitShapeFacts.
Import PyDict PyDictFacts EqualSplitFacts BudgetAllocator.
Local Open Scope list_scope.

(** ** The keys of the split *)

Lemma keys_apply_reductions (reductions : dict Z) (d : dict Z) :
  keys (apply_reductions reductions d) = keys d.
Proof.
  revert d. induction reductions as [ | [k r] rest IH]; intros d; cbn [apply_reductions].
  - reflexivity.
  - now rewrite IH, keys_add_to.
Qed.

Lemma keys_fix_total (total_budget : Z) (d : dict Z) :
  keys (fix_total total_budget d) = keys d.
Proof.
  unfold fix_total. destruct (negb (total_budget - sum_values d =? 0)); [ | reflexivity].
  destruct (max_key d); [apply keys_add_to | reflexivity].
Qed.

Lemma keys_clamp_negative (d : dict Z) : keys (clamp_negative d) = keys d.
Proof. unfold clamp_negative, keys. rewrite map_map. reflexivity. Qed.

Lemma keys_apply_boost (total_budget base_allocation : Z) (channels : list string)
    (h : string) (adjusted boosted : dict Z) :
  apply_boost total_budget base_allocation channels h adjusted = Ok boosted ->
  keys boosted = keys adjusted.
Proof.
  unfold apply_boost, bind.
  destruct (item h adjusted) as [vh | ]; [ | discriminate].
  destruct (PyFloat.int_of_mul vh PyFloat.lit_0_2) as [intended | ]; [ | discriminate].
  destruct (total_budget - vh >? 0); [ | intros H; now inversion H].
  destruct (collect_reductions _ _ _ _ _ _) as [st | ]; [ | discriminate].
  destruct (fst st >? 0); intros H; inversion H; subst; [ | reflexivity].
  now rewrite keys_apply_reductions, keys_add_to.
Qed.

(** The steps after the equal split change values only. *)
Lemma allocate_budget_keys (total_budget : Z) (channels : list string)
    (previous_results : dict string) (split : dict Z) :
  channels <> [] -> 0 < total_budget ->
  allocate_budget total_budget channels previous_results = Ok split ->
  let n := Z.of_nat (List.length channels) in
  keys split = keys (initial_split (total_budget / n) (total_budget mod n) 0 channels []).
Proof.
  intros Hne Hpos. cbn zeta. unfold allocate_budget.
  set (n := Z.of_nat (List.length channels)).
  assert (Hn : 0 < n).
  { subst n. destruct channels; [congruence | cbn [List.length]; lia]. }
  replace (n =? 0) with false by (symmetry; apply Z.eqb_neq; lia).
  replace (total_budget <=? 0) with false by (symmetry; apply Z.leb_gt; lia).
  cbn [orb]. unfold bind.
  set (adjusted := initial_split (total_budget / n) (total_budget mod n) 0 channels []).
  match goal with
  | |- match ?boost with _ => _ end = _ -> _ =>
      destruct boost as [boosted | e] eqn:Eboost; [ | discriminate]
  end.
  intros H. inversion H; subst; clear H.
  rewrite keys_fix_total, keys_clamp_negative, keys_fix_total.
  destruct (find_high_roi channels previous_results) as [h | ].
  - destruct (PyStr.truthy h && mem h adjusted && (n >? 1)).
    + now apply keys_apply_boost in Eboost.
    + now inversion Eboost.
  - now inversion Eboost.
Qed.

Lemma keys_set_in (k k' : string) (v : Z) (d : dict Z) :
  In k' (keys (set k v d)) -> k' = k \/ In k' (keys d).
Proof.
  destruct (get k d) as [v0 | ] eqn:E.
  - rewrite (keys_set_present k v v0 d E). now right.
  - rewrite (keys_set_absent k v d E). intros H. apply in_app_or in H.
    destruct H as [H | [H | []]]; [now right | now left].
Qed.

Lemma initial_split_keys_in (base rem : Z) (channels : list string) :
  forall (i : Z) (acc : dict Z) (ch : string),
    In ch (keys (initial_split base rem i channels acc)) ->
    In ch channels \/ In ch (keys acc).
Proof.
  induction channels as [ | c rest IH]; intros i acc ch; cbn [initial_split].
  - now right.
  - intros H. apply IH in H. destruct H as [H | H].
    + left. now right.
    + apply keys_set_in in H. destruct H as [-> | H]; [left; now left | now right].
Qed.

(** X1. For a budget above zero and at least one channel, the split
    [allocate_budget] returns has one entry per recommended channel and no
    other entry: its keys are pairwise distinct, and a name is among them
    exactly when it is among the recommended channels. *)
Theorem allocate_budget_channels (total_budget : Z) (recommended_channels : list string)
    (previous_results : dict string) (budget_split : dict Z) :
  recommended_channels <> [] -> 0 < total_budget ->
  allocate_budget total_budget recommended_channels previous_results = Ok budget_split ->
  NoDup (keys budget_split) /\
  forall channel, In channel (keys budget_split) <-> In channel recommended_channels.
Proof.
  intros Hne Hpos Halloc.
  rewrite (allocate_budget_keys _ _ _ _ Hne Hpos Halloc).
  destruct (AllocatorFacts.initial_split_ready total_budget recommended_channels Hpos Hne)
    as [Hbase [Hwf _]]. cbn zeta in Hbase, Hwf.
  split; [exact Hwf | ].
  intros channel. split.
  - intros H. apply initial_split_keys_in in H. destruct H as [H | []]. exact H.
  - intros H.
    destruct (initial_split_bound _ (total_budget mod Z.of_nat (List.length recommended_channels))
                recommended_channels Hbase 0 []) as [_ [_ [_ Hkeys]]];
      [constructor | constructor | ].
    apply Hkeys. now left.
Qed.

(** Three channels, one of them boosted: the split names the three. *)
Lemma allocate_budget_channels_witness :
  NoDup (keys [("Ads", 301); ("TV", 301); ("Radio", 398)]) /\
  forall channel,
    In channel (keys [("Ads", 301); ("TV", 301); ("Radio", 398)]) <->
    In channel ["Ads"; "TV"; "Radio"].
Proof.
  apply (allocate_budget_channels 1000 ["Ads"; "TV"; "Radio"]
           [("previous_campaign_summary",
             "Last: Radio had the highest Conversion Rate.")]).
  - discriminate.
  - lia.
  - vm_compute. reflexivity.
Defined.

(** ** One channel *)

(** X2. A single recommended channel gets the whole budget, whatever the
    history says. *)
Theorem single_channel_whole_budget (total_budget : Z) (channel : string)
    (previous_results : dict string) :
  0 < total_budget ->
  allocate_budget total_budget [channel] previous_results = Ok [(channel, total_budget)].
Proof.
  intros Hpos. unfold allocate_budget. cbn [List.length Z.of_nat Pos.of_succ_nat].
  change (1 =? 0) with false.
  replace (total_budget <=? 0) with false by (symmetry; apply Z.leb_gt; lia).
  cbn [orb initial_split set].
  rewrite Z.div_1_r, Z.mod_1_r. cbn [Z.ltb Z.compare]. rewrite Z.add_0_r.
  change (1 >? 1) with false.
  assert (Hsum : sum_values [(channel, total_budget)] = total_budget)
    by (cbn; lia).
  assert (Hnn : all_nonneg [(channel, total_budget)])
    by (repeat constructor; cbn; lia).
  destruct (find_high_roi [channel] previous_results) as [h | ];
    rewrite ?andb_false_r; cbn [bind];
    rewrite (HighRoiFacts.fix_total_id _ _ Hsum), (HighRoiFacts.clamp_negative_id _ Hnn),
      (HighRoiFacts.fix_total_id _ _ Hsum);
    reflexivity.
Qed.

(** One channel and a history that praises another one. *)
Lemma single_channel_whole_budget_witness :
  allocate_budget 6000 ["Pamphlets"]
    [("previous_campaign_summary", "Radio had the highest Conversion Rate.")]
  = Ok [("Pamphlets", 6000)].
Proof. apply single_channel_whole_budget. lia. Defined.

(** ** The equal split, channel by channel *)

Lemma initial_split_untouched (base rem : Z) (channels : list string) (k : string) :
  ~ In k channels ->
  forall (i : Z) (acc : dict Z),
    get k (initial_split base rem i channels acc) = get k acc.
Proof.
  induction channels as [ | c rest IH]; intros Hnotin i acc; cbn [initial_split].
  - reflexivity.
  - rewrite IH by (intros H; apply Hnotin; now right).
    apply get_set_other. intros ->. apply Hnotin. now left.
Qed.

(** The share of the channel at position [p] of a list without repeats. *)
Lemma initial_split_at (base rem : Z) (channels : list string) :
  NoDup channels ->
  forall (i : Z) (acc : dict Z) (p : nat) (ch : string),
    nth_error channels p = Some ch ->
    get ch (initial_split base rem i channels acc)
    = Some (base + (if i + Z.of_nat p <? rem then 1 else 0)).
Proof.
  induction 1 as [ | c rest Hnotin Hnd IH]; intros i acc p ch Hp.
  - destruct p; discriminate.
  - cbn [initial_split]. destruct p as [ | p]; cbn [nth_error] in Hp.
    + inversion Hp; subst ch.
      rewrite (initial_split_untouched base rem rest c Hnotin), get_set_same.
      now rewrite Z.add_0_r.
    + rewrite (IH (i + 1) _ p ch Hp).
      replace (i + 1 + Z.of_nat p) with (i + Z.of_nat (S p)) by lia. reflexivity.
Qed.

(** X3. When the history identifies no channel, pairwise distinct channels
    share the budget equally: each gets the whole quotient of the budget by
    the number of channels, and the first few, as many as the remainder,
    get one more. *)
Theorem equal_split_by_position (total_budget : Z) (recommended_channels : list string)
    (previous_results : dict string) (p : nat) (channel : string) :
  NoDup recommended_channels -> 0 < total_budget ->
  find_high_roi recommended_channels previous_results = None ->
  nth_error recommended_channels p = Some channel ->
  let n := Z.of_nat (List.length recommended_channels) in
  exists budget_split,
    allocate_budget total_budget recommended_channels previous_results = Ok budget_split /\
    get channel budget_split
    = Some (total_budget / n + (if Z.of_nat p <? total_budget mod n then 1 else 0)).
Proof.
  intros Hnd Hpos Hnone Hp n.
  assert (Hne : recommended_channels <> []) by (intros ->; destruct p; discriminate).
  eexists. split.
  - now apply HighRoiFacts.no_high_roi_equal_split.
  - cbn zeta. fold n. now rewrite (initial_split_at _ _ _ Hnd 0 [] p channel Hp).
Qed.

(** 1000 over three channels and no history: 334, 333, 333. *)
Lemma equal_split_by_position_witness :
  exists budget_split,
    allocate_budget 1000 ["Ads"; "TV"; "Radio"] [] = Ok budget_split /\
    get "Ads" budget_split = Some 334.
Proof.
  apply (equal_split_by_position 1000 ["Ads"; "TV"; "Radio"] [] 0 "Ads").
  - repeat constructor; cbn; intuition discriminate.
  - lia.
  - reflexivity.
  - reflexivity.
Defined.

(** ** The boost goes one way *)

Lemma collect_reductions_exact (adjusted : dict Z) (h : string)
    (boost_amount total_other_budget : Z) (channels : list string) :
  NoDup channels ->
  forall st st',
    (forall c, In c channels -> get c (snd st) = None) ->
    sum_values (snd st) = fst st ->
    collect_reductions adjusted h boost_amount total_other_budget channels st = Ok st' ->
    sum_values (snd st') = fst st'.
Proof.
  induction 1 as [ | channel rest Hnotin Hnd IH]; intros st st' Hfresh Hsum;
    cbn [collect_reductions].
  - intros H. inversion H; subst. exact Hsum.
  - assert (Hrest : forall c, In c rest -> get c (snd st) = None)
      by (intros c Hc; apply Hfresh; now right).
    destruct (String.eqb channel h); [now apply IH | ].
    unfold bind.
    destruct (item channel adjusted) as [a | ]; [ | discriminate].
    destruct (PyFloat.truediv a total_other_budget) as [proportion | ]; [ | discriminate].
    destruct (PyFloat.int_of_mul boost_amount proportion) as [r1 | ]; [ | discriminate].
    destruct (PyFloat.int_of_mul a PyFloat.lit_0_3) as [r2 | ]; [ | discriminate].
    apply IH; cbn [fst snd].
    + intros c Hc. rewrite get_set_other; [now apply Hrest | ].
      intros ->. contradiction.
    + rewrite sum_values_set_absent by (apply Hfresh; now left). lia.
Qed.

Lemma apply_reductions_le (reductions : dict Z) :
  all_nonneg reductions ->
  forall (d : dict Z) (k : string) (v : Z),
    get k d = Some v ->
    exists v', get k (apply_reductions reductions d) = Some v' /\ v' <= v.
Proof.
  unfold all_nonneg.
  induction 1 as [ | [k0 r] rest Hr Hrest IH]; intros d k v Hget; cbn [apply_reductions].
  - exists v. split; [assumption | lia].
  - cbn in Hr. destruct (string_dec k k0) as [-> | Hne].
    + destruct (IH (add_to k0 (- r) d) k0 (v + - r)) as [v' [Hv' Hle]].
      { now apply get_add_to_same. }
      exists v'. split; [assumption | lia].
    + apply IH. now rewrite get_add_to_other.
Qed.

Lemma get_clamp_negative (d : dict Z) (k : string) :
  get k (clamp_negative d) = option_map (fun v => if v <? 0 then 0 else v) (get k d).
Proof.
  unfold clamp_negative. induction d as [ | [k0 v0] d IH]; cbn; [reflexivity | ].
  destruct (String.eqb k k0); [reflexivity | exact IH].
Qed.

(** The final check, when the total is not below the budget: no entry
    grows, and an entry that is not the largest stays. *)
Lemma fix_total_le (total_budget : Z) (d : dict Z) (k : string) (v : Z) :
  total_budget <= sum_values d -> get k d = Some v ->
  exists v', get k (fix_total total_budget d) = Some v' /\ v' <= v /\
             (v' = v \/ (max_key d = Some k /\ v' = v + (total_budget - sum_values d))).
Proof.
  intros Hsum Hget. unfold fix_total.
  destruct (total_budget - sum_values d =? 0) eqn:E; cbn [negb].
  - exists v. repeat split; [assumption | lia | now left].
  - destruct (max_key d) as [t | ] eqn:Et.
    + destruct (string_dec k t) as [-> | Hne].
      * exists (v + (total_budget - sum_values d)).
        split; [now apply get_add_to_same | ]. split; [lia | now right].
      * exists v. rewrite get_add_to_other by assumption.
        repeat split; [assumption | lia | now left].
    + exists v. repeat split; [assumption | lia | now left].
Qed.

(** Without a boost nothing moves. *)
Lemma unboosted_direction (h : string) (adjusted : dict Z) :
  all_nonneg adjusted ->
  exists taken,
    0 <= taken /\
    sum_values adjusted = sum_values adjusted /\
    sum_with deficit adjusted <= taken /\
    (forall vh, get h adjusted = Some vh -> get h adjusted = Some (vh + taken)) /\
    (forall k v, k <> h -> get k adjusted = Some v ->
       exists v', get k adjusted = Some v' /\ v' <= v).
Proof.
  intros Hnn. exists 0. rewrite (AllocatorFacts.sum_deficit_zero adjusted Hnn).
  repeat split; try lia.
  - intros vh Hh. now rewrite Z.add_0_r.
  - intros k v _ Hk. exists v. split; [assumption | lia].
Qed.

(** The boost on distinct channels: the boosted channel holds its share
    and what it took, the others hold no more than their share, the total
    is unchanged, and what lies below zero is within what was taken. *)
Lemma apply_boost_direction (total_budget base_allocation : Z) (channels : list string)
    (h : string) (adjusted boosted : dict Z) :
  NoDup channels -> 0 <= base_allocation ->
  well_formed adjusted -> all_nonneg adjusted ->
  apply_boost total_budget base_allocation channels h adjusted = Ok boosted ->
  exists taken,
    0 <= taken /\
    sum_values boosted = sum_values adjusted /\
    sum_with deficit boosted <= taken /\
    (forall vh, get h adjusted = Some vh -> get h boosted = Some (vh + taken)) /\
    (forall k v, k <> h -> get k adjusted = Some v ->
       exists v', get k boosted = Some v' /\ v' <= v).
Proof.
  intros Hnd Hbase Hwf Hnn. unfold apply_boost, item, bind.
  destruct (get h adjusted) as [vh | ] eqn:Eh; [ | discriminate].
  destruct (PyFloat.int_of_mul vh PyFloat.lit_0_2) as [intended | ] eqn:Ei;
    [ | discriminate].
  assert (Hvh : 0 <= vh) by now apply (all_nonneg_get h vh adjusted).
  assert (Hint : 0 <= intended).
  { apply (PyFloatFacts.int_of_mul_nonneg vh PyFloat.lit_0_2); try assumption.
    apply PyFloatFacts.lit_0_2_signless. }
  destruct (total_budget - vh >? 0) eqn:Etob.
  2:{ intros H. inversion H; subst. rewrite <- Eh. now apply unboosted_direction. }
  destruct (collect_reductions adjusted h (Z.min (base_allocation / 2) intended)
              (total_budget - vh) channels (0, [])) as [st | ] eqn:Ec; [ | discriminate].
  destruct (fst st >? 0) eqn:Eabt.
  2:{ intros H. inversion H; subst. rewrite <- Eh. now apply unboosted_direction. }
  intros H. inversion H; subst; clear H.
  assert (Hboost : 0 <= Z.min (base_allocation / 2) intended)
    by (apply Z.min_glb; [apply Z.div_pos; lia | assumption]).
  assert (Hother : 0 < total_budget - vh) by (apply Z.gtb_lt in Etob; lia).
  assert (Hst : reductions_ok adjusted h st).
  { apply (AllocatorFacts.collect_reductions_ok adjusted h _ _ channels Hnn Hboost Hother
             (0, []) st Ec).
    unfold reductions_ok. cbn. repeat split; try constructor; try lia; try tauto. }
  destruct Hst as [Hrnn [_ [Hrh Hrkeys]]].
  assert (Hexact : sum_values (snd st) = fst st).
  { apply (collect_reductions_exact adjusted h (Z.min (base_allocation / 2) intended)
             (total_budget - vh) channels Hnd (0, []) st);
      [intros c _; reflexivity | reflexivity | exact Ec]. }
  set (boosted0 := add_to h (fst st) adjusted).
  destruct (AllocatorFacts.apply_reductions_spec h (snd st) Hrnn Hrh boosted0)
    as [Hget [_ [Hs Hd]]].
  { intros k Hk. unfold boosted0. rewrite keys_add_to. now apply Hrkeys. }
  cbn zeta in *. apply Z.gtb_lt in Eabt.
  assert (Hnn0 : all_nonneg boosted0).
  { unfold boosted0. apply (AllocatorFacts.all_nonneg_add_to h (fst st) vh);
      [assumption | lia | assumption]. }
  exists (fst st). split; [lia | ]. split.
  - rewrite Hs. unfold boosted0.
    rewrite (sum_values_add_to h (fst st) vh adjusted Eh). lia.
  - split.
    + rewrite (AllocatorFacts.sum_deficit_zero boosted0 Hnn0) in Hd. lia.
    + split.
      * intros vh' Hvh'. inversion Hvh'; subst vh'.
        rewrite Hget. unfold boosted0. now apply get_add_to_same.
      * intros k v Hk Hkv.
        apply (apply_reductions_le (snd st) Hrnn boosted0 k v).
        unfold boosted0. now rewrite get_add_to_other.
Qed.

(** X4. A boost moves budget one way only.  On pairwise distinct
    channels, when the history identifies a channel, that channel ends
    with at least its equal share and every other channel with at most its
    equal share. *)
Theorem boost_direction (total_budget : Z) (recommended_channels : list string)
    (previous_results : dict string) (high_roi_channel : string) (budget_split : dict Z) :
  NoDup recommended_channels -> 0 < total_budget ->
  find_high_roi recommended_channels previous_results = Some high_roi_channel ->
  allocate_budget total_budget recommended_channels previous_results = Ok budget_split ->
  let n := Z.of_nat (List.length recommended_channels) in
  let equal :=
    initial_split (total_budget / n) (total_budget mod n) 0 recommended_channels [] in
  forall channel share,
    get channel equal = Some share ->
    exists allocated,
      get channel budget_split = Some allocated /\
      if String.eqb channel high_roi_channel then share <= allocated
      else allocated <= share.
Proof.
  intros Hnd Hpos Hfind Halloc n equal channel share Hshare.
  assert (Hne : recommended_channels <> []).
  { intros ->. unfold find_high_roi in Hfind.
    destruct (get _ previous_results); [ | discriminate].
    destruct (PyStr.contains _ _); [ | discriminate].
    destruct (PyStr.split _ _); [discriminate | ].
    destruct (rev _); discriminate. }
  assert (Hn : 0 < n).
  { subst n. destruct recommended_channels; [congruence | cbn [List.length]; lia]. }
  destruct (AllocatorFacts.initial_split_ready total_budget recommended_channels Hpos Hne)
    as [Hbase [Hwf [Hnn _]]].
  pose proof (initial_split_total total_budget recommended_channels Hnd Hne) as Htotal.
  cbn zeta in Hbase, Hwf, Hnn, Htotal. fold n in Hbase, Hwf, Hnn, Htotal.
  fold equal in Hwf, Hnn, Htotal.
  unfold allocate_budget in Halloc. fold n in Halloc.
  replace (n =? 0) with false in Halloc by (symmetry; apply Z.eqb_neq; lia).
  replace (total_budget <=? 0) with false in Halloc by (symmetry; apply Z.leb_gt; lia).
  cbn [orb] in Halloc. rewrite Hfind in Halloc. fold equal in Halloc.
  unfold bind in Halloc.
  (* what the boost leaves *)
  assert (Hboosted : exists boosted taken,
             (if PyStr.truthy high_roi_channel && mem high_roi_channel equal && (n >? 1)
              then apply_boost total_budget (total_budget / n) recommended_channels
                     high_roi_channel equal
              else Ok equal) = Ok boosted /\
             0 <= taken /\ sum_values boosted = total_budget /\
             sum_with deficit boosted <= taken /\
             (forall vh, get high_roi_channel equal = Some vh ->
                get high_roi_channel boosted = Some (vh + taken)) /\
             (forall k v, k <> high_roi_channel -> get k equal = Some v ->
                exists v', get k boosted = Some v' /\ v' <= v)).
  { destruct (PyStr.truthy high_roi_channel && mem high_roi_channel equal && (n >? 1)).
    - destruct (apply_boost total_budget (total_budget / n) recommended_channels
                  high_roi_channel equal) as [boosted | e] eqn:Eboost; [ | discriminate].
      destruct (apply_boost_direction _ _ _ _ _ _ Hnd Hbase Hwf Hnn Eboost)
        as [taken [Ht [Hs [Hd [Hh Hk]]]]].
      exists boosted, taken. repeat split; try assumption. lia.
    - destruct (unboosted_direction high_roi_channel equal Hnn)
        as [taken [Ht [_ [Hd [Hh Hk]]]]].
      exists equal, taken. repeat split; try assumption. }
  destruct Hboosted as [boosted [taken [Eboost [Htaken [Hsum [Hdef [Hh Hk]]]]]]].
  rewrite Eboost in Halloc. inversion Halloc; subst budget_split; clear Halloc.
  rewrite (HighRoiFacts.fix_total_id _ _ Hsum).
  destruct (AllocatorFacts.clamp_negative_spec boosted) as [_ [_ [Hcsum _]]].
  pose proof (AllocatorFacts.sum_deficit_nonneg boosted) as Hd0.
  (* the entry of the channel after the clamp *)
  destruct (String.eqb channel high_roi_channel) eqn:Ech.
  - apply String.eqb_eq in Ech. subst channel.
    assert (Hshare0 : 0 <= share) by now apply (all_nonneg_get high_roi_channel share equal).
    assert (Hc : get high_roi_channel (clamp_negative boosted) = Some (share + taken)).
    { rewrite get_clamp_negative, (Hh share Hshare). cbn [option_map].
      replace (share + taken <? 0) with false by (symmetry; apply Z.ltb_ge; lia).
      reflexivity. }
    destruct (fix_total_le total_budget (clamp_negative boosted) high_roi_channel
                (share + taken) ltac:(lia) Hc) as [v' [Hv' [_ Hcases]]].
    exists v'. split; [assumption | ]. destruct Hcases as [-> | [_ ->]]; lia.
  - apply String.eqb_neq in Ech.
    destruct (Hk channel share Ech Hshare) as [v0 [Hv0 Hle0]].
    assert (Hshare0 : 0 <= share) by now apply (all_nonneg_get channel share equal).
    assert (Hc : get channel (clamp_negative boosted)
                 = Some (if v0 <? 0 then 0 else v0)).
    { now rewrite get_clamp_negative, Hv0. }
    destruct (fix_total_le total_budget (clamp_negative boosted) channel _
                ltac:(lia) Hc) as [v' [Hv' [Hle' _]]].
    exists v'. split; [assumption | ].
    destruct (v0 <? 0) eqn:E0; [apply Z.ltb_lt in E0 | apply Z.ltb_ge in E0]; lia.
Qed.

(** 1000 over three channels, the last of which did best: its 333 become
    398. *)
Lemma boost_direction_witness :
  exists allocated,
    get "Radio" [("Ads", 301); ("TV", 301); ("Radio", 398)] = Some allocated /\
    if String.eqb "Radio" "Radio" then 333 <= allocated else allocated <= 333.
Proof.
  apply (boost_direction 1000 ["Ads"; "TV"; "Radio"]
           [("previous_campaign_summary",
             "Last: Radio had the highest Conversion Rate.")] "Radio").
  - repeat constructor; cbn; intuition discriminate.
  - lia.
  - vm_compute. reflexivity.
  - vm_compute. reflexivity.
  - vm_compute. reflexivity.
Defined.

End SplitShapeFacts.

(* ================================================================== *)
(** * Step 8: the channel the history points at *)

Module IdentifiedFacts.
Import PyDict BudgetAllocator.
Local Open Scope list_scope.



End IdentifiedFacts.

(* ================================================================== *)
(** * Step 7: what the correction of the split keeps *)

Module CorrectionFacts.
Import PyDict PyDictFacts EqualSplitFacts StrategyRecommender.
Local Open Scope list_scope.

(** A split that adds up to the budget is left as it is. *)
Lemma adjust_budget_split_exact (total_budget : Z) (res : CampaignStrategy)
    (split : dict Z) :
  budget_split res = Some split -> sum_values split = total_budget ->
  adjust_budget_split total_budget res = Ok res.
Proof.
  intros Hres Hsum. unfold adjust_budget_split. rewrite Hres.
  destruct split as [ | kv split]; [reflexivity | ].
  now rewrite Hsum, Z.sub_diag.
Qed.

(** The largest channel is one of the split. *)
Lemma max_key_get (split : dict Z) (k : string) :
  max_key split = Some k -> exists v, get k split = Some v.
Proof.
  intros Hmax.
  assert (Hne : split <> []) by (intros ->; discriminate).
  destruct (max_key_spec split Hne) as [k' [v [before [after [Hmax' [Hsplit _]]]]]].
  rewrite Hmax in Hmax'. inversion Hmax'; subst k'.
  destruct (get k split) as [v0 | ] eqn:E; [now exists v0 | ].
  apply get_none_keys in E. exfalso. apply E. rewrite Hsplit.
  unfold keys. rewrite map_app. apply in_or_app. right. now left.
Qed.

(** The cases of the correction on a split that is not empty and off the
    budget. *)
Lemma adjust_budget_split_cases (total_budget : Z) (res res' : CampaignStrategy)
    (split : dict Z) :
  budget_split res = Some split -> split <> [] ->
  total_budget - sum_values split <> 0 ->
  adjust_budget_split total_budget res = Ok res' ->
  (exists k v,
     get k split = Some v /\ 0 <= v + (total_budget - sum_values split) /\
     res' = with_budget_split res (add_to k (total_budget - sum_values split) split)) \/
  (exists channels,
     recommended_channels res = Some channels /\ channels <> [] /\
     let n := Z.of_nat (List.length channels) in
     res' = with_budget_split res
              (BudgetAllocator.initial_split (total_budget / n) (total_budget mod n) 0
                 channels [])).
Proof.
  intros Hres Hne Hdiff.
  rewrite (StrategyFacts.adjust_budget_split_nonempty total_budget res split Hres Hne).
  apply Z.eqb_neq in Hdiff. rewrite Hdiff. cbn [negb].
  destruct (max_key split) as [k | ] eqn:Emax.
  2:{ destruct split as [ | [k0 v0] rest]; [congruence | discriminate Emax]. }
  destruct (max_key_get split k Emax) as [v Hv]. cbn zeta.
  unfold item. rewrite (get_add_to_same k _ v split Hv). cbn [bind].
  destruct (v + (total_budget - sum_values split) <? 0) eqn:Eneg.
  - destruct (recommended_channels res) as [channels | ]; [ | discriminate]. cbn [bind].
    destruct (Z.of_nat (List.length channels) =? 0) eqn:En; [discriminate | ].
    intros H. inversion H; subst res'; clear H. right. exists channels.
    split; [reflexivity | ]. split.
    + intros ->. discriminate.
    + cbn zeta. now rewrite resplit_initial_split.
  - intros H. inversion H; subst res'; clear H. left. exists k, v.
    apply Z.ltb_ge in Eneg. now repeat split.
Qed.

(** X5. The correction brings in no negative allocation: when the budget
    and every allocation of the generated split are at least zero, so is
    every allocation of the split the step hands back. *)
Theorem correction_keeps_nonneg (total_budget : Z) (res res' : CampaignStrategy)
    (split : dict Z) :
  0 <= total_budget -> budget_split res = Some split -> all_nonneg split ->
  generate_strategy total_budget (Some (Returned res)) = Generated res' ->
  exists split', budget_split res' = Some split' /\ all_nonneg split'.
Proof.
  intros Hbudget Hres Hnn. unfold generate_strategy.
  destruct (adjust_budget_split total_budget res) as [res0 | e] eqn:Eadj; [ | discriminate].
  intros H. inversion H; subst res0; clear H.
  destruct split as [ | kv split0] eqn:Esplit.
  { unfold adjust_budget_split in Eadj. rewrite Hres in Eadj. inversion Eadj; subst.
    exists []. split; [assumption | constructor]. }
  rewrite <- Esplit in Hres, Hnn.
  assert (Hne : split <> []) by (rewrite Esplit; discriminate).
  clear Esplit.
  destruct (Z.eq_dec (total_budget - sum_values split) 0) as [Hzero | Hdiff].
  { rewrite (adjust_budget_split_exact total_budget res split Hres) in Eadj by lia.
    inversion Eadj; subst. now exists split. }
  destruct (adjust_budget_split_cases _ _ _ _ Hres Hne Hdiff Eadj)
    as [[k [v [Hv [Hpos ->]]]] | [channels [Hch [Hchne Hres']]]].
  - eexists. split; [reflexivity | ].
    now apply (AllocatorFacts.all_nonneg_add_to k _ v).
  - cbn zeta in Hres'. subst res'. eexists. split; [reflexivity | ].
    assert (Hn : 0 < Z.of_nat (List.length channels)).
    { destruct channels; [congruence | cbn [List.length]; lia]. }
    destruct (initial_split_bound (total_budget / Z.of_nat (List.length channels))
                (total_budget mod Z.of_nat (List.length channels)) channels
                (Z.div_pos _ _ Hbudget Hn) 0 []) as [Hnn' _];
      [constructor | constructor | exact Hnn'].
Qed.

(** The example of the specification: 1500 and 1000. *)
Lemma correction_keeps_nonneg_witness :
  exists split',
    budget_split (with_budget_split tied_strategy [("A", 1500); ("B", 1000)]) = Some split' /\
    all_nonneg split'.
Proof.
  apply (correction_keeps_nonneg 2500 tied_strategy _ [("A", 1000); ("B", 1000)]).
  - lia.
  - reflexivity.
  - repeat constructor; cbn; lia.
  - reflexivity.
Defined.

(** X6. Correcting twice is correcting once: when the recommended
    channels are pairwise distinct, the strategy the correction returns is
    left unchanged by a second pass. *)
Theorem correction_idempotent (total_budget : Z) (res res' : CampaignStrategy) :
  (forall channels, recommended_channels res = Some channels -> NoDup channels) ->
  adjust_budget_split total_budget res = Ok res' ->
  adjust_budget_split total_budget res' = Ok res'.
Proof.
  intros Hnd Hadj.
  destruct (budget_split res) as [split | ] eqn:Hres.
  2:{ unfold adjust_budget_split in Hadj. rewrite Hres in Hadj.
      inversion Hadj; subst res'. unfold adjust_budget_split. now rewrite Hres. }
  destruct split as [ | kv split0] eqn:Esplit.
  { unfold adjust_budget_split in Hadj. rewrite Hres in Hadj.
    inversion Hadj; subst res'. unfold adjust_budget_split. now rewrite Hres. }
  rewrite <- Esplit in Hres.
  assert (Hne : split <> []) by (rewrite Esplit; discriminate).
  clear Esplit.
  destruct (Z.eq_dec (total_budget - sum_values split) 0) as [Hzero | Hdiff].
  { pose proof (adjust_budget_split_exact total_budget res split Hres ltac:(lia)) as Hsame.
    rewrite Hsame in Hadj. inversion Hadj; subst res'. exact Hsame. }
  destruct (adjust_budget_split_cases _ _ _ _ Hres Hne Hdiff Hadj)
    as [[k [v [Hv [Hpos ->]]]] | [channels [Hch [Hchne Hres']]]].
  - apply (adjust_budget_split_exact total_budget _
             (add_to k (total_budget - sum_values split) split)); [reflexivity | ].
    rewrite (sum_values_add_to k _ v split Hv). lia.
  - cbn zeta in Hres'. subst res'.
    eapply adjust_budget_split_exact; [reflexivity | ].
    apply initial_split_total; [now apply Hnd | assumption].
Qed.

(** The example of the specification, corrected once more. *)
Lemma correction_idempotent_witness :
  adjust_budget_split 2500 (with_budget_split tied_strategy [("A", 1500); ("B", 1000)])
  = Ok (with_budget_split tied_strategy [("A", 1500); ("B", 1000)]).
Proof.
  apply (correction_idempotent 2500 tied_strategy).
  - intros channels H. inversion H; subst.
    repeat constructor; cbn; intuition discriminate.
  - reflexivity.
Defined.

(** X30. The correction makes the strategy step fail in one corner only.
    For a strategy the chain has returned, the step hands back an error
    object exactly when the generated split is off the budget, its largest
    allocation would fall below zero once the difference is added, and the
    strategy names no channel to split over again: the list of recommended
    channels is missing or empty. *)
Theorem correction_fails_iff (total_budget : Z) (res : CampaignStrategy) :
  Pipeline.is_error_object (generate_strategy total_budget (Some (Returned res))) = true <->
  exists split largest v,
    budget_split res = Some split /\ max_key split = Some largest /\
    get largest split = Some v /\
    total_budget - sum_values split <> 0 /\
    v + (total_budget - sum_values split) < 0 /\
    (recommended_channels res = None \/ recommended_channels res = Some []).
Proof.
  unfold generate_strategy. split.
  - destruct (adjust_budget_split total_budget res) as [res' | e] eqn:Eadj;
      [discriminate | intros _].
    assert (Hsplit : exists split, budget_split res = Some split /\ split <> []).
    { unfold adjust_budget_split in Eadj.
      destruct (budget_split res) as [[ | kv split0] | ]; try discriminate.
      eexists. split; [reflexivity | discriminate]. }
    destruct Hsplit as [split [Hres Hne]].
    rewrite (StrategyFacts.adjust_budget_split_nonempty total_budget res split Hres Hne)
      in Eadj.
    destruct (total_budget - sum_values split =? 0) eqn:Ediff; [discriminate | ].
    cbn [negb] in Eadj. apply Z.eqb_neq in Ediff.
    destruct (max_key split) as [k | ] eqn:Emax; [ | discriminate].
    destruct (max_key_get split k Emax) as [v Hv]. cbn zeta in Eadj.
    unfold item in Eadj. rewrite (get_add_to_same k _ v split Hv) in Eadj.
    cbn [bind] in Eadj.
    destruct (v + (total_budget - sum_values split) <? 0) eqn:Eneg; [ | discriminate].
    apply Z.ltb_lt in Eneg.
    exists split, k, v. repeat split; try assumption.
    destruct (recommended_channels res) as [[ | c channels] | ]; [now right | | now left].
    cbn [bind] in Eadj.
    replace (Z.of_nat (List.length (c :: channels)) =? 0) with false in Eadj
      by (symmetry; apply Z.eqb_neq; cbn [List.length]; lia).
    discriminate.
  - intros [split [k [v [Hres [Emax [Hv [Hdiff [Hneg Hch]]]]]]]].
    assert (Hne : split <> []) by (intros ->; discriminate).
    rewrite (StrategyFacts.adjust_budget_split_nonempty total_budget res split Hres Hne).
    apply Z.eqb_neq in Hdiff. rewrite Hdiff, Emax. cbn [negb]. cbn zeta.
    unfold item. rewrite (get_add_to_same k _ v split Hv). cbn [bind].
    apply Z.ltb_lt in Hneg. rewrite Hneg.
    destruct Hch as [-> | ->]; reflexivity.
Qed.

End CorrectionFacts.

(* ================================================================== *)
(** * Step 9: the shape of a copy field name *)

Module FieldNameFacts.
Import PyStr PyStrFacts.

Lemma lower_ascii_idempotent (c : ascii) : lower_ascii (lower_ascii c) = lower_ascii c.
Proof. destruct c as [[] [] [] [] [] [] [] []]; vm_compute; reflexivity. Qed.

Lemma lower_idempotent (s : string) : lower (lower s) = lower s.
Proof.
  induction s as [ | c s IH]; cbn; [reflexivity | ].
  now rewrite lower_ascii_idempotent, IH.
Qed.

Lemma lower_app (s t : string) : lower (s ++ t) = lower s ++ lower t.
Proof. induction s as [ | c s IH]; cbn; [reflexivity | now rewrite IH]. Qed.

(** Replacing a character by a text in lower case keeps a text in lower
    case. *)
Lemma lower_subst_char (a : ascii) (new s : string) :
  lower new = new -> lower s = s -> lower (subst_char a new s) = subst_char a new s.
Proof.
  intros Hnew. induction s as [ | c s IH]; cbn [subst_char lower]; [reflexivity | ].
  intros H. inversion H as [[Hc Hs]]. rewrite Hc, Hs.
  rewrite lower_app, (IH Hs).
  destruct (Ascii.eqb a c); [now rewrite Hnew | ].
  cbn [lower]. now rewrite Hc.
Qed.

(** A character that is replaced by a text without it is gone. *)
Lemma has_char_subst_same (a : ascii) (new s : string) :
  has_char a new = false -> has_char a (subst_char a new s) = false.
Proof.
  intros Hnew. induction s as [ | c s IH]; cbn [subst_char has_char]; [reflexivity | ].
  rewrite has_char_app, IH, orb_false_r.
  destruct (Ascii.eqb a c) eqn:E; [assumption | ]. cbn. now rewrite E.
Qed.

(** X7. The name of a copy field is in a fixed form, whatever the channel
    is called: it ends with ["_copy"], and what stands before has no
    space, no hyphen, no ampersand, no period and no upper-case letter. *)
Theorem key_name_normal_form (channel : string) :
  exists base,
    CreativeWriter.key_name channel = base ++ "_copy" /\
    has_char " " base = false /\ has_char "-" base = false /\
    has_char "&" base = false /\ has_char "." base = false /\
    lower base = base.
Proof.
  unfold CreativeWriter.key_name. rewrite !replace_char.
  set (s1 := subst_char " " "_" (lower channel)).
  set (s2 := subst_char "-" "_" s1).
  set (s3 := subst_char "&" "and" s2).
  exists (subst_char "." "" s3). split; [reflexivity | ].
  assert (H1 : has_char " " s1 = false) by now apply has_char_subst_same.
  assert (H2 : has_char "-" s2 = false) by now apply has_char_subst_same.
  assert (H3 : has_char "&" s3 = false) by now apply has_char_subst_same.
  repeat split.
  - do 3 (apply has_char_subst; [reflexivity | ]). exact H1.
  - do 2 (apply has_char_subst; [reflexivity | ]). exact H2.
  - apply has_char_subst; [reflexivity | exact H3].
  - now apply has_char_subst_same.
  - do 4 (apply lower_subst_char; [reflexivity | ]). apply lower_idempotent.
Qed.

(** X8. Away from ampersands and periods the text written for a channel
    reaches the plan: when the creative step answers under the field name
    of a channel, the aggregation finds the text under the key it derives
    itself, and the plan shows it. *)
Theorem copy_reaches_plan (channel text : string) (budget_split : PyDict.dict Z)
    (content : PyDict.dict string) (visual_prompts : list string) :
  contains "&" channel = false -> contains "." channel = false ->
  PyDict.get (CreativeWriter.key_name channel) content = Some text ->
  Pipeline.suggested_copy
    (Pipeline.channel_rec budget_split (Generated content) visual_prompts channel)
  = text.
Proof.
  intros Hamp Hdot Hget.
  cbn [Pipeline.suggested_copy Pipeline.channel_rec Pipeline.channel_copy].
  unfold PyDict.get_default.
  now rewrite <- (CopyKeyFacts.copy_keys_agree channel Hamp Hdot), Hget.
Qed.

(** A channel name with a space and a hyphen. *)
Lemma copy_reaches_plan_witness :
  Pipeline.suggested_copy
    (Pipeline.channel_rec [("Walk-in Flyers", 6000)]
       (Generated [("walk_in_flyers_copy", "Visit [Shop Name]!")]) [] "Walk-in Flyers")
  = "Visit [Shop Name]!".
Proof.
  apply (copy_reaches_plan "Walk-in Flyers"); reflexivity.
Defined.

End FieldNameFacts.

(* ================================================================== *)
(** * Step 1: the map handed to the later steps *)

Module CleanedInputFacts.
Import PyDict InputParser.
Local Open Scope list_scope.

(** The text fields of a validated record are those of the raw map. *)
Lemma validate_text_fields (raw : dict pyval) (v : ApiInput) :
  validate raw = Ok v ->
  get "business_type" raw = Some (PyStr (business_type v)) /\
  get "location" raw = Some (PyStr (location v)) /\
  get "goal_description" raw = Some (PyStr (goal_description v)) /\
  get "channel_preference" raw = Some (PyStr (channel_preference v)) /\
  get "user_id" raw = Some (PyStr (user_id v)).
Proof.
  unfold validate, bind.
  destruct (req_str "business_type" raw) as [bt | ] eqn:Hbt; [ | discriminate].
  destruct (req_str "location" raw) as [loc | ] eqn:Hloc; [ | discriminate].
  destruct (req_str "goal_description" raw) as [goal | ] eqn:Hgoal; [ | discriminate].
  destruct (opt_int "budget_min" raw); [ | discriminate].
  destruct (opt_int "budget_max" raw); [ | discriminate].
  destruct (opt_int "budget_fixed" raw); [ | discriminate].
  destruct (req_str "channel_preference" raw) as [cp0 | ] eqn:Hcp; [ | discriminate].
  unfold check_channel_preference.
  destruct (existsb (String.eqb cp0) allowed); [ | discriminate].
  destruct (req_str "user_id" raw) as [uid | ] eqn:Huid; [ | discriminate].
  intros H. inversion H; subst; clear H. cbn.
  repeat split; now apply InputParserFacts.req_str_api.
Qed.

(** X9. The map [parse_input] returns has six keys, in this order: the
    five text fields, each with the value of the raw map, and the budget,
    an integer.  Whatever else the raw map holds is left behind. *)
Theorem parse_input_shape (raw_input cleaned_data : dict pyval) :
  parse_input raw_input = Ok cleaned_data ->
  keys cleaned_data =
    ["business_type"; "location"; "goal_description"; "channel_preference";
     "user_id"; "budget"] /\
  (forall k,
     In k ["business_type"; "location"; "goal_description"; "channel_preference";
           "user_id"] ->
     get k cleaned_data = get k raw_input) /\
  exists b, get "budget" cleaned_data = Some (PyInt b).
Proof.
  intros Hparse.
  destruct (InputParserFacts.parse_input_ok_inv raw_input cleaned_data Hparse)
    as [v [Hval Hd]].
  destruct (validate_text_fields raw_input v Hval) as [Hbt [Hloc [Hgoal [Hcp Huid]]]].
  subst cleaned_data.
  destruct v as [bt loc goal bmin bmax bfix cp uid]. cbn in Hbt, Hloc, Hgoal, Hcp, Huid.
  split; [destruct bfix, bmin, bmax; reflexivity | ]. split.
  - intros k Hk. cbn in Hk.
    destruct Hk as [<- | [<- | [<- | [<- | [<- | []]]]]];
      destruct bfix, bmin, bmax; cbn; congruence.
  - destruct bfix, bmin, bmax; cbn; eexists; reflexivity.
Qed.

(** A raw map with a key the model does not declare. *)
Lemma parse_input_shape_witness :
  keys [("business_type", PyStr "cafe"); ("location", PyStr "Pune");
        ("goal_description", PyStr "Diwali discount sale");
        ("channel_preference", PyStr "Both");
        ("user_id", PyStr "user123_with_history"); ("budget", PyInt 2000)] =
    ["business_type"; "location"; "goal_description"; "channel_preference";
     "user_id"; "budget"] /\
  (forall k,
     In k ["business_type"; "location"; "goal_description"; "channel_preference";
           "user_id"] ->
     get k [("business_type", PyStr "cafe"); ("location", PyStr "Pune");
            ("goal_description", PyStr "Diwali discount sale");
            ("channel_preference", PyStr "Both");
            ("user_id", PyStr "user123_with_history"); ("budget", PyInt 2000)]
     = get k (("campaign", PyStr "spring") ::
              api_dict (request "Both" (Some 1000) (Some 3000) None))) /\
  exists b,
    get "budget"
      [("business_type", PyStr "cafe"); ("location", PyStr "Pune");
       ("goal_description", PyStr "Diwali discount sale");
       ("channel_preference", PyStr "Both");
       ("user_id", PyStr "user123_with_history"); ("budget", PyInt 2000)]
    = Some (PyInt b).
Proof.
  apply (parse_input_shape
           (("campaign", PyStr "spring") ::
            api_dict (request "Both" (Some 1000) (Some 3000) None))).
  reflexivity.
Defined.

(** X10. A raw map in which one of the five text fields is missing, or is
    [None], is rejected: [parse_input] raises a [ValueError] whose text
    starts with ["Input Parsing Failed: "]. *)
Theorem parse_input_requires_text (raw_input : dict pyval) (k : string) :
  In k ["business_type"; "location"; "goal_description"; "channel_preference";
        "user_id"] ->
  get k raw_input = None \/ get k raw_input = Some PyNone ->
  exists reason,
    parse_input raw_input = Raise (ValueError ("Input Parsing Failed: " ++ reason)).
Proof.
  intros Hk Hmissing. unfold parse_input.
  destruct (validate raw_input) as [v | e] eqn:Hval.
  - exfalso.
    destruct (validate_text_fields raw_input v Hval) as [Hbt [Hloc [Hgoal [Hcp Huid]]]].
    cbn in Hk.
    destruct Hk as [<- | [<- | [<- | [<- | [<- | []]]]]];
      destruct Hmissing as [Hm | Hm]; congruence.
  - now exists (exn_text e).
Qed.

(** A request without a location. *)
Lemma parse_input_requires_text_witness :
  exists reason,
    parse_input [("business_type", PyStr "cafe"); ("goal_description", PyStr "Sale");
                 ("channel_preference", PyStr "Both"); ("user_id", PyStr "u1")]
    = Raise (ValueError ("Input Parsing Failed: " ++ reason)).
Proof.
  apply (parse_input_requires_text _ "location").
  - right. now left.
  - now left.
Defined.

End CleanedInputFacts.

(* ================================================================== *)
(** * The driver: the answer to a request *)

Module DriverFacts.
Import PyDict InputParser Pipeline PipelineFacts.
Local Open Scope list_scope.

(** ** What a plan is made of *)

(** The plan of a request, field by field, from what the steps handed
    back. *)
Lemma run_pipeline_plan (c : Collaborators) (i : ApiInput)
    (log : list event) (plan : CampaignPlan) :
  run_pipeline c i = (log, Ok plan) ->
  exists cleaned persona strategy split creative visual,
    let ents := extract_entities c (goal_description i) in
    let previous := get_previous_results (user_id i) in
    let trend :=
      analyze_trends_via_search c
        (entities_get "products_services" ents ++ entities_get "misc_keywords" ents)
        (location i) in
    let context :=
      search_local_context c (location i) (business_type i)
        (match entities_get "events" ents with e :: _ => Some e | [] => None end) in
    parse_input (api_dict i) = Ok cleaned /\
    strategy =
      StrategyRecommender.generate_strategy (budget_get 5000 cleaned)
        (option_map (fun run => run cleaned persona context previous)
           (strategy_chain c)) /\
    has_error strategy = false /\
    BudgetAllocator.allocate_budget (budget_get 0 cleaned)
      (strategy_channels strategy) previous = Ok split /\
    creative =
      CreativeWriter.generate_creative (creative_llm c)
        (creative_chain c (strategy_angle "Default Angle" strategy) persona)
        (strategy_channels strategy) /\
    has_error creative = false /\
    plan =
      {| campaign_overview :=
           {| suggested_theme_name := strategy_angle "Generated Campaign" strategy;
              strategic_angle := strategy_angle "N/A" strategy;
              primary_target_audience := persona;
              timing_rec := timing_recommendation trend;
              competitor_note := competitor_types_summary context |};
         channel_recommendations :=
           map (channel_rec split creative (visual_prompts_get visual))
               (strategy_channels strategy);
         feedback_loop_note :=
           get_default "previous_campaign_summary" "No past data used." previous |}.
Proof.
  unfold run_pipeline.
  destruct (pipeline_body c i []) as [log0 [plan0 | e]] eqn:Hbody.
  2:{ destruct e; discriminate. }
  intros H. inversion H; subst; clear H.
  unfold pipeline_body, call_plain in Hbody.
  invert_step Hbody. rename x into cleaned, Hstep into Hparse.
  destruct (parse_input_api_dict i cleaned Hparse) as [b Hcleaned].
  repeat invert_step Hbody.
  repeat match goal with H : Ok _ = Ok _ |- _ => inversion H; subst; clear H end.
  cbn in Hstep, Hstep1, Hstep3.
  inversion Hstep; subst; clear Hstep.
  inversion Hstep1; subst; clear Hstep1.
  inversion Hstep3; subst; clear Hstep3.
  eexists _, _, _, x10, _, _. cbn zeta.
  split; [exact Hparse | ]. split; [reflexivity | ].
  split; [exact Hstep9 | ]. split; [exact Hstep10 | ].
  split; [reflexivity | ]. split; [exact Hstep12 | ]. reflexivity.
Qed.

(** ** A request that is turned down *)

(** X11. A request whose channel preference is not allowed goes no
    further than the input parser: no other step is called, and the answer
    is the failure with status 500 whose detail starts with
    ["Input Parsing Failed: "]. *)
Theorem rejected_request_stops (c : Collaborators) (i : ApiInput) :
  existsb (String.eqb (channel_preference i)) allowed = false ->
  exists reason,
    run_pipeline c i =
    ([(ParseInput, false)],
     Raise (HTTPException 500 ("Input Parsing Failed: " ++ reason)%string)).
Proof.
  intros Hcp. unfold run_pipeline, pipeline_body, call_plain, bindM, call, parse_input.
  rewrite InputParserFacts.validate_api_dict, Hcp. cbn.
  eexists. reflexivity.
Qed.

(** The preference written without its space. *)
Lemma rejected_request_stops_witness :
  exists reason,
    run_pipeline sample_collaborators (request "AIRecommend" None None (Some 6000)) =
    ([(ParseInput, false)],
     Raise (HTTPException 500 ("Input Parsing Failed: " ++ reason)%string)).
Proof. apply rejected_request_stops. reflexivity. Defined.

(** ** Every failure has status 500 *)

Lemma raises_internal_ok {A : Type} (a : A) : raises_internal (Ok a).
Proof. intros e H. discriminate. Qed.

Lemma raises_internal_bind {A B : Type} (r : result A) (f : A -> result B) :
  raises_internal r -> (forall a, raises_internal (f a)) -> raises_internal (bind r f).
Proof.
  intros Hr Hf. destruct r as [a | e]; cbn [bind]; [apply Hf | ].
  intros e' H. inversion H; subst e'. now apply Hr.
Qed.

Lemma item_internal {V : Type} (k : string) (d : dict V) : raises_internal (item k d).
Proof.
  unfold item. destruct (get k d); intros e H; [discriminate | ].
  inversion H; subst. exact I.
Qed.

Lemma of_int_internal (n : Z) : raises_internal (PyFloat.of_int n).
Proof.
  unfold PyFloat.of_int.
  destruct (binary_normalize _ _ _ _ _); intros err H; try discriminate.
  inversion H; subst. exact I.
Qed.

Lemma to_int_internal (f : spec_float) : raises_internal (PyFloat.to_int f).
Proof.
  destruct f; intros err H; try discriminate; inversion H; subst; exact I.
Qed.

Lemma int_of_mul_internal (n : Z) (f : spec_float) :
  raises_internal (PyFloat.int_of_mul n f).
Proof.
  unfold PyFloat.int_of_mul, PyFloat.mul_int.
  apply raises_internal_bind; [ | intros x; apply to_int_internal].
  apply raises_internal_bind; [apply of_int_internal | intros x; apply raises_internal_ok].
Qed.

Lemma truediv_internal (a b : Z) : raises_internal (PyFloat.truediv a b).
Proof.
  unfold PyFloat.truediv. destruct (b =? 0).
  - intros err H. inversion H; subst. exact I.
  - destruct (SFdiv _ _ _ _); intros err H; try discriminate.
    inversion H; subst. exact I.
Qed.

Lemma collect_reductions_internal (adjusted : dict Z) (h : string)
    (boost_amount total_other_budget : Z) (channels : list string) :
  forall st,
    raises_internal
      (BudgetAllocator.collect_reductions adjusted h boost_amount total_other_budget
         channels st).
Proof.
  induction channels as [ | channel rest IH]; intros st;
    cbn [BudgetAllocator.collect_reductions].
  - apply raises_internal_ok.
  - destruct (String.eqb channel h); [apply IH | ].
    apply raises_internal_bind; [apply item_internal | intros a].
    apply raises_internal_bind; [apply truediv_internal | intros proportion].
    apply raises_internal_bind; [apply int_of_mul_internal | intros r1].
    apply raises_internal_bind; [apply int_of_mul_internal | intros r2].
    apply IH.
Qed.

Lemma allocate_budget_internal (total_budget : Z) (channels : list string)
    (previous_results : dict string) :
  raises_internal (BudgetAllocator.allocate_budget total_budget channels previous_results).
Proof.
  unfold BudgetAllocator.allocate_budget.
  destruct (_ || _); [apply raises_internal_ok | ].
  apply raises_internal_bind; [ | intros adjusted; apply raises_internal_ok].
  destruct (BudgetAllocator.find_high_roi channels previous_results) as [h | ];
    [ | apply raises_internal_ok].
  destruct (_ && _); [ | apply raises_internal_ok].
  unfold BudgetAllocator.apply_boost.
  apply raises_internal_bind; [apply item_internal | intros vh].
  apply raises_internal_bind; [apply int_of_mul_internal | intros intended].
  destruct (_ >? 0); [ | apply raises_internal_ok].
  apply raises_internal_bind; [apply collect_reductions_internal | intros st].
  destruct (_ >? 0); apply raises_internal_ok.
Qed.

Lemma parse_input_internal (raw : dict pyval) : raises_internal (parse_input raw).
Proof.
  unfold parse_input. destruct (validate raw); intros err H; [discriminate | ].
  inversion H; subst. exact I.
Qed.

Lemma str_item_internal (k : string) (d : dict pyval) : raises_internal (str_item k d).
Proof.
  unfold str_item. apply raises_internal_bind; [apply item_internal | ].
  intros [ | z | s]; intros err H; try discriminate; inversion H; subst; exact I.
Qed.

Lemma stretch_internal_bind {A B : Type} (m : M A) (f : A -> M B) :
  stretch_internal m -> (forall a, stretch_internal (f a)) ->
  stretch_internal (bindM m f).
Proof.
  intros Hm Hf log. unfold bindM. specialize (Hm log).
  destruct (m log) as [log1 [a | e]]; [apply Hf | ].
  intros e' H. inversion H; subst e'. now apply Hm.
Qed.

Lemma stretch_internal_call {A : Type} (s : step) (eo : A -> bool) (r : result A) :
  raises_internal r -> stretch_internal (call s eo r).
Proof. intros Hr log. exact Hr. Qed.

Lemma stretch_internal_lift {A : Type} (r : result A) :
  raises_internal r -> stretch_internal (lift r).
Proof. intros Hr log. exact Hr. Qed.

Lemma stretch_internal_check {A : Type} (what : string) (g : generated A) :
  stretch_internal (fail_on_error what g).
Proof.
  intros log. unfold fail_on_error. destruct (has_error g); intros e H.
  - inversion H; subst. exact I.
  - discriminate.
Qed.

Lemma pipeline_body_internal (c : Collaborators) (i : ApiInput) :
  stretch_internal (pipeline_body c i).
Proof.
  unfold pipeline_body, call_plain.
  repeat first
    [ apply stretch_internal_bind; [ | intro ]
    | apply stretch_internal_check
    | apply stretch_internal_call
    | apply stretch_internal_lift
    | apply raises_internal_ok
    | apply parse_input_internal
    | apply str_item_internal
    | apply allocate_budget_internal ].
Qed.

(** X12. A request is answered with a plan or with a failure of status
    500; no failure carries another status. *)
Theorem failure_status_500 (c : Collaborators) (i : ApiInput) :
  (exists final_plan, snd (run_pipeline c i) = Ok final_plan) \/
  (exists detail, snd (run_pipeline c i) = Raise (HTTPException 500 detail)).
Proof.
  unfold run_pipeline.
  pose proof (pipeline_body_internal c i []) as Hint.
  destruct (pipeline_body c i []) as [log [plan | e]]; cbn [snd] in *.
  - left. now exists plan.
  - right. destruct e as [ve | status detail | type_name].
    + now eexists.
    + destruct (Hint _ eq_refl).
    + now eexists.
Qed.

(** ** The steps come in order *)

Lemma in_order_lift {A : Type} (n : nat) (r : result A) : in_order n n (lift r).
Proof.
  intros log Hlog. unfold lift. destruct r; lazy beta iota; [assumption | now exists n].
Qed.

Lemma in_order_check {A : Type} (n : nat) (what : string) (g : generated A) :
  in_order n n (fail_on_error what g).
Proof.
  unfold fail_on_error. destruct (has_error g).
  - apply in_order_lift.
  - intros log Hlog. unfold ret. exact Hlog.
Qed.

Lemma map_fst_snoc (n : nat) (log : list event) (s : step) (b : bool) :
  map fst log = firstn n step_order ->
  firstn n step_order ++ [s] = firstn (S n) step_order ->
  map fst (log ++ [(s, b)]) = firstn (S n) step_order.
Proof.
  intros Hlog Hs. etransitivity; [apply map_app | ].
  etransitivity; [ | exact Hs]. apply (f_equal (fun l => l ++ [s])). exact Hlog.
Qed.

Lemma in_order_call {A : Type} (n : nat) (s : step) (eo : A -> bool) (r : result A) :
  firstn n step_order ++ [s] = firstn (S n) step_order ->
  in_order n (S n) (call s eo r).
Proof.
  intros Hs log Hlog. unfold call.
  destruct r; lazy beta iota; [ | exists (S n)]; now apply map_fst_snoc.
Qed.

Lemma in_order_bind {A B : Type} (n n1 n2 : nat) (m : M A) (f : A -> M B) :
  in_order n n1 m -> (forall a, in_order n1 n2 (f a)) -> in_order n n2 (bindM m f).
Proof.
  intros Hm Hf log Hlog. unfold bindM. specialize (Hm log Hlog).
  destruct (m log) as [log1 [a | e]]; [now apply Hf | exact Hm].
Qed.

Lemma pipeline_body_in_order (c : Collaborators) (i : ApiInput) :
  in_order 0 11 (pipeline_body c i).
Proof.
  unfold pipeline_body, call_plain.
  eapply in_order_bind; [now apply in_order_call | intros cleaned].
  eapply in_order_bind; [apply in_order_lift | intros goal].
  eapply in_order_bind; [now apply in_order_call | intros ents].
  eapply in_order_bind; [apply in_order_lift | intros uid].
  eapply in_order_bind; [now apply in_order_call | intros previous].
  eapply in_order_bind; [apply in_order_lift | intros loc].
  eapply in_order_bind; [now apply in_order_call | intros trend].
  eapply in_order_bind; [now apply in_order_call | intros context].
  eapply in_order_bind; [now apply in_order_call | intros persona].
  eapply in_order_bind; [apply in_order_check | intros _].
  eapply in_order_bind; [now apply in_order_call | intros strategy].
  eapply in_order_bind; [apply in_order_check | intros _].
  eapply in_order_bind; [now apply in_order_call | intros split].
  eapply in_order_bind; [now apply in_order_call | intros creative].
  eapply in_order_bind; [apply in_order_check | intros _].
  eapply in_order_bind; [now apply in_order_call | intros visual].
  eapply in_order_bind; [apply in_order_check | intros _].
  now apply in_order_call.
Qed.

(** X13. The steps are called in their order, each at most once.  A
    request that is answered with a plan went through all eleven; one that
    fails went through some first of them. *)
Theorem steps_in_order (c : Collaborators) (i : ApiInput) :
  match snd (run_pipeline c i) with
  | Ok _ => map fst (fst (run_pipeline c i)) = step_order
  | Raise _ => exists k, map fst (fst (run_pipeline c i)) = firstn k step_order
  end.
Proof.
  unfold run_pipeline.
  pose proof (pipeline_body_in_order c i [] eq_refl) as Hord.
  destruct (pipeline_body c i []) as [log [plan | e]].
  - exact Hord.
  - destruct e; exact Hord.
Qed.

(** ** The budgets of a plan *)

Lemma budget_get_of (cleaned : dict pyval) (b default : Z) :
  budget_of cleaned = Some b -> budget_get default cleaned = b.
Proof.
  unfold budget_of, get_int, budget_get.
  destruct (get "budget" cleaned) as [[ | z | s] | ]; intros H; now inversion H.
Qed.

Lemma total_allocated_map (split : dict Z) (creative : generated (dict string))
    (prompts channels : list string) :
  total_allocated (map (channel_rec split creative prompts) channels)
  = fold_right Z.add 0 (map (fun ch => get_default ch 0 split) channels).
Proof.
  unfold total_allocated. rewrite map_map. reflexivity.
Qed.

(** Looking up every key of a dictionary adds up to its total. *)
Lemma sum_over_keys (d : dict Z) :
  well_formed d ->
  fold_right Z.add 0 (map (fun k => get_default k 0 d) (keys d)) = sum_values d.
Proof.
  unfold well_formed, keys.
  induction d as [ | [k v] d IH]; cbn [map fst]; intros Hnd; [reflexivity | ].
  inversion Hnd as [ | x l Hnotin Hnd']; subst.
  cbn [fold_right]. rewrite PyDictFacts.sum_values_cons. f_equal.
  - unfold get_default. cbn. now rewrite String.eqb_refl.
  - rewrite <- (IH Hnd'). f_equal. apply map_ext_in. intros k' Hk'.
    unfold get_default. cbn.
    destruct (String.eqb k' k) eqn:E; [ | reflexivity].
    apply String.eqb_eq in E. subst k'. contradiction.
Qed.

(** On distinct channels the split lists the channels in their order. *)
Lemma allocate_budget_keys_distinct (total_budget : Z) (channels : list string)
    (previous_results : dict string) (split : dict Z) :
  NoDup channels -> channels <> [] -> 0 < total_budget ->
  BudgetAllocator.allocate_budget total_budget channels previous_results = Ok split ->
  keys split = channels.
Proof.
  intros Hnd Hne Hpos Halloc.
  rewrite (SplitShapeFacts.allocate_budget_keys _ _ _ _ Hne Hpos Halloc).
  destruct (EqualSplitFacts.initial_split_distinct
              (total_budget / Z.of_nat (List.length channels))
              (total_budget mod Z.of_nat (List.length channels)) channels Hnd 0 [])
    as [_ Hkeys]; [reflexivity | exact Hkeys].
Qed.

(** X14. The budgets of a plan add up to the budget of the request: when
    the plan has at least one channel, its channels are pairwise distinct,
    and the budget the parser settled on is at least zero, the allocated
    budgets of the channels sum to that budget. *)
Theorem plan_budgets_sum (c : Collaborators) (i : ApiInput) (log : list event)
    (plan : CampaignPlan) (cleaned : dict pyval) (b : Z) :
  run_pipeline c i = (log, Ok plan) ->
  parse_input (api_dict i) = Ok cleaned -> budget_of cleaned = Some b -> 0 <= b ->
  channel_recommendations plan <> [] ->
  NoDup (map channel_name (channel_recommendations plan)) ->
  total_allocated (channel_recommendations plan) = b.
Proof.
  intros Hrun Hparse Hb Hpos Hne Hnd.
  destruct (run_pipeline_plan c i log plan Hrun)
    as [cleaned' [persona [strategy [split [creative [visual H]]]]]].
  cbn zeta in H. destruct H as [Hparse' [_ [_ [Halloc [_ [_ Hplan]]]]]].
  rewrite Hparse in Hparse'. inversion Hparse'; subst cleaned'; clear Hparse'.
  rewrite (budget_get_of cleaned b 0 Hb) in Halloc.
  subst plan. cbn [channel_recommendations] in *.
  rewrite map_map in Hnd. cbn [channel_name channel_rec] in Hnd. rewrite map_id in Hnd.
  assert (Hch : strategy_channels strategy <> []).
  { intros E. apply Hne. now rewrite E. }
  rewrite total_allocated_map.
  destruct (AllocatorFacts.allocate_budget_sound b _ _ split Hch Hpos Halloc)
    as [_ Hsum].
  destruct (Z.eq_dec b 0) as [Hb0 | Hb0].
  - clear Hsum. subst b. unfold BudgetAllocator.allocate_budget in Halloc.
    change (0 <=? 0) with true in Halloc.
    rewrite orb_true_r in Halloc. inversion Halloc; subst split.
    clear. induction (strategy_channels strategy) as [ | ch rest IH]; [reflexivity | ].
    cbn [map fold_right]. rewrite IH. reflexivity.
  - rewrite <- (allocate_budget_keys_distinct b _ _ split Hnd Hch ltac:(lia) Halloc).
    rewrite sum_over_keys; [exact Hsum | ].
    unfold well_formed.
    now rewrite (allocate_budget_keys_distinct b _ _ split Hnd Hch ltac:(lia) Halloc).
Qed.

(** The sample request: 3000 and 3000 make the 6000. *)
Lemma plan_budgets_sum_witness :
  total_allocated (channel_recommendations sample_plan) = 6000.
Proof.
  apply (plan_budgets_sum sample_collaborators (request "Both" None None (Some 6000))
           full_log sample_plan _ 6000 sample_run eq_refl).
  - reflexivity.
  - lia.
  - discriminate.
  - repeat constructor; cbn; intuition discriminate.
Defined.

(** ** The history store and the boost *)

(** Neither summary of the store has the words the allocator looks for. *)
Lemma store_identifies_nothing (user_id : string) (channels : list string) :
  BudgetAllocator.find_high_roi channels (get_previous_results user_id) = None.
Proof.
  unfold get_previous_results. destruct (String.eqb user_id _); reflexivity.
Qed.

(** X15. With the history store as it is, no plan carries a boost: when
    the channels of a plan are pairwise distinct and the budget is above
    zero, every channel is allocated the whole quotient of the budget by
    the number of channels, and the first few, as many as the remainder,
    one more. *)
Theorem plan_budgets_equal (c : Collaborators) (i : ApiInput) (log : list event)
    (plan : CampaignPlan) (cleaned : dict pyval) (b : Z)
    (p : nat) (r : ChannelRecommendation) :
  run_pipeline c i = (log, Ok plan) ->
  parse_input (api_dict i) = Ok cleaned -> budget_of cleaned = Some b -> 0 < b ->
  NoDup (map channel_name (channel_recommendations plan)) ->
  nth_error (channel_recommendations plan) p = Some r ->
  let n := Z.of_nat (List.length (channel_recommendations plan)) in
  allocated_budget r = b / n + (if Z.of_nat p <? b mod n then 1 else 0).
Proof.
  intros Hrun Hparse Hb Hpos Hnd Hp.
  destruct (run_pipeline_plan c i log plan Hrun)
    as [cleaned' [persona [strategy [split [creative [visual H]]]]]].
  cbn zeta in H. destruct H as [Hparse' [_ [_ [Halloc [_ [_ Hplan]]]]]].
  rewrite Hparse in Hparse'. inversion Hparse'; subst cleaned'; clear Hparse'.
  rewrite (budget_get_of cleaned b 0 Hb) in Halloc.
  subst plan. cbn [channel_recommendations] in *.
  rewrite map_map in Hnd. cbn [channel_name channel_rec] in Hnd. rewrite map_id in Hnd.
  rewrite length_map.
  rewrite nth_error_map in Hp.
  destruct (nth_error (strategy_channels strategy) p) as [ch | ] eqn:Ech;
    [ | discriminate].
  cbn [option_map] in Hp. inversion Hp; subst r; clear Hp.
  assert (Hch : strategy_channels strategy <> []).
  { intros E. rewrite E in Ech. destruct p; discriminate. }
  rewrite (HighRoiFacts.no_high_roi_equal_split b _ _ Hnd Hch Hpos
             (store_identifies_nothing _ _)) in Halloc.
  inversion Halloc; subst split; clear Halloc.
  cbn [allocated_budget channel_rec]. unfold get_default.
  now rewrite (SplitShapeFacts.initial_split_at _ _ _ Hnd 0 [] p ch Ech).
Qed.

(** The sample request, whose user has a history: 3000 each all the same. *)
Lemma plan_budgets_equal_witness :
  allocated_budget sample_pamphlets = 6000 / 2 + (if 1 <? 6000 mod 2 then 1 else 0).
Proof.
  apply (plan_budgets_equal sample_collaborators (request "Both" None None (Some 6000))
           full_log sample_plan _ 6000 1 sample_pamphlets sample_run eq_refl).
  - reflexivity.
  - lia.
  - repeat constructor; cbn; intuition discriminate.
  - reflexivity.
Defined.

(** ** The note and the visual prompt *)

(** X16. The feedback note of a plan is the summary the history store
    holds for the user, and so never the text the driver keeps for a
    store without a summary. *)
Theorem feedback_note_from_store (c : Collaborators) (i : ApiInput)
    (log : list event) (plan : CampaignPlan) :
  run_pipeline c i = (log, Ok plan) ->
  get "previous_campaign_summary" (get_previous_results (user_id i))
    = Some (feedback_loop_note plan) /\
  feedback_loop_note plan <> "No past data used."%string.
Proof.
  intros Hrun.
  destruct (run_pipeline_plan c i log plan Hrun)
    as [cleaned [persona [strategy [split [creative [visual H]]]]]].
  cbn zeta in H. destruct H as [_ [_ [_ [_ [_ [_ Hplan]]]]]].
  subst plan. cbn [feedback_loop_note].
  unfold get_previous_results. destruct (String.eqb (user_id i) _); cbn.
  - split; [reflexivity | discriminate].
  - split; [reflexivity | discriminate].
Qed.

(** The sample request: the note is the summary of the last campaign. *)
Lemma feedback_note_from_store_witness :
  get "previous_campaign_summary" (get_previous_results "user123_with_history")
    = Some (feedback_loop_note sample_plan) /\
  feedback_loop_note sample_plan <> "No past data used."%string.
Proof.
  exact (feedback_note_from_store sample_collaborators
           (request "Both" None None (Some 6000)) full_log sample_plan sample_run).
Defined.



End DriverFacts.

(* ================================================================== *)
(** * Step 2: what the lists of the entity extractor are like *)

Module NerFacts.
Import PyDict PyDictFacts NerExtractor.
Local Open Scope list_scope.

(** ** Sorting and listing once *)

Lemma in_insert_sorted (x a : string) (l : list string) :
  In x (PyStr.insert_sorted a l) <-> x = a \/ In x l.
Proof.
  induction l as [ | y rest IH]; cbn [PyStr.insert_sorted].
  - cbn. intuition congruence.
  - destruct (String.leb a y); cbn [In].
    + intuition congruence.
    + rewrite IH. intuition congruence.
Qed.

Lemma in_sorted (x : string) (l : list string) : In x (PyStr.sorted l) <-> In x l.
Proof.
  unfold PyStr.sorted. induction l as [ | a l IH]; cbn [fold_right In]; [tauto | ].
  rewrite in_insert_sorted, IH. intuition congruence.
Qed.

Lemma NoDup_insert_sorted (a : string) (l : list string) :
  ~ In a l -> NoDup l -> NoDup (PyStr.insert_sorted a l).
Proof.
  induction l as [ | y rest IH]; cbn [PyStr.insert_sorted]; intros Hnotin Hnd.
  - repeat constructor. tauto.
  - destruct (String.leb a y).
    + now constructor.
    + inversion Hnd as [ | y' rest' Hy Hrest]; subst.
      constructor.
      * rewrite in_insert_sorted. cbn [In] in Hnotin. intuition congruence.
      * apply IH; [ | assumption]. cbn [In] in Hnotin. tauto.
Qed.

Lemma NoDup_sorted (l : list string) : NoDup l -> NoDup (PyStr.sorted l).
Proof.
  unfold PyStr.sorted. induction 1 as [ | a l Hnotin Hnd IH]; cbn [fold_right].
  - constructor.
  - apply NoDup_insert_sorted; [ | assumption]. now rewrite in_sorted.
Qed.

Lemma nondecreasing_insert_sorted (a : string) (l : list string) :
  nondecreasing l -> nondecreasing (PyStr.insert_sorted a l).
Proof.
  induction l as [ | y rest IH]; cbn [PyStr.insert_sorted]; intros Hl.
  - cbn. tauto.
  - destruct (String.leb a y) eqn:E.
    + split; assumption.
    + destruct Hl as [Hy Hrest]. specialize (IH Hrest).
      split; [ | exact IH].
      destruct rest as [ | z rest']; cbn [PyStr.insert_sorted] in *.
      * destruct (String.leb_total a y) as [H | H]; congruence.
      * destruct (String.leb a z); [ | exact Hy].
        destruct (String.leb_total a y) as [H | H]; congruence.
Qed.

Lemma nondecreasing_sorted (l : list string) : nondecreasing (PyStr.sorted l).
Proof.
  unfold PyStr.sorted. induction l as [ | a l IH]; cbn [fold_right]; [exact I | ].
  now apply nondecreasing_insert_sorted.
Qed.

Lemma leb_ltb (x y : string) : String.leb x y = true -> x <> y -> String.ltb x y = true.
Proof.
  unfold String.leb, String.ltb. intros Hle Hne.
  destruct (String.compare x y) eqn:E; try reflexivity; try discriminate.
  apply String.compare_eq_iff in E. contradiction.
Qed.

Lemma ascending_nodup (l : list string) : nondecreasing l -> NoDup l -> ascending l.
Proof.
  induction l as [ | x rest IH]; [intros; exact I | ].
  intros [Hx Hrest] Hnd. inversion Hnd as [ | x' rest' Hnotin Hnd']; subst.
  split; [ | now apply IH].
  destruct rest as [ | y rest']; [exact I | ].
  apply leb_ltb; [assumption | ]. intros ->. apply Hnotin. now left.
Qed.

(** [sorted(list(set(l)))]: strictly ascending, each string once, and
    the strings are those of [l]. *)
Lemma sorted_distinct_spec (l : list string) :
  ascending (PyStr.sorted (PyStr.distinct l)) /\
  NoDup (PyStr.sorted (PyStr.distinct l)) /\
  forall x, In x (PyStr.sorted (PyStr.distinct l)) <-> In x l.
Proof.
  assert (Hnd : NoDup (PyStr.sorted (PyStr.distinct l))).
  { apply NoDup_sorted. unfold PyStr.distinct. apply NoDup_nodup. }
  split; [ | split; [exact Hnd | ]].
  - apply ascending_nodup; [apply nondecreasing_sorted | exact Hnd].
  - intros x. rewrite in_sorted. unfold PyStr.distinct. apply nodup_In.
Qed.

Lemma get_tidy (k : string) (entities : dict (list string)) :
  get k (tidy entities)
  = option_map (fun l => PyStr.sorted (PyStr.distinct l)) (get k entities).
Proof.
  unfold tidy. induction entities as [ | [k0 l0] rest IH]; cbn; [reflexivity | ].
  destruct (String.eqb k k0); [reflexivity | exact IH].
Qed.

(** X18. Every list the entity extractor returns is in strictly ascending
    order of the character codes and holds no string twice. *)
Theorem entity_lists_sorted (nlp : string -> Doc) (goal_description : string)
    (entities : dict (list string)) (k : string) (l : list string) :
  extract_entities (Some nlp) goal_description = Pipeline.EntitiesFound entities ->
  get k entities = Some l ->
  ascending l /\ NoDup l.
Proof.
  unfold extract_entities.
  destruct (negb (PyStr.truthy (PyStr.strip goal_description))).
  - intros H. inversion H; subst. discriminate.
  - intros H. inversion H; subst; clear H. rewrite get_tidy.
    destruct (get k _) as [l0 | ]; [ | discriminate].
    cbn [option_map]. intros H. inversion H; subst; clear H.
    destruct (sorted_distinct_spec l0) as [Hasc [Hnd _]]. now split.
Qed.

(** The sample text, from end to end. *)
Lemma sample_extraction :
  extract_entities (Some (fun _ => sample_doc)) "Diwali sale in Pune and pune"
  = Pipeline.EntitiesFound sample_entities.
Proof. reflexivity. Qed.

(** The sample text: the keyword sale, once. *)
Lemma entity_lists_sorted_witness :
  ascending ["sale"%string] /\ NoDup ["sale"%string].
Proof.
  apply (entity_lists_sorted (fun _ => sample_doc) "Diwali sale in Pune and pune"
           sample_entities "misc_keywords").
  - exact sample_extraction.
  - reflexivity.
Defined.

(** ** No text is routed twice *)

Lemma get_append_to_same (k t : string) (entities : dict (list string)) :
  get k (append_to k t entities) = Some (get_default k [] entities ++ [t]).
Proof. unfold append_to. apply get_set_same. Qed.

Lemma get_append_to_other (k k' t : string) (entities : dict (list string)) :
  k' <> k -> get k' (append_to k t entities) = get k' entities.
Proof. intros Hne. unfold append_to. now apply get_set_other. Qed.

Lemma member_false (x : string) (l : list string) :
  PyStr.member x l = false -> ~ In x l.
Proof.
  unfold PyStr.member. intros H Hin.
  assert (Ht : existsb (String.eqb x) l = true).
  { apply existsb_exists. exists x. split; [assumption | apply String.eqb_refl]. }
  congruence.
Qed.

(** A text that is new and in lower case may be routed to any category. *)
Lemma routed_once_append (k text : string) (entities : dict (list string))
    (processed : list string) :
  routed k -> ~ In text processed -> PyStr.lower text = text ->
  routed_once (entities, processed) ->
  routed_once (append_to k text entities, text :: processed).
Proof.
  intros Hk Hnew Hlow [Hmarked Honce]. cbn [fst snd] in *.
  assert (Hold : forall t, In t (get_default k [] entities ++ [text]) ->
                   t = text \/ (t <> text /\ In t (get_default k [] entities))).
  { intros t Ht. apply in_app_or in Ht. destruct Ht as [Ht | [Ht | []]].
    - destruct (string_dec t text); [now left | right; now split].
    - now left. }
  assert (Hk_old : forall t, In t (get_default k [] entities) ->
                     exists l, get k entities = Some l /\ In t l).
  { unfold get_default. intros t Ht. destruct (get k entities) as [l | ].
    - now exists l.
    - destruct Ht. }
  split; cbn [fst snd].
  - intros k' l t Hk' Hget Hin. destruct (string_dec k' k) as [-> | Hne].
    + rewrite get_append_to_same in Hget. inversion Hget; subst l; clear Hget.
      destruct (Hold t Hin) as [-> | [_ Ht]].
      * split; [now left | assumption].
      * destruct (Hk_old t Ht) as [l [Hl Hinl]].
        destruct (Hmarked k l t Hk Hl Hinl) as [Hp Hlo]. split; [now right | assumption].
    + rewrite get_append_to_other in Hget by assumption.
      destruct (Hmarked k' l t Hk' Hget Hin) as [Hp Hlo]. split; [now right | assumption].
  - intros k1 k2 l1 l2 t Hne H1 H2 Hget1 Hget2 Hin1 Hin2.
    destruct (string_dec k1 k) as [-> | Hne1].
    + rewrite get_append_to_same in Hget1. inversion Hget1; subst l1; clear Hget1.
      rewrite get_append_to_other in Hget2 by congruence.
      destruct (Hold t Hin1) as [-> | [_ Ht]].
      * apply Hnew. now apply (Hmarked k2 l2 text H2 Hget2 Hin2).
      * destruct (Hk_old t Ht) as [l [Hl Hinl]].
        exact (Honce k k2 l l2 t Hne H1 H2 Hl Hget2 Hinl Hin2).
    + rewrite get_append_to_other in Hget1 by assumption.
      destruct (string_dec k2 k) as [-> | Hne2].
      * rewrite get_append_to_same in Hget2. inversion Hget2; subst l2; clear Hget2.
        destruct (Hold t Hin2) as [-> | [_ Ht]].
        -- apply Hnew. now apply (Hmarked k1 l1 text H1 Hget1 Hin1).
        -- destruct (Hk_old t Ht) as [l [Hl Hinl]].
           exact (Honce k1 k l1 l t Hne H1 H2 Hget1 Hl Hin1 Hinl).
      * rewrite get_append_to_other in Hget2 by assumption.
        exact (Honce k1 k2 l1 l2 t Hne H1 H2 Hget1 Hget2 Hin1 Hin2).
Qed.

(** Marking a text as processed without routing it. *)
Lemma routed_once_mark (text : string) (entities : dict (list string))
    (processed : list string) :
  routed_once (entities, processed) -> routed_once (entities, text :: processed).
Proof.
  intros [Hmarked Honce]. split; cbn [fst snd] in *; [ | exact Honce].
  intros k l t Hk Hget Hin. destruct (Hmarked k l t Hk Hget Hin) as [Hp Hlo].
  split; [now right | assumption].
Qed.

(** The offer terms are kept on the side. *)
Lemma routed_once_offer (text : string) (entities : dict (list string))
    (processed : list string) :
  routed_once (entities, processed) ->
  routed_once (append_to "offer_terms" text entities, processed).
Proof.
  intros [Hmarked Honce]. split; cbn [fst snd] in *.
  - intros k l t Hk Hget Hin. rewrite get_append_to_other in Hget by exact Hk.
    exact (Hmarked k l t Hk Hget Hin).
  - intros k1 k2 l1 l2 t Hne H1 H2 Hget1 Hget2.
    rewrite get_append_to_other in Hget1 by exact H1.
    rewrite get_append_to_other in Hget2 by exact H2.
    exact (Honce k1 k2 l1 l2 t Hne H1 H2 Hget1 Hget2).
Qed.

Lemma routed_once_route (label text : string) (entities : dict (list string))
    (processed : list string) :
  ~ In text processed -> PyStr.lower text = text ->
  routed_once (entities, processed) ->
  routed_once (route label text entities, text :: processed).
Proof.
  intros Hnew Hlow Hst. unfold route.
  repeat match goal with
         | |- context [if ?b then _ else _] =>
             destruct b; [apply routed_once_append; try assumption; discriminate | ]
         end.
  now apply routed_once_mark.
Qed.

Lemma entity_loop_routed_once (ents : list Span) :
  forall st, routed_once st -> routed_once (entity_loop ents st).
Proof.
  induction ents as [ | ent rest IH]; intros [entities processed] Hst;
    cbn [entity_loop fst snd]; [exact Hst | ].
  destruct (negb (PyStr.truthy _) || PyStr.member _ processed) eqn:E; [now apply IH | ].
  apply orb_false_iff in E. destruct E as [_ Enew].
  apply IH. apply routed_once_route; [now apply member_false | | assumption].
  apply FieldNameFacts.lower_idempotent.
Qed.

Lemma token_loop_routed_once (tokens : list Token) :
  forall st, routed_once st -> routed_once (token_loop tokens st).
Proof.
  induction tokens as [ | token rest IH]; intros [entities processed] Hst;
    cbn [token_loop fst snd]; [exact Hst | ].
  destruct (PyStr.member (pos_ token) _ && negb (is_stop token)
            && negb (PyStr.member (PyStr.lower (lemma_ token)) processed)) eqn:E;
    [ | now apply IH].
  apply andb_true_iff in E. destruct E as [_ Enew].
  apply negb_true_iff in Enew.
  assert (Hkw : routed_once
                  (append_to "misc_keywords" (PyStr.lower (lemma_ token)) entities,
                   PyStr.lower (lemma_ token) :: processed)).
  { apply routed_once_append; [discriminate | now apply member_false | | assumption].
    apply FieldNameFacts.lower_idempotent. }
  destruct (_ || _); apply IH; [now apply routed_once_offer | exact Hkw].
Qed.

(** The two loops, from the empty categories. *)
Lemma loops_routed_once (doc : Doc) :
  routed_once (token_loop (tokens doc) (entity_loop (ents doc) (empty_entities, []))).
Proof.
  apply token_loop_routed_once, entity_loop_routed_once.
  split; cbn [fst snd].
  - intros k l t _ Hget Hin. exfalso. revert Hget. unfold empty_entities. cbn [get].
    repeat match goal with
           | |- context [String.eqb k ?s] => destruct (String.eqb k s)
           end; intros H; inversion H; subst; destruct Hin.
  - intros k1 k2 l1 l2 t _ _ _ Hget _ Hin _. revert Hget. unfold empty_entities. cbn [get].
    repeat match goal with
           | |- context [String.eqb k1 ?s] => destruct (String.eqb k1 s)
           end; intros H; inversion H; subst; destruct Hin.
Qed.

(** X19. The entity extractor puts no text into two categories: among
    the lists of places, events, products, target groups, dates,
    organisations and keywords, no two share a string. *)
Theorem entity_categories_disjoint (nlp : string -> Doc) (goal_description : string)
    (entities : dict (list string)) (k1 k2 : string) (l1 l2 : list string) (t : string) :
  extract_entities (Some nlp) goal_description = Pipeline.EntitiesFound entities ->
  k1 <> k2 -> k1 <> "offer_terms"%string -> k2 <> "offer_terms"%string ->
  get k1 entities = Some l1 -> get k2 entities = Some l2 ->
  In t l1 -> ~ In t l2.
Proof.
  unfold extract_entities.
  destruct (negb (PyStr.truthy (PyStr.strip goal_description))).
  - intros H. inversion H; subst. discriminate.
  - intros H Hne H1 H2. inversion H; subst; clear H. rewrite !get_tidy.
    destruct (loops_routed_once (nlp goal_description)) as [_ Honce].
    destruct (get k1 _) as [l1' | ] eqn:E1; [ | discriminate].
    destruct (get k2 _) as [l2' | ] eqn:E2; [ | discriminate].
    cbn [option_map]. intros Hl1 Hl2. inversion Hl1; subst; inversion Hl2; subst.
    intros Hin1 Hin2.
    apply (proj2 (proj2 (sorted_distinct_spec l1'))) in Hin1.
    apply (proj2 (proj2 (sorted_distinct_spec l2'))) in Hin2.
    exact (Honce k1 k2 l1' l2' t Hne H1 H2 E1 E2 Hin1 Hin2).
Qed.

(** The sample text: Pune is a place, tagged first, and so no
    organisation. *)
Lemma entity_categories_disjoint_witness : ~ In "pune"%string (@nil string).
Proof.
  apply (entity_categories_disjoint (fun _ => sample_doc) "Diwali sale in Pune and pune"
           sample_entities "locations" "orgs" ["pune"%string] [] "pune").
  - exact sample_extraction.
  - discriminate.
  - discriminate.
  - discriminate.
  - reflexivity.
  - reflexivity.
  - now left.
Defined.

(** X20. Whatever the entity extractor routes to a category is in lower
    case; only the offer terms keep the letters of the text. *)
Theorem entity_texts_lower_case (nlp : string -> Doc) (goal_description : string)
    (entities : dict (list string)) (k : string) (l : list string) (t : string) :
  extract_entities (Some nlp) goal_description = Pipeline.EntitiesFound entities ->
  k <> "offer_terms"%string -> get k entities = Some l -> In t l ->
  PyStr.lower t = t.
Proof.
  unfold extract_entities.
  destruct (negb (PyStr.truthy (PyStr.strip goal_description))).
  - intros H. inversion H; subst. discriminate.
  - intros H Hk. inversion H; subst; clear H. rewrite get_tidy.
    destruct (loops_routed_once (nlp goal_description)) as [Hmarked _].
    destruct (get k _) as [l' | ] eqn:E; [ | discriminate].
    cbn [option_map]. intros Hl. inversion Hl; subst. intros Hin.
    apply (proj2 (proj2 (sorted_distinct_spec l'))) in Hin.
    exact (proj2 (Hmarked k l' t Hk E Hin)).
Qed.

(** The sample text: the event is listed as diwali. *)
Lemma entity_texts_lower_case_witness : PyStr.lower "diwali" = "diwali"%string.
Proof.
  apply (entity_texts_lower_case (fun _ => sample_doc) "Diwali sale in Pune and pune"
           sample_entities "events" ["diwali"%string] "diwali").
  - exact sample_extraction.
  - discriminate.
  - reflexivity.
  - now left.
Defined.

End NerFacts.

(* ================================================================== *)
(** * Steps 4 and 5: what becomes of a search *)

Module SearchFacts.
Import PyStr PyStrFacts Serper.

(** ** Step 4: the keywords that count *)

Lemma combined_keywords_firstn (keywords : list string) :
  TrendAnalyzer.combined_keywords (firstn 3 keywords)
  = TrendAnalyzer.combined_keywords keywords.
Proof. unfold TrendAnalyzer.combined_keywords. now rewrite firstn_firstn. Qed.

(** X21. The trend analyzer reads the first three keywords only: the
    answer to a keyword list is the answer to its first three. *)
Theorem trend_first_three_keywords (api_key : bool) (post : string -> outcome)
    (trend_summary_chain : option (string -> string -> string -> chain_outcome string))
    (keywords : list string) (location : string) (event : option string) :
  TrendAnalyzer.analyze_trends_via_search api_key post trend_summary_chain
    keywords location event
  = TrendAnalyzer.analyze_trends_via_search api_key post trend_summary_chain
      (firstn 3 keywords) location event.
Proof.
  destruct keywords as [ | k1 rest]; [reflexivity | ].
  change (firstn 3 (k1 :: rest)) with (k1 :: firstn 2 rest).
  unfold TrendAnalyzer.analyze_trends_via_search, TrendAnalyzer.timing_query,
    TrendAnalyzer.interest_query.
  change (k1 :: firstn 2 rest) with (firstn 3 (k1 :: rest)).
  now rewrite combined_keywords_firstn.
Qed.

(** X22. Without a search key the trend analyzer still asks the chain
    for a summary, and what it hands over as search results is the notice
    of the missing key, once for each of the two searches. *)
Theorem trend_summarizes_missing_key (post : string -> outcome)
    (invoke : string -> string -> string -> chain_outcome string)
    (keywords : list string) (location : string) (event : option string) :
  keywords <> [] ->
  Pipeline.timing_recommendation
    (TrendAnalyzer.analyze_trends_via_search false post (Some invoke)
       keywords location event)
  = match invoke (TrendAnalyzer.combined_keywords keywords) location
            ("Search API key not configured." ++ newline ++
             "Search API key not configured.") with
    | Returned text => strip text
    | Failed _ _ => "Error summarizing trend search results."
    end.
Proof.
  intros Hne. destruct keywords as [ | k1 rest]; [congruence | ].
  unfold TrendAnalyzer.analyze_trends_via_search, TrendAnalyzer.search_google_trends_helper.
  cbn [negb].
  change (strip (or_else "Search API key not configured." "" ++ newline ++
                 or_else "Search API key not configured." ""))
    with ("Search API key not configured." ++ newline ++ "Search API key not configured.").
  cbn [truthy negb String.eqb append newline Ascii.eqb Bool.eqb].
  now destruct (invoke _ _ _).
Qed.

(** One keyword, and a chain that repeats what it is given. *)
Lemma trend_summarizes_missing_key_witness :
  Pipeline.timing_recommendation
    (TrendAnalyzer.analyze_trends_via_search false (fun _ => RequestError)
       (Some (fun _ _ search_results => Returned search_results))
       ["sale"] "Pune" None)
  = match Returned ("Search API key not configured." ++ newline ++
                    "Search API key not configured.") with
    | Returned text => strip text
    | Failed _ _ => "Error summarizing trend search results."
    end.
Proof.
  apply (trend_summarizes_missing_key (fun _ => RequestError)
           (fun _ _ search_results => Returned search_results) ["sale"] "Pune" None).
  discriminate.
Defined.

(** ** Step 5: the snippets that are not summarized *)

Lemma strip_no_events : strip no_events = no_events.
Proof. reflexivity. Qed.

Lemma strip_no_competitors : strip no_competitors = no_competitors.
Proof. reflexivity. Qed.

(** A word in the snippets, in whatever letter case, makes them unusable. *)
Lemma flagged_unusable (w snippets : string) :
  In w ["failed"; "configured"; "found"] -> occurs w (lower snippets) ->
  ContextSearcher.usable snippets = false.
Proof.
  intros Hw Hocc. apply contains_spec in Hocc. unfold ContextSearcher.usable.
  cbn in Hw. destruct Hw as [<- | [<- | [<- | []]]]; rewrite Hocc; cbn [negb].
  - now rewrite andb_false_r.
  - now rewrite andb_false_r.
  - now rewrite andb_false_r.
Qed.

Lemma summarize_unusable (ainvoke : string -> string -> chain_outcome string)
    (fallback what query snippets : string) :
  ContextSearcher.usable snippets = false ->
  ContextSearcher.summarize (Some ainvoke) fallback what query snippets = fallback.
Proof. intros H. unfold ContextSearcher.summarize. now rewrite H. Qed.

(** X23. Snippets that have the word failed, configured or found in
    them, in whatever letter case, are not summarized: the chain is not
    asked, and the summary is the text the step starts from. *)
Theorem flagged_snippets_not_summarized (api_key : bool) (post : string -> outcome)
    (ainvoke : string -> string -> chain_outcome string)
    (location business_type : string) (event : option string) (w : string) :
  In w ["failed"; "configured"; "found"] ->
  (occurs w (lower (ContextSearcher.search_google api_key post
                      (ContextSearcher.event_query location event))) ->
   Pipeline.local_events_summary
     (ContextSearcher.search_local_context api_key post (Some ainvoke)
        location business_type event) = no_events) /\
  (occurs w (lower (ContextSearcher.search_google api_key post
                      (ContextSearcher.competitor_query location business_type))) ->
   Pipeline.competitor_types_summary
     (ContextSearcher.search_local_context api_key post (Some ainvoke)
        location business_type event) = no_competitors).
Proof.
  intros Hw. split; intros Hocc;
    unfold ContextSearcher.search_local_context;
    cbn [Pipeline.local_events_summary Pipeline.competitor_types_summary];
    rewrite summarize_unusable by (now apply (flagged_unusable w)); reflexivity.
Qed.

(** A snippet about a fair that was founded long ago. *)
Lemma flagged_snippets_not_summarized_witness :
  Pipeline.local_events_summary
    (ContextSearcher.search_local_context true founded_snippet (Some fixed_answer)
       "Pune" "cafe" None) = no_events.
Proof.
  apply (proj1 (flagged_snippets_not_summarized true founded_snippet fixed_answer
                  "Pune" "cafe" None "found" ltac:(right; right; now left))).
  exists "the pune fair was ", "ed in 1990.". reflexivity.
Defined.

(** ** Step 5: a search that brings nothing *)

Lemma occurs_app_l (w a b : string) : occurs w a -> occurs w (a ++ b).
Proof.
  intros [before [after H]]. exists before, (after ++ b). subst a.
  now rewrite !append_assoc.
Qed.

(** What [search_google] returns for a quiet search is unusable. *)
Lemma quiet_unusable (api_key : bool) (post : string -> outcome) (query : string) :
  api_key = false \/ quiet (post query) ->
  ContextSearcher.usable (ContextSearcher.search_google api_key post query) = false.
Proof.
  unfold ContextSearcher.search_google. intros [-> | Hquiet]; [reflexivity | ].
  destruct api_key; [ | reflexivity]. cbn [negb].
  destruct (post query) as [results | status_code | | ]; cbn [quiet] in Hquiet.
  - rewrite Hquiet. reflexivity.
  - apply (flagged_unusable "failed"); [now left | ].
    rewrite FieldNameFacts.lower_app. apply occurs_app_l.
    exists "search ", " with status: ". reflexivity.
  - reflexivity.
  - contradiction.
Qed.

(** X24. A search that brings nothing is not summarized.  When the
    search key is not set, or every search ends without snippets, with a
    status error or with a request error, both summaries of the context
    searcher are the texts the step starts from, whatever the chain would
    say. *)
Theorem quiet_search_not_summarized (api_key : bool) (post : string -> outcome)
    (ainvoke : string -> string -> chain_outcome string)
    (location business_type : string) (event : option string) :
  api_key = false \/ (forall query, quiet (post query)) ->
  ContextSearcher.search_local_context api_key post (Some ainvoke)
    location business_type event
  = {| Pipeline.local_events_summary := no_events;
       Pipeline.competitor_types_summary := no_competitors |}.
Proof.
  intros Hquiet. unfold ContextSearcher.search_local_context.
  rewrite !summarize_unusable; [reflexivity | | ];
    apply quiet_unusable; destruct Hquiet as [Hkey | Hq]; auto.
Qed.

(** A service that answers 503 to everything. *)
Lemma quiet_search_not_summarized_witness :
  ContextSearcher.search_local_context true (fun _ => HTTPStatusError 503)
    (Some fixed_answer) "Pune" "cafe" (Some "diwali")
  = {| Pipeline.local_events_summary := no_events;
       Pipeline.competitor_types_summary := no_competitors |}.
Proof.
  apply quiet_search_not_summarized. right. intros query. exact I.
Defined.

(** X25. The notice of an unexpected error is summarized like a search
    result.  It has none of the three words in it, so when every search
    ends with an error that is neither a status error nor a request
    error, the chain is asked to summarize the notice, and its answers are
    the two summaries. *)
Theorem unexpected_error_summarized (post : string -> outcome)
    (ainvoke : string -> string -> chain_outcome string)
    (location business_type : string) (event : option string) :
  (forall query, post query = UnexpectedError) ->
  ContextSearcher.search_local_context true post (Some ainvoke)
    location business_type event
  = {| Pipeline.local_events_summary :=
         strip
           match ainvoke "Unexpected error during search."
                   ("Summarize the main local events or festivals mentioned for " ++
                    location ++ " based on the snippets.") with
           | Returned text => text
           | Failed type_name _ =>
               "Error summarizing event search results: " ++ type_name
           end;
       Pipeline.competitor_types_summary :=
         strip
           match ainvoke "Unexpected error during search."
                   ("Briefly list the main types of competitors mentioned for a " ++
                    business_type ++ " in " ++ location ++ " based on the snippets.") with
           | Returned text => text
           | Failed type_name _ =>
               "Error summarizing competitor search results: " ++ type_name
           end |}.
Proof.
  intros Hpost.
  unfold ContextSearcher.search_local_context, ContextSearcher.search_google.
  rewrite !Hpost. reflexivity.
Qed.

(** The chain answers with a fair that no search has found. *)
Lemma unexpected_error_summarized_witness :
  ContextSearcher.search_local_context true (fun _ => UnexpectedError)
    (Some fixed_answer) "Pune" "cafe" None
  = {| Pipeline.local_events_summary := strip "A fair.";
       Pipeline.competitor_types_summary := strip "A fair." |}.
Proof.
  apply (unexpected_error_summarized (fun _ => UnexpectedError) fixed_answer
           "Pune" "cafe" None).
  reflexivity.
Defined.

(** ** The helpers always have something to say *)

(** X29. Neither search helper ever returns the empty text: there are
    snippets, or there is a notice that tells why there are none. *)
Theorem search_text_never_empty (api_key : bool) (post : string -> outcome)
    (query : string) :
  truthy (ContextSearcher.search_google api_key post query) = true /\
  truthy (TrendAnalyzer.search_google_trends_helper api_key post query) = true.
Proof.
  unfold ContextSearcher.search_google, TrendAnalyzer.search_google_trends_helper.
  destruct api_key; cbn [negb]; [ | split; reflexivity].
  destruct (post query) as [results | status_code | | ]; try (split; reflexivity).
  destruct (truthy (joined_snippets results)) eqn:E; cbn [negb].
  - now split.
  - split; reflexivity.
Qed.

(** ** The summaries are trimmed *)

Lemma lstrip_starts (s : string) : starts_with_space (lstrip s) = false.
Proof.
  induction s as [ | c s IH]; cbn [lstrip]; [reflexivity | ].
  destruct (is_space c) eqn:E; [exact IH | exact E].
Qed.

Lemma rstrip_starts (s : string) :
  starts_with_space s = false -> starts_with_space (rstrip s) = false.
Proof.
  destruct s as [ | c s]; cbn [rstrip starts_with_space]; [reflexivity | ].
  intros Hc. destruct (rstrip s); [now rewrite Hc | exact Hc].
Qed.

Lemma rstrip_ends (s : string) : ends_with_space (rstrip s) = false.
Proof.
  induction s as [ | c s IH]; cbn [rstrip]; [reflexivity | ].
  destruct (rstrip s) as [ | k kept].
  - destruct (is_space c) eqn:E; [reflexivity | exact E].
  - exact IH.
Qed.

Lemma strip_trimmed (s : string) :
  starts_with_space (strip s) = false /\ ends_with_space (strip s) = false.
Proof.
  unfold strip. split; [apply rstrip_starts, lstrip_starts | apply rstrip_ends].
Qed.

(** X27. The two summaries of the context searcher are trimmed: neither
    starts or ends with a white space character, whatever the search and
    the chain have answered. *)
Theorem context_summaries_trimmed (api_key : bool) (post : string -> outcome)
    (search_chain : option (string -> string -> chain_outcome string))
    (location business_type : string) (event : option string) :
  let context :=
    ContextSearcher.search_local_context api_key post search_chain
      location business_type event in
  (starts_with_space (Pipeline.local_events_summary context) = false /\
   ends_with_space (Pipeline.local_events_summary context) = false) /\
  (starts_with_space (Pipeline.competitor_types_summary context) = false /\
   ends_with_space (Pipeline.competitor_types_summary context) = false).
Proof.
  cbn zeta. unfold ContextSearcher.search_local_context.
  cbn [Pipeline.local_events_summary Pipeline.competitor_types_summary].
  split; apply strip_trimmed.
Qed.

End SearchFacts.

(* ================================================================== *)
(** * The driver with steps 2, 4 and 5 in place *)

Module AssemblyFacts.
Import PyDict InputParser Pipeline.
Local Open Scope list_scope.





End AssemblyFacts.
